(** * Serpent DQN agent: a shallow embedding of
    [lib/machine_learning/reinforcement_learning/dqn.py] and the properties of
    its replay memory, frame stack, mode switching, Bellman targets and
    checkpoint file names.

    Layout: Python and numpy preliminaries (exceptions, numbers, strings,
    [collections.deque], [random.sample], the arrays the agent builds); the
    agent, in a section whose variables are its external collaborators (the
    Keras model, the policy's [erode], numpy's cast to [uint8], Python's
    Unicode database and its float printer and parser); the vocabulary of the
    statements; a stub approximator for closed examples; the properties; the
    properties on the stub agent.

    Floats are binary64 values, as Python's are. Predictions of the model are
    taken as binary64 rows. The visual debugger is the list of the images
    handed to it. The console report is not modelled. *)

From Stdlib Require Import ZArith Ascii String List Lia Bool.
From Stdlib Require Import PrimFloat FloatOps SpecFloat.
From Stdlib Require Import DecimalString DecimalPos DecimalZ.
From stdpp Require Import base option list strings gmap.

#[local] Open Scope Z_scope.

(** ** Python exceptions and fallible computations *)

Inductive exn : Type :=
| TypeError
| ValueError
| IndexError
| AttributeError
| OSError
| OverflowError
| ApproximatorError.

Inductive result (A : Type) : Type :=
| Ok (a : A)
| Raise (e : exn).
Arguments Ok {A} a.
Arguments Raise {A} e.

#[global] Instance result_ret : MRet result := fun _ a => Ok a.
#[global] Instance result_bind : MBind result := fun _ _ f m =>
  match m with
  | Ok a => f a
  | Raise e => Raise e
  end.
#[global] Instance result_fmap : FMap result := fun _ _ f m =>
  match m with
  | Ok a => Ok (f a)
  | Raise e => Raise e
  end.

(** ** Python numbers: [int] and [float] (binary64) *)

Inductive PyNum : Type :=
| PyInt (z : Z)
| PyFloat (f : float).

(** [float(z)] for an int: correctly rounded, [OverflowError] when the int is
    too large for a binary64. *)
Definition float_of_Z (z : Z) : result float :=
  let f := SF2Prim (binary_normalize prec emax z 0 false) in
  if is_infinity f then Raise OverflowError else Ok f.

(** Exact comparison of an int with a float, as CPython does it ([None] when
    the float is a NaN: every ordering test is then false). *)
Definition Z_float_compare (z : Z) (f : float) : option comparison :=
  match Prim2SF f with
  | S754_nan => None
  | S754_zero _ => Some (z ?= 0)
  | S754_infinity true => Some Gt
  | S754_infinity false => Some Lt
  | S754_finite s m e =>
      let v := if s then Z.neg m else Z.pos m in
      Some (if 0 <=? e then z ?= v * 2 ^ e else z * 2 ^ (- e) ?= v)
  end.

Definition py_compare (a b : PyNum) : option comparison :=
  match a, b with
  | PyInt x, PyInt y => Some (x ?= y)
  | PyInt x, PyFloat g => Z_float_compare x g
  | PyFloat f, PyInt y => CompOpp <$> Z_float_compare y f
  | PyFloat f, PyFloat g =>
      match PrimFloat.compare f g with
      | FEq => Some Eq
      | FLt => Some Lt
      | FGt => Some Gt
      | FNotComparable => None
      end
  end.

(** [a > b], [a <= b] and [a == b] on Python numbers. *)
Definition py_gt (a b : PyNum) : bool :=
  match py_compare a b with Some Gt => true | _ => false end.
Definition py_le (a b : PyNum) : bool :=
  match py_compare a b with Some Lt | Some Eq => true | _ => false end.
Definition py_eq (a b : PyNum) : bool :=
  match py_compare a b with Some Eq => true | _ => false end.

(** Truth value of a number: zero is false. *)
Definition py_truthy (a : PyNum) : bool :=
  match a with
  | PyInt z => negb (z =? 0)
  | PyFloat f => negb (PrimFloat.eqb f 0%float)
  end.

(** ** Python strings

    A [str] is held as its UTF-8 encoding, one [ascii] per byte. What the
    agent does with strings ([split] on an ASCII separator, concatenation,
    [str] of an int) acts on the encoding as it does on the code points;
    only [int] looks at code points beyond ASCII. *)

(** [str(z)] for an int: decimal digits, with a leading minus sign. *)
Definition str_int (z : Z) : string := NilZero.string_of_int (Z.to_int z).

(** [s.split(sep)] for a one-character separator: never the empty list. *)
Fixpoint split (sep : ascii) (s : string) : list string :=
  match s with
  | EmptyString => [EmptyString]
  | String c r =>
      if Ascii.eqb c sep then EmptyString :: split sep r
      else match split sep r with
           | [] => [String c EmptyString]
           | h :: t => String c h :: t
           end
  end.

Fixpoint occurs (c : ascii) (s : string) : bool :=
  match s with
  | EmptyString => false
  | String a r => Ascii.eqb a c || occurs c r
  end.

(** The ASCII characters [int] skips around a literal: space, tab, newline,
    vertical tab, form feed and carriage return. The separators 28 to 31,
    which [str.strip] removes as well, are not among them. *)
Definition is_space (c : ascii) : bool :=
  let n := nat_of_ascii c in
  (Nat.eqb n 32 || (Nat.leb 9 n && Nat.leb n 13))%nat.

(** The literal without the characters [int] skips before and after it. *)
Fixpoint skip_leading (s : string) : string :=
  match s with
  | String c r => if is_space c then skip_leading r else s
  | EmptyString => EmptyString
  end.

Fixpoint skip_trailing (s : string) : string :=
  match s with
  | EmptyString => EmptyString
  | String c r =>
      match skip_trailing r with
      | EmptyString => if is_space c then EmptyString else String c EmptyString
      | r' => String c r'
      end
  end.

Definition skip_spaces (s : string) : string := skip_trailing (skip_leading s).

(** Digits of an int literal, where single underscores may separate digits
    ([1_000]); the result is the digit string without them. *)
Fixpoint drop_underscores (after_digit : bool) (s : string) : option string :=
  match s with
  | EmptyString => if after_digit then Some EmptyString else None
  | String c r =>
      if Ascii.eqb c "_"%char then
        if after_digit then drop_underscores false r else None
      else String c <$> drop_underscores true r
  end.

Definition int_digits (s : string) : option Z :=
  d ← drop_underscores false s;
  u ← NilZero.uint_of_string d;
  Some (Z.of_uint u).

(** An optionally signed int literal in ASCII, with the whitespace around
    it. *)
Definition int_literal (s : string) : option Z :=
  match skip_spaces s with
  | String "+" r => int_digits r
  | String "-" r => Z.opp <$> int_digits r
  | r => int_digits r
  end.

Fixpoint is_ascii_string (s : string) : bool :=
  match s with
  | EmptyString => true
  | String c r => (N_of_ascii c <? 128)%N && is_ascii_string r
  end.

(** The payload of a UTF-8 continuation byte. *)
Definition continuation_byte (c : ascii) : option N :=
  let n := N_of_ascii c in
  if ((128 <=? n) && (n <? 192))%N then Some (n - 128)%N else None.

(** The code points of a string, from its UTF-8 encoding in shortest form;
    [None] for bytes that encode no string. A [str] may hold surrogates:
    they are read in their three-byte form. *)
Fixpoint code_points (s : string) : option (list N) :=
  match s with
  | EmptyString => Some []
  | String c r =>
      let n := N_of_ascii c in
      if (n <? 128)%N then cons n <$> code_points r
      else if (n <? 192)%N then None
      else if (n <? 224)%N then
        match r with
        | String c1 r1 =>
            match continuation_byte c1 with
            | Some x1 =>
                let ch := ((n - 192) * 64 + x1)%N in
                if (ch <? 128)%N then None else cons ch <$> code_points r1
            | None => None
            end
        | _ => None
        end
      else if (n <? 240)%N then
        match r with
        | String c1 (String c2 r2) =>
            match continuation_byte c1, continuation_byte c2 with
            | Some x1, Some x2 =>
                let ch := ((n - 224) * 4096 + x1 * 64 + x2)%N in
                if (ch <? 2048)%N then None else cons ch <$> code_points r2
            | _, _ => None
            end
        | _ => None
        end
      else if (n <? 248)%N then
        match r with
        | String c1 (String c2 (String c3 r3)) =>
            match continuation_byte c1, continuation_byte c2, continuation_byte c3 with
            | Some x1, Some x2, Some x3 =>
                let ch := ((n - 240) * 262144 + x1 * 4096 + x2 * 64 + x3)%N in
                if ((ch <? 65536) || (1114111 <? ch))%N then None
                else cons ch <$> code_points r3
            | _, _, _ => None
            end
        | _ => None
        end
      else None
  end.

Section Unicode.

(** Python's Unicode database, which changes with the interpreter's version:
    for a code point from 127 on, whether it is whitespace, and its value
    when it is a decimal digit. *)
Variable unicode_space : N -> bool.
Variable unicode_decimal : N -> option N.

(** What [int] makes of a string that is not all ASCII before it reads the
    literal: code points below 127 stay, whitespace becomes a space, a
    decimal digit becomes its ASCII digit, and at anything else the text
    ends with a question mark. *)
Fixpoint to_ascii_decimal_and_space (chs : list N) : string :=
  match chs with
  | [] => EmptyString
  | ch :: r =>
      if (ch <? 127)%N then String (ascii_of_N ch) (to_ascii_decimal_and_space r)
      else if unicode_space ch then String " " (to_ascii_decimal_and_space r)
      else match unicode_decimal ch with
           | Some d => String (ascii_of_N (48 + d)) (to_ascii_decimal_and_space r)
           | None => "?"
           end
  end.

(** [int(s)] in base 10: [ValueError] on anything that is not an optionally
    signed int literal surrounded by whitespace. An ASCII string is read as
    it is. No bound is put on the number of digits: the limit that Python
    3.11 introduced, for [str] of an int as well, is left out. *)
Definition py_int (s : string) : result Z :=
  let text :=
    if is_ascii_string s then s
    else match code_points s with
         | Some chs => to_ascii_decimal_and_space chs
         | None => "?"
         end in
  match int_literal text with
  | Some z => Ok z
  | None => Raise ValueError
  end.

End Unicode.

(** Star-unpacking [*args, a, b, c = parts]: the last three elements, and
    [ValueError] when there are fewer than three. *)
Definition unpack_last3 {A} (parts : list A) : result (list A * A * A * A) :=
  match rev parts with
  | c :: b :: a :: args => Ok (rev args, a, b, c)
  | _ => Raise ValueError
  end.

(** ** [collections.deque] with a [maxlen] *)

Record deque (A : Type) : Type := Deque {
  maxlen : option nat;
  items : list A
}.
Arguments Deque {A} maxlen items.
Arguments maxlen {A} d.
Arguments items {A} d.

(** [collections.deque(maxlen=n)]: [None] is unbounded, a negative bound is a
    [ValueError]. *)
Definition deque_new {A} (n : option Z) : result (deque A) :=
  match n with
  | None => Ok (Deque None [])
  | Some z => if z <? 0 then Raise ValueError else Ok (Deque (Some (Z.to_nat z)) [])
  end.

(** [d.append(x)]: the item goes to the right end, and when the bound is
    exceeded the leftmost item is dropped. *)
Definition deque_append {A} (d : deque A) (x : A) : deque A :=
  let l := items d ++ [x] in
  match maxlen d with
  | None => Deque None l
  | Some n => Deque (Some n) (if (n <? length l)%nat then tail l else l)
  end.

(** ** [random.sample] *)

(** The generator's draw is an input: [choice] lists the positions it picks.
    [random.sample(population, k)] raises [ValueError] unless
    [0 <= k <= len(population)]. *)
Definition random_sample {A} (choice : list nat) (population : list A) (k : Z)
  : result (list A) :=
  if (0 <=? k) && (k <=? Z.of_nat (length population))
  then Ok (omap (fun i => population !! i) choice)
  else Raise ValueError.


(** [range(n)] as a list. *)
Definition py_range (n : Z) : list nat := seq 0 (Z.to_nat n).

(** ** numpy arrays of the shapes the agent uses

    A game frame is a 2-D array of shape [(h, w)], row-major. A 4-D array of
    shape [(n, h, w, d)] is kept as [n] samples, each the row-major list of its
    [h * w] positions, each position holding its [d] values along the last
    axis. *)

Record Frame : Type := MkFrame {
  frame_shape : nat * nat;
  frame_pixels : list float
}.

Record ndarray4 : Type := MkArr4 {
  arr_shape : nat * nat * nat * nat;
  arr_data : list (list (list float))
}.

Definition wf_frame (g : Frame) : Prop :=
  length (frame_pixels g) = (fst (frame_shape g) * snd (frame_shape g))%nat.

Definition shape2_eqb (a b : nat * nat) : bool :=
  Nat.eqb (fst a) (fst b) && Nat.eqb (snd a) (snd b).

(** [np.stack(frames, axis=2)] followed by [.reshape((1,) + shape)]: the
    frames become the last axis of a one-sample array. [ValueError] when the
    tuple is empty or the frames differ in shape. *)
Definition np_stack_axis2 (frames : list Frame) : result ndarray4 :=
  match frames with
  | [] => Raise ValueError
  | g :: rest =>
      if forallb (fun g' => shape2_eqb (frame_shape g') (frame_shape g)) rest then
        let '(h, w) := frame_shape g in
        Ok (MkArr4 (1%nat, h, w, length frames)
              [foldr (fun g' acc => zip_with cons (frame_pixels g') acc)
                     (replicate (h * w) []) frames])
      else Raise ValueError
  end.

(** [game_frame.reshape((1,) + game_frame.shape + (1,))]. *)
Definition reshape_1hw1 (g : Frame) : ndarray4 :=
  let '(h, w) := frame_shape g in
  MkArr4 (1%nat, h, w, 1%nat) [map (fun p => [p]) (frame_pixels g)].

(** [a[:, :, :, :-1]]: all but the last entry of the last axis. *)
Definition slice_drop_last (a : ndarray4) : ndarray4 :=
  let '(n, h, w, d) := arr_shape a in
  MkArr4 (n, h, w, (d - 1)%nat) (map (map (@removelast float)) (arr_data a)).

(** [a[:, :, :, k]] for a one-sample array, as a frame ([IndexError] when
    [k] is past the last axis). *)
Definition channel (k : nat) (a : ndarray4) : result Frame :=
  let '(n, h, w, d) := arr_shape a in
  if (k <? d)%nat then
    Ok (MkFrame (h, w) (map (fun v => nth k v 0%float) (concat (arr_data a))))
  else Raise IndexError.

(** [np.squeeze(a[:, :, :, k])]: the shape [(n, h, w)] without its axes of
    length 1, and the values in row-major order ([IndexError] when [k] is
    past the last axis). *)
Definition squeezed_channel (k : nat) (a : ndarray4) : result (list nat * list float) :=
  let '(n, h, w, d) := arr_shape a in
  if (k <? d)%nat then
    Ok (filter (fun m => m <> 1%nat) [n; h; w],
        map (fun v => nth k v 0%float) (concat (arr_data a)))
  else Raise IndexError.

(** [np.append(a, b, axis=3)]: concatenation along the last axis;
    [ValueError] unless the other three dimensions agree. *)
Definition np_append_axis3 (a b : ndarray4) : result ndarray4 :=
  let '(n, h, w, d) := arr_shape a in
  let '(n', h', w', d') := arr_shape b in
  if Nat.eqb n n' && Nat.eqb h h' && Nat.eqb w w' then
    Ok (MkArr4 (n, h, w, (d + d')%nat)
          (zip_with (zip_with app) (arr_data a) (arr_data b)))
  else Raise ValueError.

(** [np.zeros((n, h, w, d))] and [np.zeros((n, m))]; a negative dimension is
    a [ValueError]. *)
Definition np_zeros4 (n : Z) (h w d : nat) : result ndarray4 :=
  if n <? 0 then Raise ValueError
  else Ok (MkArr4 (Z.to_nat n, h, w, d)
             (replicate (Z.to_nat n) (replicate (h * w) (replicate d 0%float)))).

Definition np_zeros2 (n : Z) (m : nat) : result (list (list float)) :=
  if n <? 0 then Raise ValueError
  else Ok (replicate (Z.to_nat n) (replicate m 0%float)).

(** Broadcasting one axis of length [k] to length [K]. *)
Definition broadcastable (k K : nat) : bool := Nat.eqb k K || Nat.eqb k 1.

Definition broadcast_list {A} (k K : nat) (l : list A) : list A :=
  if Nat.eqb k K then l else concat (replicate K l).

(** [inputs[i:i + 1] = v]: [v] is broadcast to the shape of one sample of
    [inputs]; [ValueError] when it cannot be. *)
Definition assign_sample (inputs : ndarray4) (i : nat) (v : ndarray4)
  : result ndarray4 :=
  let '(N, H, W, D) := arr_shape inputs in
  let '(n, h, w, d) := arr_shape v in
  if Nat.eqb n 1 && broadcastable h H && broadcastable w W && broadcastable d D then
    let smp := default [] (arr_data v !! 0%nat) in
    let cols := if Nat.eqb w W then smp else flat_map (replicate W) smp in
    let rows := broadcast_list h H cols in
    let full := map (broadcast_list d D) rows in
    Ok (MkArr4 (N, H, W, D) (<[i := full]> (arr_data inputs)))
  else Raise ValueError.

(** [targets[i] = row], where [row] is the single row of a [(1, m)]
    prediction: [IndexError] when there is no row [i], [ValueError] when the
    prediction cannot be broadcast to [m] columns. *)
Definition assign_row (targets : list (list float)) (m i : nat) (row : list float)
  : result (list (list float)) :=
  if (i <? length targets)%nat then
    if broadcastable (length row) m then
      Ok (<[i := broadcast_list (length row) m row]> targets)
    else Raise ValueError
  else Raise IndexError.

(** [targets[i, a] = v]. An int [a] counts from the end when negative and is
    an [IndexError] out of range; [a = None] is numpy's [newaxis], so the
    scalar is broadcast over the whole row. *)
Definition assign_cell (targets : list (list float)) (m i : nat) (a : option Z)
  (v : float) : result (list (list float)) :=
  if (i <? length targets)%nat then
    match a with
    | None => Ok (<[i := replicate m v]> targets)
    | Some z =>
        let z' := if z <? 0 then z + Z.of_nat m else z in
        if (0 <=? z') && (z' <? Z.of_nat m) then
          Ok (alter (fun row => <[Z.to_nat z' := v]> row) i targets)
        else Raise IndexError
    end
  else Raise IndexError.

(** [np.maximum] on two floats: a NaN wins. *)
Definition np_maximum (x y : float) : float :=
  if is_nan x then x else if is_nan y then y
  else if PrimFloat.ltb x y then y else x.

(** [np.max] of a 1-D array; [ValueError] on an empty one. *)
Definition np_max (l : list float) : result float :=
  match l with
  | [] => Raise ValueError
  | x :: r => Ok (fold_left np_maximum r x)
  end.

(** ** The agent *)

Inductive Mode : Type := TRAIN | RUN.

Inductive Loss : Type := Logcosh | Mse.

(** A sampled transition:
    [(previous_frame_stack, action_index, reward, frame_stack, terminal)]. *)
Record Transition : Type := MkTransition {
  t_previous_frame_stack : ndarray4;
  t_action_index : option Z;
  t_reward : float;
  t_frame_stack : ndarray4;
  t_terminal : bool
}.

(** Modelled from the spec: the class [EpsilonGreedyQPolicy] is imported from
    a module that is not part of the sources. Its state is the current
    exploration probability [epsilon], directly settable, together with the
    three constructor arguments; a new policy starts at [initial_epsilon]. *)
Record EpsilonGreedyQPolicy : Type := MkPolicy {
  epsilon : PyNum;
  policy_initial_epsilon : PyNum;
  policy_final_epsilon : PyNum;
  policy_max_steps : PyNum
}.

(** Modelled from the spec: the constructor call
    [EpsilonGreedyQPolicy(initial_epsilon=..., final_epsilon=..., max_steps=...)]
    and an assignment to the [epsilon] attribute. *)
Definition new_policy (initial_epsilon final_epsilon max_steps : PyNum)
  : EpsilonGreedyQPolicy :=
  MkPolicy initial_epsilon initial_epsilon final_epsilon max_steps.

Definition with_epsilon (p : EpsilonGreedyQPolicy) (e : PyNum) : EpsilonGreedyQPolicy :=
  MkPolicy e (policy_initial_epsilon p) (policy_final_epsilon p) (policy_max_steps p).

(** An action space: its combinations, each a tuple of atomic inputs. *)
Record ActionSpace : Type := MkActionSpace {
  combinations : list (list (option string))
}.

(** Modelled from the spec: [VisualDebugger] is imported from a module that
    is not part of the sources; the spec has on-screen visual debugging as an
    external collaborator. One call of its [store_image_data], with the
    image data, the image shape and the bucket name it was given. *)
Record StoredImage : Type := MkStoredImage {
  image_data : list Z;
  image_shape : list nat;
  bucket : string
}.

(** [l.index(x)]: the first position of [x], for an [x] that is in [l]. *)
Fixpoint list_index (x : nat) (l : list nat) : nat :=
  match l with
  | [] => 0%nat
  | y :: r => if Nat.eqb y x then 0%nat else S (list_index x r)
  end.

(** The draws [train_on_mini_batch] takes from [random]. *)
Record Draws : Type := MkDraws {
  mini_batch_choice : list nat;
  flashback_choice : list nat
}.

(** The default [gamma=0.99] and the factor [0.1] of the default
    [observe_steps], as the binary64 values Python reads them to. *)
Definition gamma_default : float := 0x1.fae147ae147aep-1%float.
Definition one_tenth : float := 0x1.999999999999ap-4%float.
Definition replay_memory_size_default : Z := 15000.

Section Agent.

(** *** External collaborators

    The Keras model is opaque: [predict] on a one-sample stack gives the
    single row of per-action values, [train_on_batch] gives the trained
    model and the loss. Weight files live in a file system that maps paths
    to stored weights. *)
Variable KModel : Type.
Variable Weights : Type.
Variable sequential : option (list nat) -> nat -> KModel.
Variable compile : KModel -> Loss -> float -> KModel.
Variable predict : KModel -> ndarray4 -> result (list float).
Variable train_on_batch :
  KModel -> ndarray4 -> list (list float) -> result (KModel * float).

(** numpy's cast of a float to [uint8], as in [np.array(a, dtype="uint8")]. *)
Variable astype_uint8 : float -> Z.

Variable get_weights : KModel -> Weights.
Variable set_weights : KModel -> Weights -> result KModel.

(** [EpsilonGreedyQPolicy.erode(factor)], from the module that is not part of
    the sources. *)
Variable erode : EpsilonGreedyQPolicy -> PyNum -> EpsilonGreedyQPolicy.

(** Python's Unicode database, as [int] consults it. *)
Variable unicode_space : N -> bool.
Variable unicode_decimal : N -> option N.

(** [str(x)] and [float(s)] for Python floats ([None]: [ValueError]). *)
Variable float_repr : float -> string.
Variable float_parse : string -> option float.

Definition py_str (x : PyNum) : string :=
  match x with
  | PyInt z => str_int z
  | PyFloat f => float_repr f
  end.

Definition py_float (s : string) : result float :=
  match float_parse s with
  | Some f => Ok f
  | None => Raise ValueError
  end.

Definition save_weights (m : KModel) (file_path : string)
  (fs : gmap string Weights) : gmap string Weights :=
  <[file_path := get_weights m]> fs.

Definition load_weights (m : KModel) (fs : gmap string Weights)
  (file_path : string) : result KModel :=
  match fs !! file_path with
  | Some w => set_weights m w
  | None => Raise OSError
  end.

(** *** Agent state: the attributes of [DQN] that the methods below read or
    write. *)
Record DQN : Type := MkDQN {
  input_shape : option (list nat);
  replay_memory : deque Transition;
  batch_size : Z;
  action_space : ActionSpace;
  action_count : nat;
  frame_stack : option ndarray4;
  max_steps : PyNum;
  observe_steps : PyNum;
  current_observe_step : Z;
  current_step : Z;
  initial_epsilon : PyNum;
  final_epsilon : PyNum;
  previous_epsilon : option PyNum;
  epsilon_greedy_q_policy : EpsilonGreedyQPolicy;
  gamma : float;
  current_action_index : option Z;
  mode : Mode;
  model_learning_rate : float;
  model : KModel;
  model_loss : PyNum;
  visual_debugger : list StoredImage
}.

Definition set_replay_memory (v : deque Transition) (s : DQN) : DQN :=
  MkDQN (input_shape s) v (batch_size s) (action_space s) (action_count s)
    (frame_stack s) (max_steps s) (observe_steps s) (current_observe_step s)
    (current_step s) (initial_epsilon s) (final_epsilon s) (previous_epsilon s)
    (epsilon_greedy_q_policy s) (gamma s) (current_action_index s) (mode s)
    (model_learning_rate s) (model s) (model_loss s) (visual_debugger s).

Definition set_frame_stack (v : option ndarray4) (s : DQN) : DQN :=
  MkDQN (input_shape s) (replay_memory s) (batch_size s) (action_space s)
    (action_count s) v (max_steps s) (observe_steps s) (current_observe_step s)
    (current_step s) (initial_epsilon s) (final_epsilon s) (previous_epsilon s)
    (epsilon_greedy_q_policy s) (gamma s) (current_action_index s) (mode s)
    (model_learning_rate s) (model s) (model_loss s) (visual_debugger s).

Definition set_current_observe_step (v : Z) (s : DQN) : DQN :=
  MkDQN (input_shape s) (replay_memory s) (batch_size s) (action_space s)
    (action_count s) (frame_stack s) (max_steps s) (observe_steps s) v
    (current_step s) (initial_epsilon s) (final_epsilon s) (previous_epsilon s)
    (epsilon_greedy_q_policy s) (gamma s) (current_action_index s) (mode s)
    (model_learning_rate s) (model s) (model_loss s) (visual_debugger s).

Definition set_current_step (v : Z) (s : DQN) : DQN :=
  MkDQN (input_shape s) (replay_memory s) (batch_size s) (action_space s)
    (action_count s) (frame_stack s) (max_steps s) (observe_steps s)
    (current_observe_step s) v (initial_epsilon s) (final_epsilon s)
    (previous_epsilon s) (epsilon_greedy_q_policy s) (gamma s)
    (current_action_index s) (mode s) (model_learning_rate s) (model s)
    (model_loss s) (visual_debugger s).

Definition set_previous_epsilon (v : option PyNum) (s : DQN) : DQN :=
  MkDQN (input_shape s) (replay_memory s) (batch_size s) (action_space s)
    (action_count s) (frame_stack s) (max_steps s) (observe_steps s)
    (current_observe_step s) (current_step s) (initial_epsilon s)
    (final_epsilon s) v (epsilon_greedy_q_policy s) (gamma s)
    (current_action_index s) (mode s) (model_learning_rate s) (model s)
    (model_loss s) (visual_debugger s).

Definition set_policy (v : EpsilonGreedyQPolicy) (s : DQN) : DQN :=
  MkDQN (input_shape s) (replay_memory s) (batch_size s) (action_space s)
    (action_count s) (frame_stack s) (max_steps s) (observe_steps s)
    (current_observe_step s) (current_step s) (initial_epsilon s)
    (final_epsilon s) (previous_epsilon s) v (gamma s)
    (current_action_index s) (mode s) (model_learning_rate s) (model s)
    (model_loss s) (visual_debugger s).

Definition set_mode (v : Mode) (s : DQN) : DQN :=
  MkDQN (input_shape s) (replay_memory s) (batch_size s) (action_space s)
    (action_count s) (frame_stack s) (max_steps s) (observe_steps s)
    (current_observe_step s) (current_step s) (initial_epsilon s)
    (final_epsilon s) (previous_epsilon s) (epsilon_greedy_q_policy s)
    (gamma s) (current_action_index s) v (model_learning_rate s) (model s)
    (model_loss s) (visual_debugger s).

Definition set_model (v : KModel) (s : DQN) : DQN :=
  MkDQN (input_shape s) (replay_memory s) (batch_size s) (action_space s)
    (action_count s) (frame_stack s) (max_steps s) (observe_steps s)
    (current_observe_step s) (current_step s) (initial_epsilon s)
    (final_epsilon s) (previous_epsilon s) (epsilon_greedy_q_policy s)
    (gamma s) (current_action_index s) (mode s) (model_learning_rate s) v
    (model_loss s) (visual_debugger s).

Definition set_model_loss (v : PyNum) (s : DQN) : DQN :=
  MkDQN (input_shape s) (replay_memory s) (batch_size s) (action_space s)
    (action_count s) (frame_stack s) (max_steps s) (observe_steps s)
    (current_observe_step s) (current_step s) (initial_epsilon s)
    (final_epsilon s) (previous_epsilon s) (epsilon_greedy_q_policy s)
    (gamma s) (current_action_index s) (mode s) (model_learning_rate s)
    (model s) v (visual_debugger s).

Definition set_visual_debugger (v : list StoredImage) (s : DQN) : DQN :=
  MkDQN (input_shape s) (replay_memory s) (batch_size s) (action_space s)
    (action_count s) (frame_stack s) (max_steps s) (observe_steps s)
    (current_observe_step s) (current_step s) (initial_epsilon s)
    (final_epsilon s) (previous_epsilon s) (epsilon_greedy_q_policy s)
    (gamma s) (current_action_index s) (mode s) (model_learning_rate s)
    (model s) (model_loss s) v.

(** The policy's [epsilon] attribute, read and written through the agent. *)
Definition policy_epsilon (s : DQN) : PyNum := epsilon (epsilon_greedy_q_policy s).
Definition set_policy_epsilon (e : PyNum) (s : DQN) : DQN :=
  set_policy (with_epsilon (epsilon_greedy_q_policy s) e) s.

(** *** Methods run in a state monad over the agent: an exception leaves
    the attributes as they were set up to the raising statement. *)
Definition M (A : Type) : Type := DQN -> result A * DQN.

#[global] Instance M_ret : MRet M := fun _ a s => (Ok a, s).
#[global] Instance M_bind : MBind M := fun _ _ f m s =>
  match m s with
  | (Ok a, s') => f a s'
  | (Raise e, s') => (Raise e, s')
  end.

Definition get : M DQN := fun s => (Ok s, s).
Definition modify (f : DQN -> DQN) : M unit := fun s => (Ok tt, f s).
Definition lift {A} (r : result A) : M A := fun s => (r, s).
Definition raise {A} (e : exn) : M A := fun s => (Raise e, s).

(** The state a method leaves, and a sequence of calls. *)
Definition exec {A} (m : M A) (s : DQN) : DQN := (m s).2.

Fixpoint for_each {A} (f : A -> M unit) (l : list A) : M unit :=
  match l with
  | [] => mret tt
  | x :: r => f x;; for_each f r
  end.

(** *** [enter_train_mode], [enter_run_mode], [next_step] *)

Definition enter_train_mode : M unit :=
  s ← get;
  match previous_epsilon s with
  | Some e =>
      modify (set_policy_epsilon e);;
      modify (set_previous_epsilon None)
  | None => mret tt
  end;;
  modify (set_mode TRAIN).

Definition enter_run_mode : M unit :=
  s ← get;
  modify (set_previous_epsilon (Some (policy_epsilon s)));;
  modify (set_policy_epsilon (PyInt 0));;
  modify (set_mode RUN).

Definition next_step : M unit :=
  s ← get;
  match mode s with
  | TRAIN =>
      modify (set_current_step (current_step s + 1));;
      modify (set_current_observe_step (current_observe_step s + 1))
  | RUN => mret tt
  end.

(** *** [build_frame_stack], [update_frame_stack] *)

Definition build_frame_stack (game_frame : Frame) : M unit :=
  stacked ← lift (np_stack_axis2 (replicate 8 game_frame));
  modify (set_frame_stack (Some stacked)).

(** [self.frame_stack] is assigned only once [np.append] has returned, and
    the array it returns is a new one, so a stack stored in a transition is
    never written to afterwards; a [None] stack cannot be sliced
    ([TypeError]). *)
Definition update_frame_stack (game_frame : Frame) : M unit :=
  let game_frame := reshape_1hw1 game_frame in
  s ← get;
  match frame_stack s with
  | None => raise TypeError
  | Some fs =>
      appended ← lift (np_append_axis3 game_frame (slice_drop_last fs));
      modify (set_frame_stack (Some appended))
  end.

(** *** [append_to_replay_memory]

    Both stacks of the stored tuple are arrays: had the stack been [None],
    [update_frame_stack] would have raised before the append. *)
Definition append_to_replay_memory (game_frame : Frame) (reward : float) : M unit :=
  s ← get;
  let previous_frame_stack := frame_stack s in
  update_frame_stack game_frame;;
  s' ← get;
  match previous_frame_stack, frame_stack s' with
  | Some previous, Some current =>
      modify (set_replay_memory
                (deque_append (replay_memory s')
                   (MkTransition previous (current_action_index s') reward
                      current false)))
  | _, _ => raise TypeError
  end.

(** *** [erode_epsilon] *)

Definition erode_epsilon (factor : PyNum) : M unit :=
  s ← get;
  if py_gt (PyInt (current_observe_step s)) (observe_steps s)
     && match mode s with TRAIN => true | RUN => false end
  then modify (set_policy (erode (epsilon_greedy_q_policy s) factor))
  else mret tt.

(** *** [train_on_mini_batch] *)

(** The target of the taken action: the reward of a terminal transition,
    else [reward + gamma * np.max(projected_future_rewards)]. *)
Definition action_target (gamma : float) (t : Transition)
  (projected_future_rewards : list float) : result float :=
  if t_terminal t then Ok (t_reward t)
  else
    best ← np_max projected_future_rewards;
    Ok (t_reward t + gamma * best)%float.

(** Modelled from the spec:
    [self.visual_debugger.store_image_data(image_data, image_shape, bucket)],
    a method of the visual debugger, whose class is not part of the sources.
    The call returns, and the debugger has one more image. *)
Definition store_image_data (image_data : list Z) (image_shape : list nat)
  (bucket : string) : M unit :=
  modify (fun s =>
    set_visual_debugger
      (visual_debugger s ++ [MkStoredImage image_data image_shape bucket]) s).

(** The flashback branch of the loop body: for an index among the flashback
    indices, channel 1 of the transition's resulting stack, scaled by 255 and
    cast to [uint8], goes to the visual debugger under the name
    [flashback_k], [k] counting the flashback indices from 1. *)
Definition store_flashback (flashback_indices : list nat) (i : nat)
  (t : Transition) : M unit :=
  if bool_decide (i ∈ flashback_indices) then
    flashback_image ← lift (squeezed_channel 1 (t_frame_stack t));
    store_image_data
      (map (fun x => astype_uint8 (x * 255)%float) flashback_image.2)
      flashback_image.1
      ("flashback_" +:+ str_int (Z.of_nat (list_index i flashback_indices) + 1))
  else mret tt.

(** The body of the [for] loop, from index [i] on. The loop writes no
    attribute of the agent but the visual debugger's images: [m], [gamma]
    and [action_count] are the agent's model, [gamma] and number of target
    columns throughout. *)
Fixpoint fill_batch (m : KModel) (gamma : float) (action_count : nat)
  (flashback_indices : list nat) (i : nat) (mini_batch : list Transition)
  (inputs : ndarray4) (targets : list (list float))
  : M (ndarray4 * list (list float)) :=
  match mini_batch with
  | [] => mret (inputs, targets)
  | t :: rest =>
      store_flashback flashback_indices i t;;
      inputs ← lift (assign_sample inputs i (t_previous_frame_stack t));
      prediction ← lift (predict m (t_previous_frame_stack t));
      targets ← lift (assign_row targets action_count i prediction);
      projected_future_rewards ← lift (predict m (t_frame_stack t));
      value ← lift (action_target gamma t projected_future_rewards);
      targets ← lift (assign_cell targets action_count i (t_action_index t) value);
      fill_batch m gamma action_count flashback_indices (S i) rest inputs targets
  end.

(** Everything between the observe-phase test and [train_on_batch]: the
    sampled mini-batch with the [inputs] and [targets] built from it. *)
Definition build_batch (draws : Draws)
  : M (list Transition * ndarray4 * list (list float)) :=
  s ← get;
  mini_batch ← lift (random_sample (mini_batch_choice draws)
                       (items (replay_memory s)) (batch_size s));
  match frame_stack s with
  | None => raise AttributeError
  | Some fs =>
      let '(_, h, w, d) := arr_shape fs in
      inputs ← lift (np_zeros4 (batch_size s) h w d);
      targets ← lift (np_zeros2 (batch_size s) (action_count s));
      flashback_indices ← lift (random_sample (flashback_choice draws)
                                  (py_range (batch_size s)) 6);
      filled ← fill_batch (model s) (gamma s) (action_count s)
                 flashback_indices 0 mini_batch inputs targets;
      mret (mini_batch, filled.1, filled.2)
  end.

Definition train_on_mini_batch (draws : Draws) : M unit :=
  s ← get;
  if py_le (PyInt (current_observe_step s)) (observe_steps s) then mret tt
  else
    batch ← build_batch draws;
    trained ← lift (train_on_batch (model s) batch.1.2 batch.2);
    modify (set_model trained.1);;
    modify (set_model_loss (PyFloat trained.2)).

(** *** [save_model_weights], [load_model_weights] *)

Definition checkpoint_file_path (file_path_prefix : string) (is_checkpoint : bool)
  (s : DQN) : string :=
  let epsilon := policy_epsilon s in
  if is_checkpoint then
    file_path_prefix +:+ "_dqn_" +:+ str_int (current_step s) +:+ "_"
      +:+ py_str epsilon +:+ "_.h5"
  else
    file_path_prefix +:+ "_dqn_" +:+ py_str epsilon +:+ "_.h5".

(** Saving leaves the agent as it is and writes one file. *)
Definition save_model_weights (file_path_prefix : string) (is_checkpoint : bool)
  (s : DQN) (fs : gmap string Weights) : gmap string Weights :=
  save_weights (model s) (checkpoint_file_path file_path_prefix is_checkpoint s) fs.

Definition file_path_prefix_default : string := "datasets/model_".

Definition load_model_weights (fs : gmap string Weights) (file_path : string)
  (override_epsilon : bool) : M unit :=
  s ← get;
  loaded ← lift (load_weights (model s) fs file_path);
  modify (set_model (compile loaded Mse (model_learning_rate s)));;
  parts ← lift (unpack_last3 (split "_" file_path));
  let '(args, steps, epsilon, extension) := parts in
  n ← lift (py_int unicode_space unicode_decimal steps);
  modify (set_current_step n);;
  if override_epsilon then
    e ← lift (py_float epsilon);
    modify (set_previous_epsilon (Some (PyFloat e)));;
    modify (set_policy_epsilon (PyFloat e))
  else mret tt.

(** *** [__init__]

    The arguments with their defaults ([None] for an argument left out). The
    action-to-input mapping is built apart, below; the visual debugger
    starts without images. *)
Record Config : Type := MkConfig {
  cfg_input_shape : option (list nat);
  cfg_replay_memory_size : option Z;
  cfg_batch_size : Z;
  cfg_action_space : ActionSpace;
  cfg_max_steps : PyNum;
  cfg_observe_steps : option PyNum;
  cfg_initial_epsilon : PyNum;
  cfg_final_epsilon : PyNum;
  cfg_gamma : float;
  cfg_model_file_path : option string;
  cfg_model_learning_rate : float;
  cfg_override_epsilon : bool
}.


(** [observe_steps or (0.1 * replay_memory_size)]: the product is taken only
when [observe_steps] is [None] or zero, and needs an int size. *)
Definition observe_steps_of (observe_steps : option PyNum)
  (replay_memory_size : option Z) : result PyNum :=
  let fallback :=
    match replay_memory_size with
    | Some n => f ← float_of_Z n; Ok (PyFloat (one_tenth * f))
    | None => Raise TypeError
    end in
  match observe_steps with
  | Some v => if py_truthy v then Ok v else fallback
  | None => fallback
  end.

Definition _initialize_model (input_shape : option (list nat))
  (action_count : nat) (learning_rate : float) : KModel :=
  compile (sequential input_shape action_count) Logcosh learning_rate.

Definition init (fs : gmap string Weights) (c : Config) : result DQN :=
  memory ← deque_new (cfg_replay_memory_size c);
  let action_count := length (combinations (cfg_action_space c)) in
  observe_steps ← observe_steps_of (cfg_observe_steps c) (cfg_replay_memory_size c);
  let s :=
    MkDQN (cfg_input_shape c) memory (cfg_batch_size c) (cfg_action_space c)
      action_count None (cfg_max_steps c) observe_steps 0 0
      (cfg_initial_epsilon c) (cfg_final_epsilon c) (Some (cfg_initial_epsilon c))
      (new_policy (cfg_initial_epsilon c) (cfg_final_epsilon c) (cfg_max_steps c))
      (cfg_gamma c) None TRAIN (cfg_model_learning_rate c)
      (_initialize_model (cfg_input_shape c) action_count (cfg_model_learning_rate c))
      (PyInt 0) [] in
  match cfg_model_file_path c with
  | Some file_path =>
      match load_model_weights fs file_path (cfg_override_epsilon c) s with
      | (Ok _, s') => Ok (set_model_loss (PyInt 0) s')
      | (Raise e, _) => Raise e
      end
  | None => Ok s
  end.

End Agent.

Arguments MkDQN {KModel}.
Arguments replay_memory {KModel} _.
Arguments batch_size {KModel} _.
Arguments action_count {KModel} _.
Arguments frame_stack {KModel} _.
Arguments observe_steps {KModel} _.
Arguments current_observe_step {KModel} _.
Arguments current_step {KModel} _.
Arguments previous_epsilon {KModel} _.
Arguments epsilon_greedy_q_policy {KModel} _.
Arguments gamma {KModel} _.
Arguments current_action_index {KModel} _.
Arguments mode {KModel} _.
Arguments model_learning_rate {KModel} _.
Arguments model {KModel} _.
Arguments model_loss {KModel} _.
Arguments visual_debugger {KModel} _.
Arguments policy_epsilon {KModel} _.
Arguments set_replay_memory {KModel} _ _.
Arguments set_frame_stack {KModel} _ _.
Arguments set_current_observe_step {KModel} _ _.
Arguments set_current_step {KModel} _ _.
Arguments set_previous_epsilon {KModel} _ _.
Arguments set_policy {KModel} _ _.
Arguments set_policy_epsilon {KModel} _ _.
Arguments set_mode {KModel} _ _.
Arguments set_model {KModel} _ _.
Arguments set_model_loss {KModel} _ _.
Arguments set_visual_debugger {KModel} _ _.
Arguments get {KModel}.
Arguments modify {KModel} _.
Arguments lift {KModel A} _.
Arguments raise {KModel A} _.
Arguments exec {KModel A} _ _.
Arguments for_each {KModel A} _ _.
Arguments enter_train_mode {KModel}.
Arguments enter_run_mode {KModel}.
Arguments next_step {KModel}.
Arguments build_frame_stack {KModel} _.
Arguments update_frame_stack {KModel} _.
Arguments append_to_replay_memory {KModel} _ _.
Arguments erode_epsilon {KModel} _ _.
Arguments store_image_data {KModel} _ _ _.
Arguments store_flashback {KModel} _ _ _ _.
Arguments fill_batch {KModel} _ _ _ _ _ _ _ _ _ _.
Arguments build_batch {KModel} _ _ _.
Arguments train_on_mini_batch {KModel} _ _ _ _.
Arguments checkpoint_file_path {KModel} _ _ _ _.
Arguments save_model_weights {KModel Weights} _ _ _ _ _ _.
Arguments load_weights {KModel Weights} _ _ _ _.
Arguments save_weights {KModel Weights} _ _ _ _.
Arguments load_model_weights {KModel Weights} _ _ _ _ _ _ _ _.
Arguments init {KModel Weights} _ _ _ _ _ _ _ _.

(** ** Vocabulary of the statements *)

(** The last axis of [np.stack(frames, axis=2)], position by position. *)
Definition columns (N : nat) (frames : list Frame) : list (list float) :=
  foldr (fun g acc => zip_with cons (frame_pixels g) acc) (replicate N []) frames.

(** One [update_frame_stack], on the positions of the single sample, and a
    run of them. *)
Definition push (P : list float) (D : list (list float)) : list (list float) :=
  zip_with app (map (fun p => [p]) P) (map (@removelast float) D).

Definition pushes (frames : list Frame) (D : list (list float)) : list (list float) :=
  foldl (fun D g => push (frame_pixels g) D) D frames.

Definition newest (n : nat) (u v : list float) : list float := take n (u ++ v).

(** The agent with further images handed to its visual debugger, and
    nothing else changed. *)
Definition with_images {KModel : Type} (images : list StoredImage) (s : DQN KModel)
  : DQN KModel :=
  set_visual_debugger (visual_debugger s ++ images) s.



(** A decimal digit, and strings of digits. *)
Definition is_digit (c : ascii) : bool :=
  (Nat.leb 48 (nat_of_ascii c) && Nat.leb (nat_of_ascii c) 57)%nat.

Fixpoint digits_only (s : string) : bool :=
  match s with
  | EmptyString => true
  | String c r => is_digit c && digits_only r
  end.

(** The fields of a checkpoint path before the step count. *)
Definition init_parts (file_path_prefix : string) : list string :=
  split "_" file_path_prefix ++ ["dqn"%string].

(** What the observe-phase test of [train_on_mini_batch] reads. *)
Definition observing {KModel : Type} (s : DQN KModel) : bool :=
  py_le (PyInt (current_observe_step s)) (observe_steps s).

(** The attributes an append leaves alone, whether it returns or raises. *)
Definition same_training_state {KModel : Type} (s s' : DQN KModel) : Prop :=
  current_observe_step s' = current_observe_step s /\
  observe_steps s' = observe_steps s /\
  model_loss s' = model_loss s /\
  model s' = model s.

(** The agent of the example scenario: four combinations, a replay memory
    of 10, 5 observe steps, batches of 2. *)
Definition four_actions : ActionSpace :=
  MkActionSpace [[None]; [Some "W"]; [Some "A"]; [Some "W"; Some "A"]]%string.

Definition scenario_config : Config :=
  MkConfig None (Some 10) 2 four_actions (PyInt 1000000) (Some (PyInt 5))
    (PyFloat 1) (PyFloat one_tenth) gamma_default None
    0x1.4f8b588e368f1p-17%float false.

(** ** A stub approximator, for closed examples

    One bias, one output per action; a training step moves the bias and
    reports a fixed loss. Weight files store the bias. *)
Module Stub.

Record KModel : Type := MkK {
  k_outputs : nat;
  k_bias : float;
  k_loss : Loss
}.

Definition sequential (input_shape : option (list nat)) (n : nat) : KModel :=
  MkK n 0 Logcosh.

Definition compile (m : KModel) (l : Loss) (lr : float) : KModel :=
  MkK (k_outputs m) (k_bias m) l.

(** The value of action [j] is the bias plus [j] times the newest value at
    the first position of the stack. *)
Definition first_value (a : ndarray4) : float :=
  match arr_data a with
  | ((x :: _) :: _) :: _ => x
  | _ => 0
  end.

Fixpoint ramp (n : nat) (start step : float) : list float :=
  match n with
  | O => []
  | S n' => start :: ramp n' (start + step) step
  end.

Definition predict (m : KModel) (a : ndarray4) : result (list float) :=
  Ok (ramp (k_outputs m) (k_bias m) (first_value a)).

Definition train_on_batch (m : KModel) (inputs : ndarray4)
  (targets : list (list float)) : result (KModel * float) :=
  Ok (MkK (k_outputs m) (k_bias m + 1) (k_loss m), 0.25%float).

(** numpy's cast to [uint8] as it comes out for the positive values of the
    examples: the integer part, modulo 256. *)
Definition astype_uint8 (x : float) : Z :=
  match Prim2SF x with
  | S754_finite false m e =>
      (if 0 <=? e then Z.pos m * 2 ^ e else Z.pos m / 2 ^ (- e)) mod 256
  | _ => 0
  end.

(** Python's Unicode database on the code points the examples use: the
    no-break space and the other spaces beyond ASCII, the Arabic-Indic and
    the fullwidth digits. *)
Definition unicode_space (ch : N) : bool :=
  bool_decide (ch ∈ [133; 160; 5760; 8232; 8233; 8239; 8287; 12288]%N)
  || ((8192 <=? ch) && (ch <=? 8202))%N.

Definition unicode_decimal (ch : N) : option N :=
  if ((1632 <=? ch) && (ch <=? 1641))%N then Some (ch - 1632)%N
  else if ((65296 <=? ch) && (ch <=? 65305))%N then Some (ch - 65296)%N
  else None.

Definition get_weights (m : KModel) : float := k_bias m.
Definition set_weights (m : KModel) (w : float) : result KModel :=
  Ok (MkK (k_outputs m) w (k_loss m)).

Definition to_float (x : PyNum) : float :=
  match x with
  | PyInt z => match float_of_Z z with Ok f => f | Raise _ => nan end
  | PyFloat f => f
  end.

(** Modelled from the spec: [erode] is a method of the policy class that is
    not part of the sources. It lowers [epsilon] by
    [(initial_epsilon - final_epsilon) / max_steps * factor] and never below
    [final_epsilon]. *)
Definition erode (p : EpsilonGreedyQPolicy) (factor : PyNum) : EpsilonGreedyQPolicy :=
  let lo := to_float (policy_final_epsilon p) in
  let step := ((to_float (policy_initial_epsilon p) - lo)
               / to_float (policy_max_steps p) * to_float factor)%float in
  let e := (to_float (epsilon p) - step)%float in
  with_epsilon p (PyFloat (if PrimFloat.ltb e lo then lo else e)).

(** Python's float printer and parser on the handful of values the examples
    use. *)
Definition float_repr (f : float) : string :=
  if PrimFloat.Leibniz.eqb f 0.5 then "0.5"
  else if PrimFloat.Leibniz.eqb f 1 then "1.0"
  else if PrimFloat.Leibniz.eqb f 0 then "0.0"
  else "nan".

Definition float_parse (s : string) : option float :=
  if String.eqb s "0.5" then Some 0.5%float
  else if String.eqb s "1.0" then Some 1%float
  else if String.eqb s "0.0" then Some 0%float
  else if String.eqb s "0" then Some 0%float
  else if String.eqb s "nan" then Some nan
  else None.

Abbreviation DQN := (DQN KModel).
Abbreviation erode_epsilon := (erode_epsilon erode).
Abbreviation build_batch := (build_batch predict astype_uint8).
Abbreviation train_on_mini_batch :=
  (train_on_mini_batch predict train_on_batch astype_uint8).
Abbreviation checkpoint_file_path := (checkpoint_file_path (KModel := KModel) float_repr).
Abbreviation save_model_weights := (save_model_weights get_weights float_repr).
Abbreviation int := (py_int unicode_space unicode_decimal).
Abbreviation load_model_weights :=
  (load_model_weights compile set_weights unicode_space unicode_decimal
     float_parse).
Abbreviation init :=
  (init sequential compile set_weights unicode_space unicode_decimal float_parse).

(** A 1 x 2 frame. *)
Definition frame (x y : float) : Frame := MkFrame (1%nat, 2%nat) [x; y].

(** The scenario's agent as [__init__] leaves it, for a batch size and a
    current action index. *)
Definition agent (batch_size : Z) (action_index : option Z) : DQN :=
  MkDQN None (Deque (Some 10%nat) []) batch_size four_actions 4 None
    (PyInt 1000000) (PyInt 5) 0 0 (PyFloat 1) (PyFloat one_tenth)
    (Some (PyFloat 1))
    (new_policy (PyFloat 1) (PyFloat one_tenth) (PyInt 1000000))
    gamma_default action_index TRAIN 0x1.4f8b588e368f1p-17%float
    (MkK 4 0 Logcosh) (PyInt 0) [].

Definition fresh_agent : DQN := agent 2 None.

Definition seed_frame : Frame := frame 1 2.

Definition six_frames : list (Frame * float) :=
  [(frame 3 4, 1); (frame 5 6, 0); (frame 7 8, 2); (frame 9 10, 0);
   (frame 11 12, 1); (frame 13 14, 3)]%float.

Definition eight_frames : list Frame :=
  [frame 3 4; frame 5 6; frame 7 8; frame 9 10; frame 11 12; frame 13 14;
   frame 15 16; frame 17 18]%float.

Definition observe (frames : list (Frame * float)) : M KModel unit :=
  build_frame_stack seed_frame;;
  for_each (fun fr => append_to_replay_memory fr.1 fr.2) frames.

(** The scenario's agent once seeded, and after six appends. *)
Definition seeded_agent : DQN := Eval vm_compute in exec (observe []) fresh_agent.
Definition seeded_stack : ndarray4 :=
  Eval vm_compute in default (MkArr4 (0, 0, 0, 0)%nat []) (frame_stack seeded_agent).
Definition six_appends_agent : DQN :=
  Eval vm_compute in exec (observe six_frames) fresh_agent.

(** An agent with batches of six, action 2 current, after six appends; the
    draws of one training call; and the batch that call builds. *)
Definition replay_agent : DQN :=
  Eval vm_compute in exec (observe six_frames) (agent 6 (Some 2)).
Definition six_draws : Draws := MkDraws [5; 0; 3; 1; 4; 2]%nat [0; 1; 2; 3; 4; 5]%nat.
Definition two_draws : Draws := MkDraws [4; 1]%nat [0; 1]%nat.
Definition replay_batch : list Transition * ndarray4 * list (list float) :=
  Eval vm_compute in
    match build_batch six_draws replay_agent with
    | (Ok b, _) => b
    | (Raise _, _) => ([], MkArr4 (0, 0, 0, 0)%nat [], [])
    end.

(** The replay agent once that batch is built: the visual debugger holds
    the six flashback images. *)
Definition flashback_agent : DQN :=
  Eval vm_compute in exec (build_batch six_draws) replay_agent.

(** Step fields for [int]: [12] after the separator 28, [12] in
    Arabic-Indic digits, and [12] after a no-break space. *)
Definition separator_12 : string := String (ascii_of_nat 28) "12".
Definition arabic_indic_12 : string :=
  string_of_list_ascii (map ascii_of_nat [217; 161; 217; 162]%nat).
Definition no_break_space_12 : string :=
  string_of_list_ascii (map ascii_of_nat [194; 160]%nat) +:+ "12".

(** An agent at step 12 with epsilon 0.5, and a disk holding one weights
    file whose name carries no step or epsilon. *)
Definition checkpointed_agent : DQN :=
  set_policy_epsilon (PyFloat 0.5) (set_current_step 12 fresh_agent).
Definition plain_disk : gmap string float := {["weights.h5"%string := 7%float]}.

End Stub.

(** * The rest of the class *)

(** ** Actions: the mapping built by [__init__], [generate_action],
    [get_input_values] *)

(** A dictionary lookup or a computation around one: [KeyError] beside the
    exceptions above. *)
Inductive dict_result (A : Type) : Type :=
| Found (a : A)
| KeyError
| Failed (e : exn).
Arguments Found {A} a.
Arguments KeyError {A}.
Arguments Failed {A} e.

(** [l[i]] on a list: [None] is a [TypeError], a negative index counts from
    the end, an index out of range is an [IndexError]. *)
Definition py_index {A} (l : list A) (i : option Z) : result A :=
  match i with
  | None => Raise TypeError
  | Some z =>
      let z' := if z <? 0 then z + Z.of_nat (length l) else z in
      if (0 <=? z') && (z' <? Z.of_nat (length l)) then
        match l !! Z.to_nat z' with
        | Some x => Ok x
        | None => Raise IndexError
        end
      else Raise IndexError
  end.

(** [[input_mapping[v] for v in combination_values if v is not None]]. *)
Fixpoint input_values (input_mapping : gmap string (list string))
  (combination_values : list (option string)) : dict_result (list (list string)) :=
  match combination_values with
  | [] => Found []
  | None :: rest => input_values input_mapping rest
  | Some v :: rest =>
      match input_mapping !! v with
      | None => KeyError
      | Some keys =>
          match input_values input_mapping rest with
          | Found l => Found (keys :: l)
          | KeyError => KeyError
          | Failed e => Failed e
          end
      end
  end.

(** The attributes of the agent that hold its actions. *)
Record ActionAttributes : Type := MkActionAttributes {
  action_input_mapping : gmap (list (option string)) (list string);
  current_action : option (list (option string))
}.

Section Actions.

(** [action_space.values_for_combination], a method of the action space,
    whose class is not part of the sources. *)
Variable values_for_combination : list (option string) -> list (option string).

(** The [for] loop of [_generate_action_space_combination_input_mapping],
    from the entries made so far. *)
Fixpoint fill_action_input_mapping (input_mapping : gmap string (list string))
  (combinations : list (list (option string)))
  (action_input_mapping : gmap (list (option string)) (list string))
  : dict_result (gmap (list (option string)) (list string)) :=
  match combinations with
  | [] => Found action_input_mapping
  | combination :: rest =>
      match input_values input_mapping (values_for_combination combination) with
      | Found l =>
          fill_action_input_mapping input_mapping rest
            (<[combination := concat l]> action_input_mapping)
      | KeyError => KeyError
      | Failed e => Failed e
      end
  end.

Definition _generate_action_space_combination_input_mapping
  (action_space : ActionSpace) (input_mapping : gmap string (list string))
  : dict_result (gmap (list (option string)) (list string)) :=
  fill_action_input_mapping input_mapping (combinations action_space) ∅.

End Actions.

(** [generate_action]: the combination at [current_action_index] becomes the
    current action; when the indexing raises, the attributes stay. *)
Definition generate_action {KModel : Type} (s : DQN KModel) (a : ActionAttributes)
  : result unit * ActionAttributes :=
  match py_index (combinations (action_space KModel s)) (current_action_index s) with
  | Ok combination => (Ok tt, MkActionAttributes (action_input_mapping a) (Some
    combination))
  | Raise e => (Raise e, a)
  end.

(** [get_input_values]: [self.action_input_mapping[self.current_action]]. *)
Definition get_input_values (a : ActionAttributes) : dict_result (list string) :=
  match current_action a with
  | None => KeyError
  | Some combination =>
      match action_input_mapping a !! combination with
      | Some keys => Found keys
      | None => KeyError
      end
  end.

(** ** Sequences of method calls *)

Inductive Call (Weights : Type) : Type :=
| CallEnterTrainMode
| CallEnterRunMode
| CallNextStep
| CallBuildFrameStack (game_frame : Frame)
| CallUpdateFrameStack (game_frame : Frame)
| CallAppendToReplayMemory (game_frame : Frame) (reward : float)
| CallErodeEpsilon (factor : PyNum)
| CallTrainOnMiniBatch (draws : Draws)
| CallLoadModelWeights (fs : gmap string Weights) (file_path : string)
    (override_epsilon : bool).
Arguments CallEnterTrainMode {Weights}.
Arguments CallEnterRunMode {Weights}.
Arguments CallNextStep {Weights}.
Arguments CallBuildFrameStack {Weights} game_frame.
Arguments CallUpdateFrameStack {Weights} game_frame.
Arguments CallAppendToReplayMemory {Weights} game_frame reward.
Arguments CallErodeEpsilon {Weights} factor.
Arguments CallTrainOnMiniBatch {Weights} draws.
Arguments CallLoadModelWeights {Weights} fs file_path override_epsilon.

Section Calls.

Context {KModel Weights : Type}.
Variable compile : KModel -> Loss -> float -> KModel.
Variable predict : KModel -> ndarray4 -> result (list float).
Variable train_on_batch :
  KModel -> ndarray4 -> list (list float) -> result (KModel * float).
Variable astype_uint8 : float -> Z.
Variable set_weights : KModel -> Weights -> result KModel.
Variable erode : EpsilonGreedyQPolicy -> PyNum -> EpsilonGreedyQPolicy.
Variable unicode_space : N -> bool.
Variable unicode_decimal : N -> option N.
Variable float_parse : string -> option float.

Definition call (c : Call Weights) : M KModel unit :=
  match c with
  | CallEnterTrainMode => enter_train_mode
  | CallEnterRunMode => enter_run_mode
  | CallNextStep => next_step
  | CallBuildFrameStack g => build_frame_stack g
  | CallUpdateFrameStack g => update_frame_stack g
  | CallAppendToReplayMemory g reward => append_to_replay_memory g reward
  | CallErodeEpsilon factor => erode_epsilon erode factor
  | CallTrainOnMiniBatch draws => train_on_mini_batch predict train_on_batch astype_uint8
    draws
  | CallLoadModelWeights fs file_path override_epsilon =>
      load_model_weights compile set_weights unicode_space unicode_decimal float_parse fs
        file_path override_epsilon
  end.

(** The agent after a sequence of calls, each of which may have raised (the
    caller goes on with the agent as the raising call left it). *)
Definition after_calls (calls : list (Call Weights)) (s : DQN KModel) : DQN KModel :=
  foldl (fun s c => (call c s).2) s calls.

End Calls.

(** The calls that leave the frame stack alone. *)
Definition keeps_frame_stack {Weights : Type} (c : Call Weights) : bool :=
  match c with
  | CallBuildFrameStack _ | CallUpdateFrameStack _ => false
  | _ => true
  end.


(** ** Vocabulary of the further statements *)

(** The attributes fixed by [__init__]. *)
Definition configuration {KModel : Type} (s : DQN KModel) :=
  (input_shape KModel s, maxlen (replay_memory s), batch_size s,
   action_space KModel s, action_count s, max_steps KModel s, observe_steps s,
   initial_epsilon KModel s, final_epsilon KModel s, gamma s,
   model_learning_rate s).

(** A one-sample stack of depth [d] whose data has the size its shape says. *)
Definition wf_stack (d : nat) (a : ndarray4) : Prop :=
  exists (h w : nat) (D : list (list float)),
    a = MkArr4 (1%nat, h, w, d) [D] /\
    length D = (h * w)%nat /\
    Forall (fun v => length v = d) D.

(** A stored transition as [append_to_replay_memory] makes them: not
    terminal, its two stacks one-sample stacks of depth 8 and of one height
    and width. *)
Definition recorded (t : Transition) : Prop :=
  t_terminal t = false /\
  exists h w : nat,
    arr_shape (t_previous_frame_stack t) = (1%nat, h, w, 8%nat) /\
    arr_shape (t_frame_stack t) = (1%nat, h, w, 8%nat).

(** The agent's stack, when there is one, is a one-sample stack of depth 8. *)
Definition stack_of_depth_8 (fs : option ndarray4) : Prop :=
  forall a : ndarray4, fs = Some a ->
    exists h w : nat, arr_shape a = (1%nat, h, w, 8%nat).

(** Consecutive transitions follow one another: the resulting stack of each
    is the prior stack of the next. *)
Definition chained (l : list Transition) : Prop :=
  forall (i : nat) (t t' : Transition),
    l !! i = Some t -> l !! S i = Some t' ->
    t_frame_stack t = t_previous_frame_stack t'.

(** The resulting stack of the newest transition is the agent's stack. *)
Definition newest_is_current (l : list Transition) (fs : option ndarray4) : Prop :=
  forall t : Transition, last l = Some t -> fs = Some (t_frame_stack t).

(** The images a run of [build_batch] hands to the visual debugger. *)
Definition stored_images {KModel : Type}
  (predict : KModel -> ndarray4 -> result (list float)) (astype_uint8 : float -> Z)
  (draws : Draws) (s : DQN KModel) : list StoredImage :=
  drop (length (visual_debugger s))
    (visual_debugger (build_batch predict astype_uint8 draws s).2).
Arguments stored_images : simpl never.

(** All attributes but the model, its loss and the visual debugger. *)
Definition apart_from_model_and_debugger {KModel : Type} (s : DQN KModel) :=
  (configuration s, items (replay_memory s), frame_stack s, current_observe_step s,
   current_step s, previous_epsilon s, epsilon_greedy_q_policy s,
   current_action_index s, mode s).

(** A call made [k] times over. *)
Definition times {KModel : Type} (k : nat) (m : M KModel unit) : M KModel unit :=
  for_each (fun _ : unit => m) (replicate k tt).

(** The calls that step the agent or decay its epsilon. *)
Definition steps_or_erodes {Weights : Type} (c : Call Weights) : bool :=
  match c with
  | CallNextStep | CallErodeEpsilon _ => true
  | _ => false
  end.

(** What every call keeps of the replay memory and the stack. *)
Definition well_recorded {KModel : Type} (s : DQN KModel) : Prop :=
  Forall recorded (items (replay_memory s)) /\ stack_of_depth_8 (frame_stack s).

(** The replay memory reads as one trajectory that ends at the agent's
    stack. *)
Definition trajectory {KModel : Type} (s : DQN KModel) : Prop :=
  chained (items (replay_memory s)) /\
  newest_is_current (items (replay_memory s)) (frame_stack s).



(** ** Further closed examples on the stub approximator *)
Module Play.

Import Stub.

Abbreviation after :=
  (after_calls compile predict train_on_batch astype_uint8 set_weights erode
     unicode_space unicode_decimal float_parse).

(** The replay agent once six [next_step] calls have taken it out of its
    observe phase of 5, and after the training call that follows. *)
Definition stepped_agent : DQN :=
  Eval vm_compute in exec (times 6 next_step) replay_agent.
Definition trained_agent : DQN :=
  Eval vm_compute in exec (train_on_mini_batch six_draws) stepped_agent.

(** The stepped agent with a model of three outputs where the agent has four
    actions: the first prediction does not fit its row of targets. *)
Definition ill_fitted_agent : DQN := set_model (MkK 3 0 Logcosh) stepped_agent.

(** The seeded agent after one append. *)
Definition one_append_agent : DQN :=
  Eval vm_compute in exec (append_to_replay_memory (frame 3 4) 1) seeded_agent.

(** A session of the caller's: a seed, appends, steps, a decay, training
    attempts, a failed load and a stay in RUN mode. *)
Definition session : list (Call float) :=
  [CallBuildFrameStack seed_frame;
   CallAppendToReplayMemory (frame 3 4) 1;
   CallNextStep;
   CallAppendToReplayMemory (MkFrame (2%nat, 2%nat) [1; 2; 3; 4]) 0;
   CallAppendToReplayMemory (frame 5 6) 0;
   CallTrainOnMiniBatch two_draws;
   CallLoadModelWeights plain_disk "weights.h5" true;
   CallUpdateFrameStack (frame 7 8);
   CallEnterRunMode;
   CallNextStep;
   CallEnterTrainMode;
   CallErodeEpsilon (PyInt 1);
   CallAppendToReplayMemory (frame 9 10) 2]%float.

(** Appends, steps and training attempts only. *)
Definition appends_and_steps : list (Call float) :=
  [CallAppendToReplayMemory (frame 3 4) 1;
   CallNextStep;
   CallAppendToReplayMemory (frame 5 6) 0;
   CallTrainOnMiniBatch two_draws;
   CallAppendToReplayMemory (frame 7 8) 2;
   CallEnterRunMode;
   CallAppendToReplayMemory (frame 9 10) 0]%float.

(** Steps and decays, as made during a stay in RUN mode. *)
Definition steps_and_decays : list (Call float) :=
  [CallNextStep; CallErodeEpsilon (PyInt 1); CallNextStep; CallErodeEpsilon (PyInt 2)].

(** Six steps, which end the observe phase of 5, and a decay by a factor
    of 100000. *)
Definition decay : list (Call float) :=
  replicate 6 CallNextStep ++ [CallErodeEpsilon (PyInt 100000)].

(** The scenario's configuration with [observe_steps=0], and the agent
    [__init__] builds from it. *)
Definition zero_observe_config : Config :=
  MkConfig None (Some 10) 2 four_actions (PyInt 1000000) (Some (PyInt 0))
    (PyFloat 1) (PyFloat one_tenth) gamma_default None
    0x1.4f8b588e368f1p-17%float false.
Definition zero_observe_agent : DQN :=
  Eval vm_compute in default fresh_agent
    (match init ∅ zero_observe_config with Ok s => Some s | Raise _ => None end).

(** The scenario's configuration with the checkpoint of the agent at step 12
    as [model_file_path] and [override_epsilon=True], the disk that holds
    the checkpoint, and the agent [__init__] builds from them. *)
Definition checkpoint_config : Config :=
  MkConfig None (Some 10) 2 four_actions (PyInt 1000000) (Some (PyInt 5))
    (PyFloat 1) (PyFloat one_tenth) gamma_default
    (Some "datasets/model__dqn_12_0.5_.h5"%string)
    0x1.4f8b588e368f1p-17%float true.
Definition checkpoint_disk : gmap string float :=
  save_model_weights file_path_prefix_default true checkpointed_agent ∅.
Definition restored_agent : DQN :=
  Eval vm_compute in default fresh_agent
    (match init checkpoint_disk checkpoint_config with
     | Ok s => Some s
     | Raise _ => None
     end).

(** Modelled from the spec: [values_for_combination] is a method of the
    action space, whose class is not part of the sources. It gives the atomic
    input symbols of a combination, null slots included; here a combination
    is the tuple of its symbols. *)
Definition values_for_combination (combination : list (option string))
  : list (option string) := combination.

(** The keys of a keyboard for the symbols of the four actions, and the
    mapping [__init__] builds from them. *)
Definition keyboard : gmap string (list string) :=
  {["W" := ["w"]; "A" := ["a"; "shift"]]}%string.
Definition keyboard_mapping : gmap (list (option string)) (list string) :=
  match _generate_action_space_combination_input_mapping values_for_combination
          four_actions keyboard with
  | Found m => m
  | _ => ∅
  end.
Definition keyboard_actions : ActionAttributes :=
  MkActionAttributes keyboard_mapping None.

End Play.
(** * Properties *)

(** Unfolding the state monad. *)
Ltac unfold_monad := cbv [mbind M_bind mret M_ret get modify lift raise exec].
Ltac unfold_monad_in H :=
  cbv [mbind M_bind mret M_ret get modify lift raise exec] in H.
Ltac run_method := unfold_monad; simpl.

(** After a case split on the head of a bind in [H]: the raising case is
    absurd, the other goes on. *)
Ltac next_bind H := cbn [mbind result_bind] in H; try discriminate H.

Section ModeSwitching.

Context {KModel : Type}.
Implicit Type s : DQN KModel.

Lemma py_compare_gt_zero_not_eq (e : PyNum) :
  py_gt e (PyInt 0) = true -> py_eq (PyInt 0) e = false.
Proof.
  unfold py_gt, py_eq. destruct e as [z|f]; cbn [py_compare].
  - rewrite (Z.compare_antisym z 0).
    destruct (z ?= 0); simpl; congruence.
  - destruct (Z_float_compare 0 f) as [[]|]; simpl; congruence.
Qed.

(** C4. Whatever epsilon was, [enter_run_mode] sets the policy's epsilon to
    the integer 0 (and the mode to RUN), and the [enter_train_mode] that
    follows puts back exactly the epsilon in effect before the switch (and
    the mode to TRAIN); neither call raises. *)
Theorem run_mode_zeroes_epsilon_train_mode_restores s :
  enter_run_mode s = (Ok tt, exec enter_run_mode s) /\
  policy_epsilon (exec enter_run_mode s) = PyInt 0 /\
  mode (exec enter_run_mode s) = RUN /\
  enter_train_mode (exec enter_run_mode s)
    = (Ok tt, exec enter_train_mode (exec enter_run_mode s)) /\
  policy_epsilon (exec enter_train_mode (exec enter_run_mode s)) = policy_epsilon s /\
  mode (exec enter_train_mode (exec enter_run_mode s)) = TRAIN.
Proof.
  unfold enter_run_mode, enter_train_mode. run_method.
  destruct s as [? ? ? ? ? ? ? ? ? ? ? ? ? [e i f m] ? ? ? ? ? ? ?]; simpl.
  repeat split.
Qed.

(** C10. With a positive epsilon [e], two [enter_run_mode] calls in a row
    followed by [enter_train_mode] leave the policy's epsilon at 0, which is
    not [e]: the second call saved the zero over [e], and after the return to
    TRAIN no attribute holds [e] as a saved epsilon any more. *)
Theorem double_run_mode_loses_epsilon s (e : PyNum) :
  policy_epsilon s = e ->
  py_gt e (PyInt 0) = true ->
  let s' := exec enter_train_mode (exec enter_run_mode (exec enter_run_mode s)) in
  previous_epsilon (exec enter_run_mode (exec enter_run_mode s)) = Some (PyInt 0) /\
  policy_epsilon s' = PyInt 0 /\
  py_eq (policy_epsilon s') e = false /\
  policy_epsilon s' <> e /\
  previous_epsilon s' = None /\
  mode s' = TRAIN.
Proof.
  intros He Hpos.
  unfold enter_run_mode, enter_train_mode. run_method.
  destruct s as [? ? ? ? ? ? ? ? ? ? ? ? ? [e0 i f m] ? ? ? ? ? ? ?].
  unfold policy_epsilon in *; simpl in *.
  subst e0.
  pose proof (py_compare_gt_zero_not_eq e Hpos) as Hne.
  repeat split; auto.
  intros <-. unfold py_eq in Hne. simpl in Hne. discriminate.
Qed.

Variable erode : EpsilonGreedyQPolicy -> PyNum -> EpsilonGreedyQPolicy.

(** C8. [erode_epsilon] hands the policy to [erode] exactly when
    [current_observe_step > observe_steps] and the mode is TRAIN; then only
    the policy changes. In RUN mode, or while [current_observe_step] does
    not exceed [observe_steps], the call returns with the whole agent state,
    epsilon included, as it was. *)
Theorem erode_epsilon_only_past_observe_phase_in_train_mode s (factor : PyNum) :
  let past := py_gt (PyInt (current_observe_step s)) (observe_steps s) in
  (past = true /\ mode s = TRAIN ->
     erode_epsilon erode factor s
     = (Ok tt, set_policy (erode (epsilon_greedy_q_policy s) factor) s)) /\
  (past = false \/ mode s = RUN -> erode_epsilon erode factor s = (Ok tt, s)) /\
  (forall n : Z, observe_steps s = PyInt n ->
     (past = true <-> n < current_observe_step s)).
Proof.
  intros past. unfold erode_epsilon. run_method. fold past.
  split; [|split].
  - intros [-> ->]. reflexivity.
  - intros [-> | ->]; [reflexivity|]. rewrite andb_false_r. reflexivity.
  - intros n Hn. subst past. rewrite Hn. unfold py_gt. cbn [py_compare].
    destruct (Z.compare_spec (current_observe_step s) n); split; intros;
      try discriminate; try reflexivity; lia.
Qed.

End ModeSwitching.

(** ** Replay memory *)

Section ReplayMemory.

Context {A : Type}.
Implicit Types (d : deque A) (l ts : list A).

Lemma deque_append_keeps_last (n : nat) l (x : A) :
  deque_append (Deque (Some n) (drop (length l - n) l)) x
  = Deque (Some n) (drop (length (l ++ [x]) - n) (l ++ [x])).
Proof.
  unfold deque_append; simpl. f_equal.
  rewrite !length_app, length_drop; simpl.
  destruct (Nat.ltb_spec n (length l - (length l - n) + 1)) as [Hlt | Hge].
  - assert (Hn : (n <= length l)%nat) by lia.
    replace (length l + 1 - n)%nat with (length l - n + 1)%nat by lia.
    rewrite <- (drop_app_le l [x] (length l - n)) by lia.
    destruct (drop (length l - n) (l ++ [x])) eqn:Hd.
    + apply (f_equal length) in Hd. rewrite length_drop, length_app in Hd.
      simpl in Hd. lia.
    + simpl. rewrite <- (drop_drop _ 1 (length l - n)), Hd. reflexivity.
  - replace (length l - n)%nat with 0%nat by lia.
    replace (length l + 1 - n)%nat with 0%nat by lia.
    reflexivity.
Qed.

Lemma foldl_deque_append_keeps_last (n : nat) ts l :
  foldl deque_append (Deque (Some n) (drop (length l - n) l)) ts
  = Deque (Some n) (drop (length (l ++ ts) - n) (l ++ ts)).
Proof.
  revert l. induction ts as [|x ts IH]; intros l; simpl.
  - rewrite app_nil_r. reflexivity.
  - rewrite deque_append_keeps_last, IH, <- app_assoc. reflexivity.
Qed.

Lemma deque_new_bounded (cap : nat) d :
  deque_new (Some (Z.of_nat cap)) = Ok d -> d = Deque (Some cap) [].
Proof.
  unfold deque_new. destruct (Z.ltb_spec (Z.of_nat cap) 0); [lia|].
  rewrite Nat2Z.id. congruence.
Qed.

End ReplayMemory.

Section Appends.

Context {KModel : Type}.
Implicit Type s : DQN KModel.

Lemma update_frame_stack_cases s (g : Frame) :
  update_frame_stack g s =
    match frame_stack s with
    | None => (Raise TypeError, s)
    | Some fs =>
        match np_append_axis3 (reshape_1hw1 g) (slice_drop_last fs) with
        | Ok a => (Ok tt, set_frame_stack (Some a) s)
        | Raise e => (Raise e, s)
        end
    end.
Proof.
  unfold update_frame_stack. run_method.
  destruct (frame_stack s); [|reflexivity].
  destruct (np_append_axis3 _ _); reflexivity.
Qed.

Lemma append_to_replay_memory_cases s (g : Frame) (reward : float) :
  append_to_replay_memory g reward s =
    match frame_stack s with
    | None => (Raise TypeError, s)
    | Some fs =>
        match np_append_axis3 (reshape_1hw1 g) (slice_drop_last fs) with
        | Ok a =>
            (Ok tt,
             set_replay_memory
               (deque_append (replay_memory s)
                  (MkTransition fs (current_action_index s) reward a false))
               (set_frame_stack (Some a) s))
        | Raise e => (Raise e, s)
        end
    end.
Proof.
  unfold append_to_replay_memory. run_method.
  rewrite update_frame_stack_cases.
  destruct (frame_stack s); [|reflexivity].
  destruct (np_append_axis3 _ _); reflexivity.
Qed.

Lemma np_append_axis3_mismatch (g : Frame) (fs : ndarray4) :
  frame_shape g <> ((arr_shape fs).1.1.2, (arr_shape fs).1.2) ->
  np_append_axis3 (reshape_1hw1 g) (slice_drop_last fs) = Raise ValueError.
Proof.
  destruct g as [[h w] px], fs as [[[[n' h'] w'] d'] dat]; simpl.
  intros Hne. unfold np_append_axis3; simpl.
  destruct (Nat.eqb_spec h h'), (Nat.eqb_spec w w'); subst;
    rewrite ?andb_false_r; try reflexivity.
  congruence.
Qed.

Lemma update_frame_stack_raise_unchanged s (g : Frame) (e : exn) s' :
  update_frame_stack g s = (Raise e, s') -> s' = s.
Proof.
  rewrite update_frame_stack_cases.
  destruct (frame_stack s); [destruct (np_append_axis3 _ _)|]; congruence.
Qed.

Lemma append_to_replay_memory_raise_unchanged s (g : Frame) (reward : float)
  (e : exn) s' :
  append_to_replay_memory g reward s = (Raise e, s') -> s' = s.
Proof.
  rewrite append_to_replay_memory_cases.
  destruct (frame_stack s); [destruct (np_append_axis3 _ _)|]; congruence.
Qed.

(** C9. A frame whose shape differs from the height and width of the stored
    stack makes [update_frame_stack], and so [append_to_replay_memory],
    raise [ValueError] with the agent exactly as before the call: same
    stack, nothing appended. More generally, whenever either method raises,
    the agent is as it was. *)
Theorem shape_mismatch_leaves_stack_and_memory s (g : Frame) (reward : float)
  (fs : ndarray4) :
  frame_stack s = Some fs ->
  frame_shape g <> ((arr_shape fs).1.1.2, (arr_shape fs).1.2) ->
  update_frame_stack g s = (Raise ValueError, s) /\
  append_to_replay_memory g reward s = (Raise ValueError, s) /\
  (forall s0 g0 r0 e s',
     update_frame_stack g0 s0 = (Raise e, s') \/
     append_to_replay_memory g0 r0 s0 = (Raise e, s') ->
     s' = s0 /\ frame_stack s' = frame_stack s0
     /\ replay_memory s' = replay_memory s0).
Proof.
  intros Hfs Hne. split; [|split].
  - rewrite update_frame_stack_cases, Hfs, (np_append_axis3_mismatch g fs Hne).
    reflexivity.
  - rewrite append_to_replay_memory_cases, Hfs, (np_append_axis3_mismatch g fs Hne).
    reflexivity.
  - intros s0 g0 r0 e s' H.
    assert (s' = s0) as ->; [|repeat split].
    destruct H as [H | H].
    + apply (update_frame_stack_raise_unchanged _ _ _ _ H).
    + apply (append_to_replay_memory_raise_unchanged _ _ _ _ _ H).
Qed.

(** C7. A replay memory created with capacity [cap] never holds more than
    [cap] transitions, and after [cap + k] appends it holds exactly the
    transitions after the first [k], in insertion order; so the [k] oldest
    are gone and the last [cap - k] are all there (as its tail). The agent
    touches its replay memory only by such an append, and the default
    capacity is 15000. *)
Theorem replay_memory_bounded_fifo (cap k : nat) (ts : list Transition)
  (d0 : deque Transition) :
  deque_new (Some (Z.of_nat cap)) = Ok d0 ->
  length ts = (cap + k)%nat ->
  let d := foldl deque_append d0 ts in
  (forall pre : list Transition,
     (length (items (foldl deque_append d0 pre)) <= cap)%nat) /\
  maxlen d = Some cap /\
  items d = drop k ts /\
  length (items d) = cap /\
  drop (length ts - (cap - k)) ts `suffix_of` items d /\
  (forall s (g : Frame) (reward : float) s',
     append_to_replay_memory g reward s = (Ok tt, s') ->
     exists t, replay_memory s' = deque_append (replay_memory s) t) /\
  replay_memory_size_default = 15000 /\
  deque_new (A := Transition) (Some replay_memory_size_default)
    = Ok (Deque (Some (Z.to_nat 15000)) []).
Proof.
  intros Hnew Hlen d. apply deque_new_bounded in Hnew. subst d0.
  assert (Hfold : forall l : list Transition,
    foldl deque_append (Deque (Some cap) []) l
    = Deque (Some cap) (drop (length l - cap) l)).
  { intros l. apply (foldl_deque_append_keeps_last cap l []). }
  subst d. rewrite Hfold. simpl.
  replace (length ts - cap)%nat with k by lia.
  repeat split.
  - intros pre. rewrite Hfold. simpl. rewrite length_drop. lia.
  - rewrite length_drop. lia.
  - exists (take (length ts - (cap - k) - k) (drop k ts)).
    rewrite <- (take_drop (length ts - (cap - k) - k) (drop k ts)) at 1.
    rewrite drop_drop. do 2 f_equal. lia.
  - intros s g reward s' H. rewrite append_to_replay_memory_cases in H.
    destruct (frame_stack s); [|congruence].
    destruct (np_append_axis3 _ _); [|congruence].
    inversion H; subst. eexists. reflexivity.
Qed.

End Appends.

(** ** Frame stack *)

Section FrameStack.

Context {KModel : Type}.
Implicit Type s : DQN KModel.
Implicit Types (P : list float) (D C : list (list float)).

Lemma removelast_take (n : nat) (l : list float) :
  (S n <= length l)%nat -> removelast (take (S n) l) = take n l.
Proof.
  revert l. induction n as [|n IH]; intros [|x [|y l]] Hl; simpl in *; try lia.
  - reflexivity.
  - reflexivity.
  - f_equal. apply (IH (y :: l)). simpl. lia.
Qed.

Lemma push_newest (n : nat) P C D :
  Forall (fun v => length v = S n) D ->
  push P (zip_with (newest (S n)) C D)
  = zip_with (newest (S n)) (zip_with cons P C) D.
Proof.
  unfold push. revert C D.
  induction P as [|p P IH]; intros [|u C] [|v D] HD; simpl; try reflexivity.
  inversion HD as [|? ? Hv HD']; subst.
  f_equal.
  - unfold newest. simpl. f_equal.
    rewrite removelast_take; [reflexivity|].
    rewrite length_app. lia.
  - apply IH, HD'.
Qed.

Lemma zip_with_newest_nil (n N : nat) D :
  length D = N -> Forall (fun v => length v = n) D ->
  zip_with (newest n) (replicate N []) D = D.
Proof.
  intros <-. induction D as [|v D IH]; intros HD; simpl; [reflexivity|].
  inversion HD; subst. f_equal; [|apply IH; assumption].
  unfold newest. simpl. apply take_ge. lia.
Qed.

Lemma columns_length (N : nat) (frames : list Frame) :
  Forall (fun g => length (frame_pixels g) = N) frames ->
  length (columns N frames) = N.
Proof.
  induction 1 as [|g frames Hg _ IH]; simpl.
  - apply length_replicate.
  - rewrite length_zip_with. lia.
Qed.

Lemma columns_depth (N : nat) (frames : list Frame) :
  Forall (fun u => length u = length frames) (columns N frames).
Proof.
  induction frames as [|g frames IH]; simpl.
  - apply Forall_forall. intros u Hu.
    apply elem_of_replicate in Hu as [-> _]. reflexivity.
  - generalize dependent (columns N frames). generalize (frame_pixels g).
    induction l as [|p P IHP]; intros [|u C] HC; simpl; constructor.
    + inversion HC; subst. simpl. lia.
    + apply IHP. inversion HC; assumption.
Qed.

Lemma zip_with_newest_full (n : nat) C D :
  length C = length D -> Forall (fun u => length u = n) C ->
  zip_with (newest n) C D = C.
Proof.
  revert D. induction C as [|u C IH]; intros [|v D] Hlen HC; simpl in *;
    try reflexivity; try lia.
  inversion HC; subst. f_equal; [|apply IH; [lia|assumption]].
  unfold newest. rewrite take_app_length. reflexivity.
Qed.

Lemma pushes_newest (n N : nat) (frames : list Frame) D :
  length D = N -> Forall (fun v => length v = S n) D ->
  pushes frames D = zip_with (newest (S n)) (columns N (rev frames)) D.
Proof.
  intros HN HD. induction frames as [|g frames IH] using rev_ind.
  - simpl. symmetry. apply zip_with_newest_nil; assumption.
  - unfold pushes in *. rewrite foldl_app. simpl. rewrite IH.
    rewrite rev_app_distr. simpl. apply push_newest, HD.
Qed.

Lemma shape2_eqb_refl (a : nat * nat) : shape2_eqb a a = true.
Proof. unfold shape2_eqb. rewrite !Nat.eqb_refl. reflexivity. Qed.

Lemma np_stack_axis2_same_shape (h w : nat) (g : Frame) (frames : list Frame) :
  frame_shape g = (h, w) ->
  Forall (fun g' => frame_shape g' = (h, w)) frames ->
  np_stack_axis2 (g :: frames)
  = Ok (MkArr4 (1%nat, h, w, S (length frames)) [columns (h * w) (g :: frames)]).
Proof.
  intros Hg Hall. unfold np_stack_axis2.
  assert (forallb (fun g' => shape2_eqb (frame_shape g') (frame_shape g)) frames = true)
    as ->.
  { apply forallb_forall. intros g' Hin. rewrite Forall_forall in Hall.
    rewrite Hg, (Hall g') by (apply list_elem_of_In, Hin). apply shape2_eqb_refl. }
  rewrite Hg. reflexivity.
Qed.

Lemma update_frame_stack_push s (h w d : nat) (g : Frame) D :
  frame_stack s = Some (MkArr4 (1%nat, h, w, d) [D]) ->
  frame_shape g = (h, w) ->
  update_frame_stack g s
  = (Ok tt, set_frame_stack
              (Some (MkArr4 (1%nat, h, w, (1 + (d - 1))%nat) [push (frame_pixels g) D])) s).
Proof.
  intros Hs Hg. rewrite update_frame_stack_cases, Hs.
  destruct g as [sh P]. simpl in Hg. subst sh.
  unfold np_append_axis3, reshape_1hw1, slice_drop_last. simpl.
  rewrite !Nat.eqb_refl. reflexivity.
Qed.

Lemma for_each_update_frame_stack s (h w : nat) (frames : list Frame) D :
  frame_stack s = Some (MkArr4 (1%nat, h, w, 8%nat) [D]) ->
  Forall (fun g => frame_shape g = (h, w)) frames ->
  for_each update_frame_stack frames s
  = (Ok tt, set_frame_stack (Some (MkArr4 (1%nat, h, w, 8%nat) [pushes frames D])) s).
Proof.
  intros Hs Hall. revert s D Hs.
  induction Hall as [|g frames Hg _ IH]; intros s D Hs.
  - simpl. run_method. destruct s; simpl in *. subst. reflexivity.
  - simpl. run_method.
    rewrite (update_frame_stack_push s h w 8 g D Hs Hg). simpl.
    rewrite (IH _ (push (frame_pixels g) D)) by reflexivity.
    reflexivity.
Qed.

(** C6. [build_frame_stack] leaves a stack of shape [(1, h, w, 8)]; an
    [update_frame_stack], whether it returns or raises, keeps the shape of
    a depth-8 stack;
    and after eight updates with frames of the seed's shape the stack is
    the one [np.stack] builds from those eight frames alone, newest first:
    no copy of the seed frame is left in it. *)
Theorem frame_stack_depth_and_turnover s (seed : Frame) (gs : list Frame)
  (h w : nat) :
  frame_shape seed = (h, w) ->
  wf_frame seed ->
  length gs = 8%nat ->
  Forall (fun g => wf_frame g /\ frame_shape g = (h, w)) gs ->
  (exists fs0,
     build_frame_stack seed s = (Ok tt, set_frame_stack (Some fs0) s) /\
     arr_shape fs0 = (1%nat, h, w, 8%nat)) /\
  (forall s1 (fs1 : ndarray4) (g : Frame) (r : result unit) s2,
     frame_stack s1 = Some fs1 -> (arr_shape fs1).2 = 8%nat ->
     update_frame_stack g s1 = (r, s2) ->
     exists fs2, frame_stack s2 = Some fs2 /\ arr_shape fs2 = arr_shape fs1) /\
  (exists fs8,
     (build_frame_stack seed;; for_each update_frame_stack gs) s
     = (Ok tt, set_frame_stack (Some fs8) s) /\
     arr_shape fs8 = (1%nat, h, w, 8%nat) /\
     np_stack_axis2 (rev gs) = Ok fs8).
Proof.
  intros Hshape Hseed Hlen Hgs.
  assert (Hbuild : np_stack_axis2 (replicate 8 seed)
            = Ok (MkArr4 (1%nat, h, w, 8%nat)
                    [columns (h * w) (replicate 8 seed)])).
  { apply (np_stack_axis2_same_shape h w seed (replicate 7 seed) Hshape).
    apply Forall_replicate, Hshape. }
  split; [|split].
  - eexists. unfold build_frame_stack. unfold_monad. rewrite Hbuild.
    split; reflexivity.
  - intros s1 fs1 g r s2 Hs1 Hd Hupd.
    rewrite update_frame_stack_cases, Hs1 in Hupd.
    destruct g as [[hg wg] P], fs1 as [[[[n1 h1] w1] d1] dat]. simpl in Hd. subst d1.
    unfold np_append_axis3, reshape_1hw1, slice_drop_last in Hupd.
    cbn [arr_shape frame_shape arr_data frame_pixels] in Hupd.
    destruct (Nat.eqb_spec 1 n1), (Nat.eqb_spec hg h1), (Nat.eqb_spec wg w1);
      cbn [andb] in Hupd; injection Hupd as <- <-; subst;
      eexists; (split; [eassumption || reflexivity | reflexivity]).
  - unfold wf_frame in Hseed. rewrite Hshape in Hseed. simpl in Hseed.
    set (D0 := columns (h * w) (replicate 8 seed)) in *.
    assert (HD0len : length D0 = (h * w)%nat).
    { apply columns_length, Forall_replicate, Hseed. }
    assert (HD0depth : Forall (fun v => length v = 8%nat) D0).
    { apply (columns_depth (h * w) (replicate 8 seed)). }
    assert (Hshapes : Forall (fun g => frame_shape g = (h, w)) gs).
    { eapply Forall_impl; [exact Hgs|]. intros g [_ Hg]. exact Hg. }
    assert (Hpix : Forall (fun g => length (frame_pixels g) = (h * w)%nat) (rev gs)).
    { apply Forall_rev. eapply Forall_impl; [exact Hgs|].
      intros g [Hwf Hg]. unfold wf_frame in Hwf. rewrite Hg in Hwf. exact Hwf. }
    exists (MkArr4 (1%nat, h, w, 8%nat) [columns (h * w) (rev gs)]).
    split; [|split; [reflexivity|]].
    + unfold build_frame_stack. unfold_monad. rewrite Hbuild.
      rewrite (for_each_update_frame_stack _ h w gs D0) by (reflexivity || assumption).
      rewrite (pushes_newest 7 (h * w) gs D0 HD0len HD0depth).
      rewrite zip_with_newest_full; [reflexivity| |].
      * rewrite HD0len. apply columns_length, Hpix.
      * pose proof (columns_depth (h * w) (rev gs)) as Hd.
        rewrite length_rev, Hlen in Hd. exact Hd.
    + assert (Hrl : length (rev gs) = 8%nat) by (rewrite length_rev; exact Hlen).
      apply Forall_rev in Hshapes.
      destruct (rev gs) as [|g frames]; [discriminate|].
      inversion Hshapes; subst.
      rewrite (np_stack_axis2_same_shape h w g frames) by assumption.
      simpl in Hrl. rewrite Hrl. reflexivity.
Qed.

End FrameStack.

(** ** Bellman targets *)

Section BellmanTargets.

Context {KModel : Type}.
Variable predict : KModel -> ndarray4 -> result (list float).
Variable train_on_batch :
  KModel -> ndarray4 -> list (list float) -> result (KModel * float).
Variable astype_uint8 : float -> Z.
Implicit Type s : DQN KModel.
Implicit Types (targets : list (list float)) (t : Transition).




Lemma with_images_nil s : with_images [] s = s.
Proof. destruct s. unfold with_images. simpl. rewrite app_nil_r. reflexivity. Qed.

Lemma with_images_app (a b : list StoredImage) s :
  with_images b (with_images a s) = with_images (a ++ b) s.
Proof. destruct s. unfold with_images. simpl. rewrite app_assoc. reflexivity. Qed.

(** What the flashback branch does is the same on every agent: it returns
    or raises, having stored one image or none. *)
Lemma store_flashback_uniform (fl : list nat) (i : nat) t :
  exists (r : result unit) (images : list StoredImage),
    (length images <= 1)%nat /\
    forall s, store_flashback astype_uint8 fl i t s = (r, with_images images s).
Proof.
  unfold store_flashback, store_image_data.
  destruct (bool_decide (i ∈ fl)).
  - destruct (squeezed_channel 1 (t_frame_stack t)) as [image|e].
    + eexists (Ok tt), [_]. split; [simpl; lia|]. intros s. reflexivity.
    + exists (Raise e), []. split; [simpl; lia|]. intros s.
      unfold_monad. rewrite with_images_nil. reflexivity.
  - exists (Ok tt), []. split; [simpl; lia|]. intros s.
    unfold_monad. rewrite with_images_nil. reflexivity.
Qed.

Lemma fill_batch_cons (m : KModel) (gamma : float) (n : nat) (fl : list nat)
  (i : nat) t (rest : list Transition) (inputs : ndarray4) targets :
  fill_batch predict astype_uint8 m gamma n fl i (t :: rest) inputs targets =
    (store_flashback astype_uint8 fl i t;;
     inputs ← lift (assign_sample inputs i (t_previous_frame_stack t));
     prediction ← lift (predict m (t_previous_frame_stack t));
     targets ← lift (assign_row targets n i prediction);
     projected_future_rewards ← lift (predict m (t_frame_stack t));
     value ← lift (action_target gamma t projected_future_rewards);
     targets ← lift (assign_cell targets n i (t_action_index t) value);
     fill_batch predict astype_uint8 m gamma n fl (S i) rest inputs targets).
Proof. reflexivity. Qed.

(** The loop is the same on every agent: it leaves the agent as it was, but
    for the images it stored, one at most per transition. *)
Lemma fill_batch_uniform (m : KModel) (gamma : float) (n : nat) (fl : list nat)
  (mini_batch : list Transition) :
  forall (i : nat) (inputs : ndarray4) targets,
    exists (r : result (ndarray4 * list (list float))) (images : list StoredImage),
      (length images <= length mini_batch)%nat /\
      forall s,
        fill_batch predict astype_uint8 m gamma n fl i mini_batch inputs targets s
        = (r, with_images images s).
Proof.
  induction mini_batch as [|t rest IH]; intros i inputs targets.
  - exists (Ok (inputs, targets)), []. split; [simpl; lia|]. intros s.
    rewrite with_images_nil. reflexivity.
  - destruct (store_flashback_uniform fl i t) as (r0 & first & Hfirst & Hflash).
    assert (Hstop : forall e : exn,
              exists (r : result (ndarray4 * list (list float)))
                     (images : list StoredImage),
                (length images <= S (length rest))%nat /\
                forall s : DQN KModel,
                  (Raise e, with_images first s) = (r, with_images images s)).
    { intros e. exists (Raise e), first. split; [lia|]. reflexivity. }
    destruct r0 as [[]|e0].
    2:{ destruct (Hstop e0) as (r & images & Hlen & Hr).
        exists r, images. split; [exact Hlen|]. intros s.
        rewrite fill_batch_cons. unfold_monad. rewrite Hflash. apply Hr. }
    destruct (assign_sample inputs i (t_previous_frame_stack t)) as [inputs1|e1] eqn:H1.
    2:{ destruct (Hstop e1) as (r & images & Hlen & Hr).
        exists r, images. split; [exact Hlen|]. intros s.
        rewrite fill_batch_cons. unfold_monad. rewrite Hflash, H1. apply Hr. }
    destruct (predict m (t_previous_frame_stack t)) as [p|e2] eqn:H2.
    2:{ destruct (Hstop e2) as (r & images & Hlen & Hr).
        exists r, images. split; [exact Hlen|]. intros s.
        rewrite fill_batch_cons. unfold_monad. rewrite Hflash, H1, H2. apply Hr. }
    destruct (assign_row targets n i p) as [targets1|e3] eqn:H3.
    2:{ destruct (Hstop e3) as (r & images & Hlen & Hr).
        exists r, images. split; [exact Hlen|]. intros s.
        rewrite fill_batch_cons. unfold_monad. rewrite Hflash, H1, H2, H3. apply Hr. }
    destruct (predict m (t_frame_stack t)) as [q|e4] eqn:H4.
    2:{ destruct (Hstop e4) as (r & images & Hlen & Hr).
        exists r, images. split; [exact Hlen|]. intros s.
        rewrite fill_batch_cons. unfold_monad. rewrite Hflash, H1, H2, H3, H4.
        apply Hr. }
    destruct (action_target gamma t q) as [v|e5] eqn:H5.
    2:{ destruct (Hstop e5) as (r & images & Hlen & Hr).
        exists r, images. split; [exact Hlen|]. intros s.
        rewrite fill_batch_cons. unfold_monad. rewrite Hflash, H1, H2, H3, H4, H5.
        apply Hr. }
    destruct (assign_cell targets1 n i (t_action_index t) v) as [targets2|e6] eqn:H6.
    2:{ destruct (Hstop e6) as (r & images & Hlen & Hr).
        exists r, images. split; [exact Hlen|]. intros s.
        rewrite fill_batch_cons. unfold_monad.
        rewrite Hflash, H1, H2, H3, H4, H5, H6. apply Hr. }
    destruct (IH (S i) inputs1 targets2) as (r & more & Hmore & Hrest).
    exists r, (first ++ more). split; [rewrite length_app; simpl; lia|]. intros s.
    rewrite fill_batch_cons. unfold_monad.
    rewrite Hflash, H1, H2, H3, H4, H5, H6, Hrest, with_images_app. reflexivity.
Qed.





(** What [build_batch] did when it returned a batch: both samplings and both
    [np.zeros] went through, and the loop ran on the sampled mini-batch. *)
Lemma build_batch_Ok s (draws : Draws) (mini_batch : list Transition)
  (inputs : ndarray4) targets s' :
  build_batch predict astype_uint8 draws s = (Ok (mini_batch, inputs, targets), s') ->
  random_sample (mini_batch_choice draws) (items (replay_memory s)) (batch_size s)
  = Ok mini_batch /\
  exists (fs : ndarray4) (inputs0 : ndarray4) (targets0 : list (list float))
         (fl : list nat),
    frame_stack s = Some fs /\
    np_zeros4 (batch_size s) (arr_shape fs).1.1.2 (arr_shape fs).1.2 (arr_shape fs).2
    = Ok inputs0 /\
    np_zeros2 (batch_size s) (action_count s) = Ok targets0 /\
    random_sample (flashback_choice draws) (py_range (batch_size s)) 6 = Ok fl /\
    fill_batch predict astype_uint8 (model s) (gamma s) (action_count s) fl 0
      mini_batch inputs0 targets0 s
    = (Ok (inputs, targets), s').
Proof.
  unfold build_batch. unfold_monad.
  destruct (random_sample (mini_batch_choice draws) _ _) as [mb|]; [|discriminate].
  destruct (frame_stack s) as [fs|]; [|discriminate].
  destruct (arr_shape fs) as [[[n0 h] w] d] eqn:Hshape.
  destruct (np_zeros4 _ _ _ _) as [inputs0|] eqn:Hin; [|discriminate].
  destruct (np_zeros2 _ _) as [targets0|] eqn:Hzeros; [|discriminate].
  destruct (random_sample (flashback_choice draws) _ _) as [fl|]; [|discriminate].
  destruct (fill_batch _ _ _ _ _ _ _ _ _ _ _) as [[[inputs1 targets1]|] s1] eqn:Hfill;
    [|discriminate].
  intros [= <- <- <- <-]. split; [reflexivity|].
  exists fs, inputs0, targets0, fl. rewrite Hshape.
  repeat split; try assumption; reflexivity.
Qed.

(** Building the batch writes no attribute of the agent but the visual
    debugger's images. *)
Lemma build_batch_images s (draws : Draws) :
  exists images : list StoredImage,
    (build_batch predict astype_uint8 draws s).2 = with_images images s.
Proof.
  assert (Hstop : exists images : list StoredImage, s = with_images images s)
    by (exists []; rewrite with_images_nil; reflexivity).
  unfold build_batch. unfold_monad.
  destruct (random_sample (mini_batch_choice draws) _ _) as [mb|]; [|exact Hstop].
  destruct (frame_stack s) as [fs|]; [|exact Hstop].
  destruct (arr_shape fs) as [[[n0 h] w] d].
  destruct (np_zeros4 _ _ _ _) as [inputs0|]; [|exact Hstop].
  destruct (np_zeros2 _ _) as [targets0|]; [|exact Hstop].
  destruct (random_sample (flashback_choice draws) _ _) as [fl|]; [|exact Hstop].
  destruct (fill_batch_uniform (model s) (gamma s) (action_count s) fl mb 0%nat
              inputs0 targets0) as (r & images & _ & Hfill).
  exists images. rewrite Hfill. destruct r as [[inputs1 targets1]|]; reflexivity.
Qed.

(** [build_batch] reads the agent but not its mode. *)
Lemma build_batch_set_mode (m : Mode) s (draws : Draws) :
  build_batch predict astype_uint8 draws (set_mode m s)
  = ((build_batch predict astype_uint8 draws s).1,
     set_mode m (build_batch predict astype_uint8 draws s).2).
Proof.
  unfold build_batch. unfold_monad. cbn [set_mode replay_memory batch_size
    frame_stack action_count model gamma].
  destruct (random_sample (mini_batch_choice draws) _ _) as [mb|]; [|reflexivity].
  destruct (frame_stack s) as [fs|]; [|reflexivity].
  destruct (arr_shape fs) as [[[n0 h] w] d].
  destruct (np_zeros4 _ _ _ _) as [inputs0|]; [|reflexivity].
  destruct (np_zeros2 _ _) as [targets0|]; [|reflexivity].
  destruct (random_sample (flashback_choice draws) _ _) as [fl|]; [|reflexivity].
  destruct (fill_batch_uniform (model s) (gamma s) (action_count s) fl mb 0%nat
              inputs0 targets0) as (r & images & _ & Hfill).
  rewrite !Hfill.
  assert (with_images images (set_mode m s) = set_mode m (with_images images s))
    as -> by (destruct s; reflexivity).
  destruct r as [[inputs1 targets1]|]; reflexivity.
Qed.


End BellmanTargets.

(** ** Checkpoint file names *)

Section Strings.

Lemma split_nonempty (sep : ascii) (s : string) : split sep s <> [].
Proof.
  destruct s as [|c r]; simpl; [discriminate|].
  destruct (Ascii.eqb c sep); [discriminate|].
  destruct (split sep r); discriminate.
Qed.

Lemma split_app (sep : ascii) (a b : string) :
  split sep (a +:+ String sep b) = split sep a ++ split sep b.
Proof.
  induction a as [|c r IH]; simpl.
  - rewrite Ascii.eqb_refl. reflexivity.
  - destruct (Ascii.eqb c sep).
    + simpl. f_equal. exact IH.
    + rewrite IH. pose proof (split_nonempty sep r) as Hne.
      destruct (split sep r); [congruence|reflexivity].
Qed.

Lemma split_no_separator (sep : ascii) (s : string) :
  occurs sep s = false -> split sep s = [s].
Proof.
  induction s as [|c r IH]; simpl; [reflexivity|].
  intros H. apply orb_false_iff in H as [Hc Hr].
  rewrite Hc, (IH Hr). reflexivity.
Qed.

Lemma unpack_last3_app {A} (l : list A) (x a b c : A) :
  unpack_last3 (l ++ [x; a; b; c]) = Ok (l ++ [x], a, b, c).
Proof.
  unfold unpack_last3. rewrite rev_app_distr. simpl.
  rewrite rev_involutive. reflexivity.
Qed.

Lemma is_digit_not_space (c : ascii) : is_digit c = true -> is_space c = false.
Proof.
  unfold is_digit, is_space. intros H. apply andb_true_iff in H as [H1 H2].
  apply Nat.leb_le in H1, H2.
  destruct (Nat.eqb_spec (nat_of_ascii c) 32); [lia|].
  destruct (Nat.leb_spec (nat_of_ascii c) 13); [lia|].
  rewrite !andb_false_r. reflexivity.
Qed.

Lemma is_digit_ascii (c : ascii) : is_digit c = true -> (N_of_ascii c <? 128)%N = true.
Proof. destruct c as [[] [] [] [] [] [] [] []]; try discriminate; reflexivity. Qed.

Lemma digits_ascii (s : string) : digits_only s = true -> is_ascii_string s = true.
Proof.
  induction s as [|c r IH]; simpl; [reflexivity|].
  intros H. apply andb_true_iff in H as [Hc Hr].
  rewrite (is_digit_ascii c Hc), (IH Hr). reflexivity.
Qed.

Lemma is_digit_not_underscore (c : ascii) :
  is_digit c = true -> Ascii.eqb c "_" = false.
Proof.
  intros H. destruct (Ascii.eqb_spec c "_"); [subst; discriminate|reflexivity].
Qed.

Lemma digits_of_uint (d : Decimal.uint) :
  digits_only (NilEmpty.string_of_uint d) = true.
Proof. induction d; simpl; auto. Qed.

Lemma digits_of_uint_zero (d : Decimal.uint) :
  digits_only (NilZero.string_of_uint d) = true.
Proof. destruct d; try apply (digits_of_uint (_ d)); reflexivity. Qed.

Lemma digits_no_underscore (s : string) :
  digits_only s = true -> occurs "_" s = false.
Proof.
  induction s as [|c r IH]; simpl; [reflexivity|].
  intros H. apply andb_true_iff in H as [Hc Hr].
  rewrite (is_digit_not_underscore c Hc), (IH Hr). reflexivity.
Qed.

Lemma skip_trailing_digits (s : string) : digits_only s = true -> skip_trailing s = s.
Proof.
  induction s as [|c r IH]; simpl; [reflexivity|].
  intros H. apply andb_true_iff in H as [Hc Hr].
  rewrite (IH Hr). destruct r; [|reflexivity].
  rewrite (is_digit_not_space c Hc). reflexivity.
Qed.

Lemma skip_spaces_digits (s : string) : digits_only s = true -> skip_spaces s = s.
Proof.
  intros H. unfold skip_spaces.
  assert (skip_leading s = s) as ->; [|apply skip_trailing_digits, H].
  destruct s as [|c r]; simpl; [reflexivity|].
  simpl in H. apply andb_true_iff in H as [Hc _].
  rewrite (is_digit_not_space c Hc). reflexivity.
Qed.

Lemma drop_underscores_digits (s : string) :
  digits_only s = true -> drop_underscores true s = Some s.
Proof.
  induction s as [|c r IH]; simpl; [reflexivity|].
  intros H. apply andb_true_iff in H as [Hc Hr].
  rewrite (is_digit_not_underscore c Hc), (IH Hr). reflexivity.
Qed.

Lemma int_digits_of_uint (d : Decimal.uint) :
  d <> Decimal.Nil ->
  int_digits (NilZero.string_of_uint d) = Some (Z.of_uint d).
Proof.
  intros Hd. unfold int_digits.
  pose proof (digits_of_uint_zero d) as Hdig.
  pose proof (NilZero.usu d Hd) as Husu.
  destruct (NilZero.string_of_uint d) as [|c r] eqn:Hs.
  - destruct d; discriminate.
  - simpl in Hdig. apply andb_true_iff in Hdig as [Hc Hr].
    cbn [drop_underscores]. rewrite (is_digit_not_underscore c Hc).
    rewrite (drop_underscores_digits r Hr). simpl.
    change ((NilZero.uint_of_string (String c r) ≫= λ u, Some (Z.of_uint u))
            = Some (Z.of_uint d)).
    rewrite Husu. reflexivity.
Qed.

Lemma digit_first_unsigned (c : ascii) (r : string) :
  is_digit c = true ->
  match String c r with
  | String "+" r' => int_digits r'
  | String "-" r' => Z.opp <$> int_digits r'
  | r' => int_digits r'
  end = int_digits (String c r).
Proof. destruct c as [[] [] [] [] [] [] [] []]; try discriminate; reflexivity. Qed.

Lemma int_literal_str_int (n : Z) : int_literal (str_int n) = Some n.
Proof.
  unfold int_literal, str_int.
  assert (Hpos : forall d : Decimal.uint, d <> Decimal.Nil ->
    match skip_spaces (NilZero.string_of_uint d) with
    | String "+" r => int_digits r
    | String "-" r => Z.opp <$> int_digits r
    | r => int_digits r
    end = Some (Z.of_uint d)).
  { intros d Hd. rewrite (skip_spaces_digits _ (digits_of_uint_zero d)).
    pose proof (int_digits_of_uint d Hd) as Hint.
    pose proof (digits_of_uint_zero d) as Hdig.
    destruct (NilZero.string_of_uint d) as [|c r] eqn:Hs.
    - rewrite Hint. reflexivity.
    - simpl in Hdig. apply andb_true_iff in Hdig as [Hc _].
      rewrite (digit_first_unsigned c r Hc), Hint. reflexivity. }
  pose proof (DecimalZ.of_to n) as Hn.
  destruct n as [|p|p]; simpl in *.
  - reflexivity.
  - rewrite (Hpos _ (Unsigned.to_uint_nonnil p)). congruence.
  - unfold skip_spaces. simpl.
    rewrite (skip_trailing_digits _ (digits_of_uint_zero (Pos.to_uint p))).
    destruct (NilZero.string_of_uint (Pos.to_uint p)) eqn:Hs.
    + pose proof (Unsigned.to_uint_nonnil p). destruct (Pos.to_uint p); discriminate.
    + rewrite <- Hs, (int_digits_of_uint _ (Unsigned.to_uint_nonnil p)).
      simpl. congruence.
Qed.

Lemma str_int_ascii (n : Z) : is_ascii_string (str_int n) = true.
Proof.
  unfold str_int.
  destruct n as [|p|p]; simpl; [reflexivity| |];
    apply digits_ascii, digits_of_uint_zero.
Qed.

(** [int(str(n)) == n], whatever the Unicode database. *)
Lemma py_int_str_int (unicode_space : N -> bool) (unicode_decimal : N -> option N)
  (n : Z) :
  py_int unicode_space unicode_decimal (str_int n) = Ok n.
Proof. unfold py_int. rewrite str_int_ascii, int_literal_str_int. reflexivity. Qed.

Lemma str_int_no_underscore (n : Z) : occurs "_" (str_int n) = false.
Proof.
  unfold str_int.
  destruct n as [|p|p]; simpl; [reflexivity| |];
    apply digits_no_underscore, digits_of_uint_zero.
Qed.

End Strings.

Section Checkpoints.

Context {KModel Weights : Type}.
Variable compile : KModel -> Loss -> float -> KModel.
Variable get_weights : KModel -> Weights.
Variable set_weights : KModel -> Weights -> result KModel.
Variable unicode_space : N -> bool.
Variable unicode_decimal : N -> option N.
Variable float_repr : float -> string.
Variable float_parse : string -> option float.
Implicit Type s : DQN KModel.
Implicit Type fs : gmap string Weights.

Lemma split_checkpoint_path (file_path_prefix : string) s :
  occurs "_" (py_str float_repr (policy_epsilon s)) = false ->
  split "_" (checkpoint_file_path float_repr file_path_prefix true s)
  = init_parts file_path_prefix
    ++ [str_int (current_step s); py_str float_repr (policy_epsilon s); ".h5"].
Proof.
  intros Heps. unfold checkpoint_file_path, init_parts.
  change (file_path_prefix +:+ "_dqn_" +:+ ?x)
    with (file_path_prefix +:+ String "_" ("dqn" +:+ String "_" x)).
  rewrite split_app.
  change (split "_" ("dqn" +:+ String "_" ?x)) with ("dqn" :: split "_" x).
  change (str_int (current_step s) +:+ "_" +:+ ?x)
    with (str_int (current_step s) +:+ String "_" x).
  rewrite split_app, (split_no_separator _ _ (str_int_no_underscore _)).
  change (?x +:+ "_.h5") with (x +:+ String "_" ".h5").
  rewrite split_app, (split_no_separator _ _ Heps).
  rewrite <- app_assoc. reflexivity.
Qed.

(** C3. A checkpoint saved by one agent and loaded by another from the path
    that [save_model_weights] wrote: the load returns, [current_step]
    becomes the saved step count, and the epsilon is the saved one when
    [override_epsilon] is set (as the float [f] that [float] reads back from
    the printed epsilon, numerically equal to it) and the loading agent's own
    epsilon, untouched, when it is not. Assumed of Python's float printer on
    the saved epsilon: no underscore in its output, and the printed text
    reads back as an equal float. The stored weights must suit the loading
    model. *)
Theorem checkpoint_round_trip (s1 s2 : DQN KModel) fs (file_path_prefix : string)
  (override_epsilon : bool) (m' : KModel) (f : float) :
  set_weights (model s2) (get_weights (model s1)) = Ok m' ->
  (forall x : float, policy_epsilon s1 = PyFloat x ->
     occurs "_" (float_repr x) = false) ->
  (override_epsilon = true ->
     float_parse (py_str float_repr (policy_epsilon s1)) = Some f /\
     py_eq (PyFloat f) (policy_epsilon s1) = true) ->
  let file_path := checkpoint_file_path float_repr file_path_prefix true s1 in
  let fs' := save_model_weights get_weights float_repr file_path_prefix true s1 fs in
  let s2' := exec (load_model_weights compile set_weights unicode_space unicode_decimal
    float_parse fs'
                     file_path override_epsilon) s2 in
  load_model_weights compile set_weights unicode_space unicode_decimal float_parse fs'
    file_path
    override_epsilon s2 = (Ok tt, s2') /\
  current_step s2' = current_step s1 /\
  (if override_epsilon
   then policy_epsilon s2' = PyFloat f /\
        py_eq (policy_epsilon s2') (policy_epsilon s1) = true
   else policy_epsilon s2' = policy_epsilon s2 /\
        previous_epsilon s2' = previous_epsilon s2) /\
  model s2' = compile m' Mse (model_learning_rate s2).
Proof.
  intros Hweights Hrepr Hparse file_path fs' s2'.
  assert (Heps : occurs "_" (py_str float_repr (policy_epsilon s1)) = false).
  { destruct (policy_epsilon s1) as [z|x] eqn:He; simpl.
    - apply str_int_no_underscore.
    - apply Hrepr. reflexivity. }
  assert (Hload : load_weights set_weights (model s2) fs' file_path = Ok m').
  { unfold load_weights. subst fs'. unfold save_model_weights, save_weights.
    fold file_path. rewrite lookup_insert_eq. exact Hweights. }
  assert (Hrun : load_model_weights compile set_weights unicode_space unicode_decimal
    float_parse fs' file_path
                   override_epsilon s2
      = (Ok tt,
         let s := set_current_step (current_step s1)
                    (set_model (compile m' Mse (model_learning_rate s2)) s2) in
         if override_epsilon
         then set_policy_epsilon (PyFloat f) (set_previous_epsilon (Some (PyFloat f)) s)
         else s)).
  { unfold load_model_weights. unfold_monad. rewrite Hload.
    subst file_path. rewrite (split_checkpoint_path _ _ Heps).
    unfold init_parts. rewrite <- app_assoc. simpl app.
    rewrite (unpack_last3_app (split "_" file_path_prefix) "dqn").
    rewrite py_int_str_int.
    destruct override_epsilon; [|reflexivity].
    destruct (Hparse eq_refl) as [Hf _]. unfold py_float. rewrite Hf. reflexivity. }
  subst s2'. unfold exec. rewrite Hrun. cbn [snd].
  split; [reflexivity|].
  destruct override_epsilon.
  - destruct (Hparse eq_refl) as [_ Heq].
    destruct s2 as [? ? ? ? ? ? ? ? ? ? ? ? ? [e0 i0 f0 m0] ? ? ? ? ? ? ?].
    repeat split; assumption.
  - destruct s2 as [? ? ? ? ? ? ? ? ? ? ? ? ? [e0 i0 f0 m0] ? ? ? ? ? ? ?].
    repeat split.
Qed.

Lemma unpack_last3_short {A} (parts : list A) :
  (length parts < 3)%nat -> unpack_last3 parts = Raise ValueError.
Proof.
  intros H. unfold unpack_last3. rewrite <- length_rev in H.
  destruct (rev parts) as [|c [|b [|a args]]]; simpl in H; try reflexivity; lia.
Qed.

(** C5, as the code has it. Once the weights file itself has loaded, the
    model holds the file's weights, recompiled with the MSE loss, before the
    name is looked at. A path with fewer than three fields between
    underscores, or whose step field is not an int literal, then raises
    [ValueError] with [current_step] and both epsilons as they were; a path
    whose step field parses but whose epsilon field is not a float literal
    raises [ValueError] under [override_epsilon] after [current_step] has
    been set, and loads without an error otherwise. *)
Theorem malformed_checkpoint_name_raises_after_weights_loaded s fs
  (file_path : string) (override_epsilon : bool) (m' : KModel) :
  load_weights set_weights (model s) fs file_path = Ok m' ->
  let load := load_model_weights compile set_weights unicode_space unicode_decimal
    float_parse fs file_path
                override_epsilon s in
  let s1 := set_model (compile m' Mse (model_learning_rate s)) s in
  ((length (split "_" file_path) < 3)%nat -> load = (Raise ValueError, s1)) /\
  (forall (args : list string) (steps epsilon extension : string),
     unpack_last3 (split "_" file_path) = Ok (args, steps, epsilon, extension) ->
     (py_int unicode_space unicode_decimal steps = Raise ValueError ->
      load = (Raise ValueError, s1)) /\
     (forall n : Z,
        py_int unicode_space unicode_decimal steps = Ok n ->
        float_parse epsilon = None ->
        load = if override_epsilon
               then (Raise ValueError, set_current_step n s1)
               else (Ok tt, set_current_step n s1))) /\
  current_step s1 = current_step s /\
  policy_epsilon s1 = policy_epsilon s /\
  previous_epsilon s1 = previous_epsilon s.
Proof.
  intros Hload load s1. subst load.
  unfold load_model_weights. unfold_monad. rewrite Hload. fold s1.
  split; [|split; [|repeat split]].
  - intros Hshort. rewrite (unpack_last3_short _ Hshort). reflexivity.
  - intros args steps epsilon extension ->. split.
    + intros ->. reflexivity.
    + intros n -> Heps. destruct override_epsilon; [|reflexivity].
      unfold py_float. rewrite Heps. reflexivity.
Qed.

End Checkpoints.

(** ** The observe-only phase *)

Section ObservePhase.

Context {KModel Weights : Type}.
Variable sequential : option (list nat) -> nat -> KModel.
Variable compile : KModel -> Loss -> float -> KModel.
Variable predict : KModel -> ndarray4 -> result (list float).
Variable train_on_batch :
  KModel -> ndarray4 -> list (list float) -> result (KModel * float).
Variable astype_uint8 : float -> Z.
Variable set_weights : KModel -> Weights -> result KModel.
Variable unicode_space : N -> bool.
Variable unicode_decimal : N -> option N.
Variable float_parse : string -> option float.
Implicit Type s : DQN KModel.

Lemma train_on_mini_batch_observing s (draws : Draws) :
  observing s = true ->
  train_on_mini_batch predict train_on_batch astype_uint8 draws s = (Ok tt, s).
Proof.
  unfold observing, train_on_mini_batch. unfold_monad. intros ->. reflexivity.
Qed.

Lemma append_to_replay_memory_training_state s (g : Frame) (reward : float)
  (r : result unit) s' :
  append_to_replay_memory g reward s = (r, s') -> same_training_state s s'.
Proof.
  rewrite append_to_replay_memory_cases.
  destruct (frame_stack s); [destruct (np_append_axis3 _ _)|];
    intros [= <- <-]; repeat split.
Qed.

Lemma for_each_append_training_state (frames : list (Frame * float)) :
  forall s (r : result unit) s',
    for_each (fun fr => append_to_replay_memory fr.1 fr.2) frames s = (r, s') ->
    same_training_state s s'.
Proof.
  induction frames as [|[g reward] frames IH]; intros s r s'; simpl.
  - unfold_monad. intros [= <- <-]. repeat split.
  - unfold_monad. fold (@for_each KModel (Frame * float)).
    destruct (append_to_replay_memory g reward s) as [[[]|e] s1] eqn:Happ;
      apply append_to_replay_memory_training_state in Happ as (H1 & H2 & H3 & H4).
    + intros Hrest. apply IH in Hrest as (H1' & H2' & H3' & H4').
      repeat split; congruence.
    + intros [= <- <-]. repeat split; assumption.
Qed.

(** C2, as the code has it. In the example scenario (four combinations,
    replay memory of 10, [observe_steps] 5, batches of 2),
    [train_on_mini_batch] is a no-op after any number of
    [append_to_replay_memory] calls, the sixth included: it returns without
    sampling and leaves the model and the reported loss (still the initial
    0) as they were. The test it makes reads [current_observe_step], which
    no append advances. *)
Theorem appends_alone_never_start_training (fs : gmap string Weights)
  (s0 : DQN KModel) (seed : Frame) (frames : list (Frame * float))
  (draws : Draws) (r : result unit) s' :
  init sequential compile set_weights unicode_space unicode_decimal float_parse
    fs scenario_config = Ok s0 ->
  (build_frame_stack seed;;
   for_each (fun fr => append_to_replay_memory fr.1 fr.2) frames) s0 = (r, s') ->
  train_on_mini_batch predict train_on_batch astype_uint8 draws s' = (Ok tt, s') /\
  current_observe_step s' = 0 /\
  observe_steps s' = PyInt 5 /\
  model_loss s' = PyInt 0 /\
  model s' = model s0.
Proof.
  intros Hinit Hrun.
  unfold init in Hinit. simpl in Hinit. injection Hinit as <-.
  assert (Hsame : same_training_state
            (MkDQN None (Deque (Some (Z.to_nat 10)) []) 2 four_actions 4 None
               (PyInt 1000000) (PyInt 5) 0 0 (PyFloat 1) (PyFloat one_tenth)
               (Some (PyFloat 1))
               (new_policy (PyFloat 1) (PyFloat one_tenth) (PyInt 1000000))
               gamma_default None TRAIN 0x1.4f8b588e368f1p-17%float
               (_initialize_model KModel sequential compile None 4
                  0x1.4f8b588e368f1p-17%float)
               (PyInt 0) []) s').
  { unfold build_frame_stack in Hrun. unfold_monad_in Hrun.
    destruct (np_stack_axis2 (replicate 8 seed)) as [stacked|e].
    - apply for_each_append_training_state in Hrun. exact Hrun.
    - injection Hrun as <- <-. repeat split. }
  destruct Hsame as (Hstep & Hobs & Hloss & Hmodel). simpl in *.
  repeat split; try assumption.
  apply train_on_mini_batch_observing. unfold observing.
  rewrite Hstep, Hobs. reflexivity.
Qed.

End ObservePhase.

(** * The properties on the stub agent *)

Module Examples.

Import Stub.

(** [__init__] on the scenario's configuration gives the fresh agent. *)
Example init_scenario : init ∅ scenario_config = Ok fresh_agent.
Proof. reflexivity. Qed.

(** With the defaults, [observe_steps] is [0.1 * 15000], the float 1500.0. *)
Example default_observe_steps :
  observe_steps_of None (Some replay_memory_size_default) = Ok (PyFloat 1500).
Proof. vm_compute. reflexivity. Qed.

Example six_appends_fill_six_slots :
  length (items (replay_memory six_appends_agent)) = 6%nat /\
  current_observe_step six_appends_agent = 0.
Proof. split; reflexivity. Qed.

(** The first row of the example batch: the sampled transition has reward
    3, the prediction for its prior stack is [0; 11; 22; 33], the best
    predicted value for its resulting stack is 39, and action 2 was taken. *)
Example replay_batch_first_row :
  replay_batch.2 !! 0%nat = Some [0; 11; 3 + gamma_default * 39; 33]%float.
Proof. vm_compute. reflexivity. Qed.

(** Once [next_step] has run six times the observe phase is over, and with
    batches of 2 the call fails where it draws six flashback indices out of
    [range(2)]. *)
Example small_batch_cannot_train :
  let s := exec (for_each (fun _ : nat => next_step) [1; 2; 3; 4; 5; 6]%nat)
             six_appends_agent in
  current_observe_step s = 6 /\
  train_on_mini_batch two_draws s = (Raise ValueError, s).
Proof. split; vm_compute; reflexivity. Qed.


(** The mini-batch of the example is the memory in the order drawn, and the
    six flashback images went to the visual debugger under their names, the
    first of them channel 1 of the newest stack, [11; 12], scaled by 255 and
    cast. *)
Example replay_batch_is_the_draw :
  replay_batch.1.1
  = omap (fun i => items (replay_memory replay_agent) !! i) [5; 0; 3; 1; 4; 2]%nat /\
  map bucket (visual_debugger flashback_agent)
  = ["flashback_1"; "flashback_2"; "flashback_3"; "flashback_4"; "flashback_5";
     "flashback_6"]%string /\
  visual_debugger replay_agent = [] /\
  head (visual_debugger flashback_agent)
  = Some (MkStoredImage [245; 244] [2%nat] "flashback_1").
Proof. repeat split; vm_compute; reflexivity. Qed.

(** C2, counterexample: after the sixth append the call still returns at
    once, with the agent, its model and its loss of 0 as they were. *)
Lemma sixth_append_does_not_start_training :
  init ∅ scenario_config = Ok fresh_agent /\
  (build_frame_stack seed_frame;;
   for_each (fun fr => append_to_replay_memory fr.1 fr.2) six_frames) fresh_agent
    = (Ok tt, six_appends_agent) /\
  length (items (replay_memory six_appends_agent)) = 6%nat /\
  train_on_mini_batch two_draws six_appends_agent = (Ok tt, six_appends_agent) /\
  model_loss six_appends_agent = PyInt 0 /\
  model six_appends_agent = model fresh_agent.
Proof. repeat split; vm_compute; reflexivity. Qed.

(** C2, witness of the amended statement. *)
Lemma appends_alone_never_start_training_witness :
  init ∅ scenario_config = Ok fresh_agent /\
  (build_frame_stack seed_frame;;
   for_each (fun fr => append_to_replay_memory fr.1 fr.2) six_frames) fresh_agent
    = (Ok tt, six_appends_agent) /\
  train_on_mini_batch two_draws six_appends_agent = (Ok tt, six_appends_agent) /\
  current_observe_step six_appends_agent = 0 /\
  observe_steps six_appends_agent = PyInt 5 /\
  model_loss six_appends_agent = PyInt 0 /\
  model six_appends_agent = model fresh_agent.
Proof.
  assert (Hinit : init ∅ scenario_config = Ok fresh_agent) by reflexivity.
  assert (Hrun : (build_frame_stack seed_frame;;
                  for_each (fun fr => append_to_replay_memory fr.1 fr.2) six_frames)
                   fresh_agent = (Ok tt, six_appends_agent))
    by (vm_compute; reflexivity).
  split; [exact Hinit|]. split; [exact Hrun|].
  exact (appends_alone_never_start_training Stub.sequential Stub.compile
           Stub.predict Stub.train_on_batch Stub.astype_uint8 Stub.set_weights
             Stub.unicode_space Stub.unicode_decimal Stub.float_parse
           ∅ fresh_agent seed_frame six_frames two_draws (Ok tt)
           six_appends_agent Hinit Hrun).
Defined.

(** C3, witness: a checkpoint of the agent at step 12 with epsilon 0.5,
    loaded into a fresh agent with [override_epsilon]. *)
Lemma checkpoint_round_trip_witness :
  checkpoint_file_path file_path_prefix_default true checkpointed_agent
    = "datasets/model__dqn_12_0.5_.h5"%string /\
  current_step
    (exec (load_model_weights
             (save_model_weights file_path_prefix_default true checkpointed_agent ∅)
             (checkpoint_file_path file_path_prefix_default true checkpointed_agent)
             true) fresh_agent)
  = current_step checkpointed_agent.
Proof.
  split; [reflexivity|].
  refine (proj1 (proj2 (checkpoint_round_trip Stub.compile Stub.get_weights
            Stub.set_weights Stub.unicode_space Stub.unicode_decimal
           Stub.float_repr Stub.float_parse
            checkpointed_agent fresh_agent ∅ file_path_prefix_default true
            (MkK 4 0 Logcosh) 0.5%float _ _ _))).
  - reflexivity.
  - intros x [= <-]. reflexivity.
  - intros _. split; vm_compute; reflexivity.
Defined.

(** C4 and C10 on the fresh agent, whose epsilon is 1.0. *)
Lemma double_run_mode_loses_epsilon_witness :
  policy_epsilon fresh_agent = PyFloat 1 /\
  py_gt (PyFloat 1) (PyInt 0) = true /\
  policy_epsilon
    (exec enter_train_mode (exec enter_run_mode (exec enter_run_mode fresh_agent)))
  = PyInt 0.
Proof.
  assert (He : policy_epsilon fresh_agent = PyFloat 1) by reflexivity.
  assert (Hpos : py_gt (PyFloat 1) (PyInt 0) = true) by (vm_compute; reflexivity).
  split; [exact He|]. split; [exact Hpos|].
  exact (proj1 (proj2 (double_run_mode_loses_epsilon fresh_agent (PyFloat 1) He Hpos))).
Defined.

(** C5, counterexample: the file [weights.h5] loads into the model and only
    then is its name found to have a single field. The call raises
    [ValueError] with the model's bias changed from 0 to the file's 7 and
    its loss recompiled. With a step field that parses and an epsilon field
    that does not, [current_step] is changed as well. *)
Lemma malformed_name_leaves_weights_loaded :
  load_model_weights plain_disk "weights.h5" false fresh_agent
    = (Raise ValueError, set_model (MkK 4 7 Mse) fresh_agent) /\
  model (set_model (MkK 4 7 Mse) fresh_agent) <> model fresh_agent /\
  load_model_weights {["a_12_xyz_.h5"%string := 7%float]} "a_12_xyz_.h5" true
    fresh_agent
    = (Raise ValueError, set_current_step 12 (set_model (MkK 4 7 Mse) fresh_agent)).
Proof.
  split; [vm_compute; reflexivity|]. split; [discriminate|].
  vm_compute. reflexivity.
Qed.

(** What [int] makes of step fields. Blanks and newlines around the digits
    are skipped; the separator 28 is not, whatever the Unicode database
    says, so a file name with it raises where the step is read; digits and
    spaces beyond ASCII are read as the database has them. *)
Example int_of_step_fields :
  int " 12" = Ok 12 /\
  int (String "012" "+12" +:+ String "010" "") = Ok 12 /\
  int "1 2" = Raise ValueError /\
  int "" = Raise ValueError /\
  int arabic_indic_12 = Ok 12 /\
  int no_break_space_12 = Ok 12 /\
  code_points arabic_indic_12 = Some [1633; 1634]%N /\
  (forall (space : N -> bool) (decimal : N -> option N),
     py_int space decimal separator_12 = Raise ValueError) /\
  load_model_weights {[("a_" +:+ separator_12 +:+ "_xyz_.h5")%string := 7%float]}
    ("a_" +:+ separator_12 +:+ "_xyz_.h5") false fresh_agent
  = (Raise ValueError, set_model (MkK 4 7 Mse) fresh_agent).
Proof. repeat split; vm_compute; reflexivity. Qed.

(** C5, witness of the amended statement. *)
Lemma malformed_checkpoint_name_raises_after_weights_loaded_witness :
  load_weights Stub.set_weights (model fresh_agent) plain_disk "weights.h5"
    = Ok (MkK 4 7 Logcosh) /\
  (length (split "_" "weights.h5") < 3)%nat /\
  load_model_weights plain_disk "weights.h5" false fresh_agent
    = (Raise ValueError, set_model (MkK 4 7 Mse) fresh_agent).
Proof.
  assert (Hload : load_weights Stub.set_weights (model fresh_agent) plain_disk
                    "weights.h5" = Ok (MkK 4 7 Logcosh)) by (vm_compute; reflexivity).
  assert (Hshort : (length (split "_" "weights.h5") < 3)%nat) by (simpl; lia).
  split; [exact Hload|]. split; [exact Hshort|].
  exact (proj1 (malformed_checkpoint_name_raises_after_weights_loaded
                  Stub.compile Stub.set_weights Stub.unicode_space Stub.unicode_decimal
                    Stub.float_parse fresh_agent
                  plain_disk "weights.h5" false (MkK 4 7 Logcosh) Hload) Hshort).
Defined.

(** C6, witness: the seed frame and eight further frames. *)
Lemma frame_stack_depth_and_turnover_witness :
  frame_shape seed_frame = (1%nat, 2%nat) /\
  wf_frame seed_frame /\
  length eight_frames = 8%nat /\
  Forall (fun g => wf_frame g /\ frame_shape g = (1%nat, 2%nat)) eight_frames /\
  exists fs8,
    (build_frame_stack seed_frame;; for_each update_frame_stack eight_frames)
      fresh_agent = (Ok tt, set_frame_stack (Some fs8) fresh_agent) /\
    arr_shape fs8 = (1%nat, 1%nat, 2%nat, 8%nat) /\
    np_stack_axis2 (rev eight_frames) = Ok fs8.
Proof.
  assert (Hwf : Forall (fun g => wf_frame g /\ frame_shape g = (1%nat, 2%nat))
                  eight_frames).
  { repeat constructor. }
  split; [reflexivity|]. split; [reflexivity|]. split; [reflexivity|].
  split; [exact Hwf|].
  exact (proj2 (proj2 (frame_stack_depth_and_turnover fresh_agent seed_frame
                         eight_frames 1 2 eq_refl eq_refl eq_refl Hwf))).
Defined.

(** C7, witness: capacity 2 and three appends. *)
Lemma replay_memory_bounded_fifo_witness :
  let ts := take 3 (items (replay_memory replay_agent)) in
  deque_new (A := Transition) (Some (Z.of_nat 2)) = Ok (Deque (Some 2%nat) []) /\
  length ts = (2 + 1)%nat /\
  items (foldl deque_append (Deque (Some 2%nat) []) ts) = drop 1 ts.
Proof.
  intros ts.
  assert (Hnew : deque_new (A := Transition) (Some (Z.of_nat 2))
                 = Ok (Deque (Some 2%nat) [])) by reflexivity.
  assert (Hlen : length ts = (2 + 1)%nat) by reflexivity.
  split; [exact Hnew|]. split; [exact Hlen|].
  exact (proj1 (proj2 (proj2 (replay_memory_bounded_fifo (KModel := KModel)
                                 2 1 ts _ Hnew Hlen)))).
Defined.

(** C9, witness: a 2 x 2 frame offered to the seeded 1 x 2 stack. *)
Lemma shape_mismatch_leaves_stack_and_memory_witness :
  frame_stack seeded_agent = Some seeded_stack /\
  MkFrame (2%nat, 2%nat) [1; 2; 3; 4]%float
    = MkFrame (2%nat, 2%nat) [1; 2; 3; 4]%float /\
  update_frame_stack (MkFrame (2%nat, 2%nat) [1; 2; 3; 4]%float) seeded_agent
    = (Raise ValueError, seeded_agent) /\
  append_to_replay_memory (MkFrame (2%nat, 2%nat) [1; 2; 3; 4]%float) 1%float
    seeded_agent = (Raise ValueError, seeded_agent).
Proof.
  assert (Hfs : frame_stack seeded_agent = Some seeded_stack) by reflexivity.
  assert (Hne : frame_shape (MkFrame (2%nat, 2%nat) [1; 2; 3; 4]%float)
                <> ((arr_shape seeded_stack).1.1.2, (arr_shape seeded_stack).1.2))
    by discriminate.
  pose proof (shape_mismatch_leaves_stack_and_memory seeded_agent
                (MkFrame (2%nat, 2%nat) [1; 2; 3; 4]%float) 1%float
                seeded_stack Hfs Hne) as (Hupd & Happ & _).
  split; [exact Hfs|]. split; [reflexivity|]. split; [exact Hupd|exact Happ].
Defined.

End Examples.

(** * Further properties *)

(** Every case of a method's run, with the state taken apart. *)
Ltac method_cases :=
  unfold_monad; repeat case_match; simplify_eq/=.

Section CallFrames.

Context {KModel Weights : Type}.
Variable sequential : option (list nat) -> nat -> KModel.
Variable compile : KModel -> Loss -> float -> KModel.
Variable predict : KModel -> ndarray4 -> result (list float).
Variable train_on_batch :
  KModel -> ndarray4 -> list (list float) -> result (KModel * float).
Variable astype_uint8 : float -> Z.
Variable set_weights : KModel -> Weights -> result KModel.
Variable erode : EpsilonGreedyQPolicy -> PyNum -> EpsilonGreedyQPolicy.
Variable unicode_space : N -> bool.
Variable unicode_decimal : N -> option N.
Variable float_parse : string -> option float.
Implicit Type s : DQN KModel.
Implicit Type c : Call Weights.

Abbreviation the_call :=
  (call compile predict train_on_batch astype_uint8 set_weights erode
     unicode_space unicode_decimal float_parse).
Abbreviation after :=
  (after_calls compile predict train_on_batch astype_uint8 set_weights erode
     unicode_space unicode_decimal float_parse).

Lemma maxlen_deque_append {A} (d : deque A) (x : A) :
  maxlen (deque_append d x) = maxlen d.
Proof. unfold deque_append. destruct (maxlen d); reflexivity. Qed.

Lemma build_batch_state s (draws : Draws) :
  (build_batch predict astype_uint8 draws s).2
  = with_images (stored_images predict astype_uint8 draws s) s.
Proof.
  destruct (build_batch_images predict astype_uint8 s draws) as (images & Himages).
  unfold stored_images. rewrite Himages. f_equal.
  destruct s. unfold with_images. simpl. rewrite drop_app_length. reflexivity.
Qed.

Lemma train_on_mini_batch_cases s (draws : Draws) :
  train_on_mini_batch predict train_on_batch astype_uint8 draws s =
    if observing s then (Ok tt, s)
    else
      let s1 := with_images (stored_images predict astype_uint8 draws s) s in
      match (build_batch predict astype_uint8 draws s).1 with
      | Raise e => (Raise e, s1)
      | Ok batch =>
          match train_on_batch (model s) batch.1.2 batch.2 with
          | Raise e => (Raise e, s1)
          | Ok trained =>
              (Ok tt, set_model_loss (PyFloat trained.2) (set_model trained.1 s1))
          end
      end.
Proof.
  unfold train_on_mini_batch, observing. unfold_monad.
  destruct (py_le _ _); [reflexivity|].
  cbv zeta. rewrite <- build_batch_state.
  destruct (build_batch _ _ _ _) as [[batch|e] s1]; [|reflexivity].
  cbn [fst snd]. destruct (train_on_batch _ _ _); reflexivity.
Qed.

Lemma load_model_weights_cases s (fs : gmap string Weights) (file_path : string)
  (override_epsilon : bool) :
  load_model_weights compile set_weights unicode_space unicode_decimal float_parse fs
    file_path override_epsilon s =
    match load_weights set_weights (model s) fs file_path with
    | Raise e => (Raise e, s)
    | Ok loaded =>
        let s1 := set_model (compile loaded Mse (model_learning_rate s)) s in
        match unpack_last3 (split "_" file_path) with
        | Raise e => (Raise e, s1)
        | Ok (_, steps, epsilon, _) =>
            match py_int unicode_space unicode_decimal steps with
            | Raise e => (Raise e, s1)
            | Ok n =>
                let s2 := set_current_step n s1 in
                if override_epsilon then
                  match float_parse epsilon with
                  | None => (Raise ValueError, s2)
                  | Some e =>
                      (Ok tt, set_policy_epsilon (PyFloat e)
                                (set_previous_epsilon (Some (PyFloat e)) s2))
                  end
                else (Ok tt, s2)
            end
        end
    end.
Proof.
  unfold load_model_weights, py_float. unfold_monad.
  destruct (load_weights _ _ _ _); [|reflexivity].
  destruct (unpack_last3 _) as [[[[args steps] epsilon] extension]|]; [|reflexivity].
  destruct (py_int unicode_space unicode_decimal steps); [|reflexivity].
  destruct override_epsilon; [|reflexivity].
  destruct (float_parse epsilon); reflexivity.
Qed.

Lemma call_configuration c s : configuration (the_call c s).2 = configuration s.
Proof.
  destruct c; cbn [call].
  - destruct s. unfold enter_train_mode. method_cases; reflexivity.
  - destruct s. unfold enter_run_mode. method_cases; reflexivity.
  - destruct s. unfold next_step. method_cases; reflexivity.
  - destruct s. unfold build_frame_stack. method_cases; reflexivity.
  - rewrite update_frame_stack_cases. destruct s. repeat case_match; reflexivity.
  - rewrite append_to_replay_memory_cases.
    destruct s as [? [? ?] ? ? ? ? ? ? ? ? ? ? ? ? ? ? ? ? ? ? ?].
    repeat case_match; try reflexivity.
    unfold configuration; simpl. rewrite maxlen_deque_append. reflexivity.
  - destruct s. unfold erode_epsilon. method_cases; reflexivity.
  - rewrite train_on_mini_batch_cases. destruct s. repeat case_match; reflexivity.
  - rewrite load_model_weights_cases. destruct s. repeat case_match; reflexivity.
Qed.

Lemma after_calls_app (calls1 calls2 : list (Call Weights)) s :
  after (calls1 ++ calls2) s = after calls2 (after calls1 s).
Proof. unfold after_calls. apply foldl_app. Qed.

Lemma after_calls_ind (P : DQN KModel -> Prop) :
  (forall c s, P s -> P (the_call c s).2) ->
  forall calls s, P s -> P (after calls s).
Proof.
  intros Hstep calls. induction calls as [|c calls IH]; intros s Hs; simpl.
  - exact Hs.
  - apply IH, Hstep, Hs.
Qed.

(** X1. No method changes what [__init__] fixed: after any sequence of calls,
    raising or not, the batch size, the action space and count, the replay
    capacity, [gamma], [observe_steps], [max_steps], the initial and final
    epsilon, the input shape and the learning rate are what they were. *)
Theorem configuration_never_changes (calls : list (Call Weights)) s :
  configuration (after calls s) = configuration s.
Proof.
  apply (after_calls_ind (fun s' => configuration s' = configuration s));
    [|reflexivity].
  intros c s' Hs'. rewrite call_configuration. exact Hs'.
Qed.

Lemma call_current_observe_step c s :
  current_observe_step s <= current_observe_step (the_call c s).2.
Proof.
  destruct c; cbn [call].
  - destruct s. unfold enter_train_mode. method_cases; lia.
  - destruct s. unfold enter_run_mode. method_cases; lia.
  - destruct s. unfold next_step. method_cases; lia.
  - destruct s. unfold build_frame_stack. method_cases; lia.
  - rewrite update_frame_stack_cases. destruct s. repeat case_match; simpl; lia.
  - rewrite append_to_replay_memory_cases. destruct s. repeat case_match; simpl; lia.
  - destruct s. unfold erode_epsilon. method_cases; lia.
  - rewrite train_on_mini_batch_cases. destruct s. repeat case_match; simpl; lia.
  - rewrite load_model_weights_cases. destruct s. repeat case_match; simpl; lia.
Qed.

Lemma Z_float_compare_le (a b : Z) (f : float) :
  a <= b ->
  match Z_float_compare b f with Some Lt | Some Eq => true | _ => false end = true ->
  match Z_float_compare a f with Some Lt | Some Eq => true | _ => false end = true.
Proof.
  intros Hab. unfold Z_float_compare.
  destruct (Prim2SF f) as [sg|[|]| |sg m e]; try (intros; assumption).
  - destruct (Z.compare_spec b 0), (Z.compare_spec a 0); intros; try reflexivity;
      try discriminate; lia.
  - cbv zeta. set (v := if sg then Z.neg m else Z.pos m).
    destruct (0 <=? e).
    + destruct (Z.compare_spec b (v * 2 ^ e)), (Z.compare_spec a (v * 2 ^ e));
        intros; try reflexivity; try discriminate; lia.
    + assert (Hpow : 0 <= 2 ^ (- e)) by (apply Z.pow_nonneg; lia).
      destruct (Z.compare_spec (b * 2 ^ (- e)) v),
               (Z.compare_spec (a * 2 ^ (- e)) v);
        intros; try reflexivity; try discriminate; nia.
Qed.

Lemma py_le_int_le (a b : Z) (x : PyNum) :
  a <= b -> py_le (PyInt b) x = true -> py_le (PyInt a) x = true.
Proof.
  intros Hab. unfold py_le. destruct x as [y|f]; cbn [py_compare].
  - destruct (Z.compare_spec b y), (Z.compare_spec a y); intros;
      try reflexivity; try discriminate; lia.
  - apply Z_float_compare_le, Hab.
Qed.

Lemma call_observing c s : observing s = false -> observing (the_call c s).2 = false.
Proof.
  intros Hs. destruct (observing (the_call c s).2) eqn:Hs'; [|reflexivity].
  unfold observing in *.
  pose proof (call_configuration c s) as Hcfg.
  assert (Hobs : observe_steps (the_call c s).2 = observe_steps s).
  { unfold configuration in Hcfg. congruence. }
  rewrite Hobs in Hs'.
  rewrite (py_le_int_le _ _ _ (call_current_observe_step c s) Hs') in Hs.
  discriminate.
Qed.

(** X2. The observe-only phase never comes back: once
    [current_observe_step] exceeds [observe_steps] (the test of
    [train_on_mini_batch] fails), it does so after any further sequence of
    calls, loading a checkpoint included; [current_observe_step] never goes
    down. *)
Theorem observe_phase_never_returns (calls : list (Call Weights)) s :
  observing s = false ->
  observing (after calls s) = false /\
  current_observe_step s <= current_observe_step (after calls s).
Proof.
  intros Hs.
  apply (after_calls_ind
           (fun s' => observing s' = false /\
                      current_observe_step s <= current_observe_step s'));
    [|split; [exact Hs|lia]].
  intros c s' [Hobs Hle]. split; [apply call_observing, Hobs|].
  pose proof (call_current_observe_step c s'). lia.
Qed.

Lemma init_fresh (fs : gmap string Weights) (c : Config) s0 :
  init sequential compile set_weights unicode_space unicode_decimal float_parse fs c = Ok
    s0 ->
  items (replay_memory s0) = [] /\
  frame_stack s0 = None /\
  current_observe_step s0 = 0 /\
  mode s0 = TRAIN /\
  model_loss s0 = PyInt 0 /\
  batch_size s0 = cfg_batch_size c /\
  action_count s0 = length (combinations (cfg_action_space c)).
Proof.
  unfold init. cbn [mbind result_bind].
  destruct (deque_new (cfg_replay_memory_size c)) as [memory|] eqn:Hmem; [|discriminate].
  assert (Hitems : items memory = []).
  { unfold deque_new in Hmem. repeat case_match; simplify_eq; reflexivity. }
  destruct (observe_steps_of _ _) as [os|]; [|discriminate].
  cbn [mbind result_bind].
  destruct (cfg_model_file_path c) as [file_path|].
  - rewrite load_model_weights_cases.
    repeat case_match; intros ?; simplify_eq/=; repeat split; assumption.
  - intros [= <-]. repeat split; assumption.
Qed.

Lemma Forall_deque_append {A} (P : A -> Prop) (d : deque A) (x : A) :
  Forall P (items d) -> P x -> Forall P (items (deque_append d x)).
Proof.
  intros Hd Hx.
  assert (Hl : Forall P (items d ++ [x])) by (apply Forall_app; auto).
  unfold deque_append. destruct (maxlen d); simpl; [|exact Hl].
  destruct (_ <? _)%nat; [|exact Hl].
  destruct (items d ++ [x]); [constructor|]. inversion Hl; assumption.
Qed.

Lemma np_stack_axis2_depth (g : Frame) (n : nat) (a : ndarray4) :
  np_stack_axis2 (replicate (S n) g) = Ok a ->
  arr_shape a = (1%nat, (frame_shape g).1, (frame_shape g).2, S n).
Proof.
  unfold np_stack_axis2. cbn [replicate].
  destruct (forallb _ _); [|discriminate].
  destruct (frame_shape g) as [h w]. intros [= <-]. simpl.
  rewrite length_replicate. reflexivity.
Qed.

Lemma np_append_axis3_depth (g : Frame) (fs a : ndarray4) (n h w d : nat) :
  arr_shape fs = (n, h, w, S d) ->
  np_append_axis3 (reshape_1hw1 g) (slice_drop_last fs) = Ok a ->
  n = 1%nat /\ frame_shape g = (h, w) /\ arr_shape a = (1%nat, h, w, S d).
Proof.
  destruct g as [[hg wg] P], fs as [sh dat]. simpl. intros ->.
  unfold np_append_axis3, reshape_1hw1, slice_drop_last.
  cbn [arr_shape frame_shape arr_data frame_pixels].
  destruct (Nat.eqb_spec 1 n), (Nat.eqb_spec hg h), (Nat.eqb_spec wg w);
    cbn [andb]; try discriminate.
  intros [= <-]. subst. simpl. rewrite Nat.sub_0_r. repeat split.
Qed.

Lemma call_well_recorded c s : well_recorded s -> well_recorded (the_call c s).2.
Proof.
  intros [Hitems Hstack]. destruct c; cbn [call].
  - destruct s. unfold enter_train_mode. method_cases; split; assumption.
  - destruct s. unfold enter_run_mode. method_cases; split; assumption.
  - destruct s. unfold next_step. method_cases; split; assumption.
  - unfold build_frame_stack. unfold_monad.
    destruct (np_stack_axis2 _) as [a|] eqn:Ha; [|split; assumption].
    apply np_stack_axis2_depth in Ha.
    split; [destruct s; exact Hitems|].
    intros a' Ha'. destruct s; simpl in Ha'. injection Ha' as <-. eauto.
  - rewrite update_frame_stack_cases.
    destruct (frame_stack s) as [fs|] eqn:Hfs;
      [|split; [assumption|cbn [snd]; rewrite Hfs; assumption]].
    destruct (np_append_axis3 _ _) as [a|] eqn:Ha;
      [|split; [assumption|cbn [snd]; rewrite Hfs; assumption]].
    destruct (Hstack fs eq_refl) as (h & w & Hshape).
    pose proof (np_append_axis3_depth _ _ _ _ _ _ _ Hshape Ha) as (_ & _ & Hsh).
    split; [destruct s; exact Hitems|].
    intros a' Ha'. destruct s; simpl in Ha'. injection Ha' as <-. eauto.
  - rewrite append_to_replay_memory_cases.
    destruct (frame_stack s) as [fs|] eqn:Hfs;
      [|split; [assumption|cbn [snd]; rewrite Hfs; assumption]].
    destruct (np_append_axis3 _ _) as [a|] eqn:Ha;
      [|split; [assumption|cbn [snd]; rewrite Hfs; assumption]].
    destruct (Hstack fs eq_refl) as (h & w & Hshape).
    pose proof (np_append_axis3_depth _ _ _ _ _ _ _ Hshape Ha) as (_ & _ & Hsh).
    split.
    + destruct s; simpl in *. apply Forall_deque_append; [exact Hitems|].
      split; [reflexivity|]. exists h, w. split; assumption.
    + intros a' Ha'. destruct s; simpl in Ha'. injection Ha' as <-. eauto.
  - destruct s. unfold erode_epsilon. method_cases; split; assumption.
  - rewrite train_on_mini_batch_cases. destruct s.
    repeat case_match; split; assumption.
  - rewrite load_model_weights_cases. destruct s.
    repeat case_match; split; assumption.
Qed.

Lemma random_sample_Forall {A} (P : A -> Prop) (choice : list nat)
  (population : list A) (k : Z) (sample : list A) :
  Forall P population ->
  random_sample choice population k = Ok sample ->
  Forall P sample.
Proof.
  intros Hpop. unfold random_sample. destruct (_ && _); [|discriminate].
  intros [= <-]. rewrite Forall_forall in Hpop. apply Forall_forall.
  intros x Hx. apply list_elem_of_omap in Hx as (i & _ & Hi).
  apply Hpop. apply (list_elem_of_lookup_2 _ _ _ Hi).
Qed.

Lemma build_batch_sample (draws : Draws) s (mini_batch : list Transition)
  (inputs : ndarray4) (targets : list (list float)) :
  (build_batch predict astype_uint8 draws s).1 = Ok (mini_batch, inputs, targets) ->
  random_sample (mini_batch_choice draws) (items (replay_memory s)) (batch_size s)
  = Ok mini_batch.
Proof.
  destruct (build_batch predict astype_uint8 draws s) as [r s'] eqn:Hbuild.
  cbn [fst]. intros ->. apply (build_batch_Ok _ _ _ _ _ _ _ _ Hbuild).
Qed.

(** X3. Whatever calls are made on an agent that [__init__] built, every
    transition held by the replay memory is non-terminal and carries two
    one-sample stacks of depth 8 with one height and width, and the agent's
    own stack, once there is one, has depth 8. So no mini-batch ever contains
    a terminal transition: the reward-only target is never used for what
    [append_to_replay_memory] recorded. *)
Theorem stored_transitions_are_never_terminal (fs : gmap string Weights)
  (c : Config) s0 (calls : list (Call Weights)) :
  init sequential compile set_weights unicode_space unicode_decimal float_parse fs c = Ok
    s0 ->
  Forall recorded (items (replay_memory (after calls s0))) /\
  stack_of_depth_8 (frame_stack (after calls s0)) /\
  (forall (draws : Draws) (mini_batch : list Transition) (inputs : ndarray4)
          (targets : list (list float)),
     (build_batch predict astype_uint8 draws (after calls s0)).1
     = Ok (mini_batch, inputs, targets) ->
     Forall (fun t => t_terminal t = false) mini_batch).
Proof.
  intros Hinit. apply init_fresh in Hinit as (Hitems & Hstack & _).
  assert (Hwr : well_recorded (after calls s0)).
  { apply (after_calls_ind well_recorded); [apply call_well_recorded|].
    split; [rewrite Hitems; constructor|].
    intros a Ha. congruence. }
  destruct Hwr as [Hrec Hdepth]. split; [exact Hrec|]. split; [exact Hdepth|].
  intros draws mini_batch inputs targets Hbuild.
  apply build_batch_sample in Hbuild.
  eapply Forall_impl;
    [apply (random_sample_Forall recorded _ _ _ _ Hrec Hbuild)|].
  intros t [Ht _]. exact Ht.
Qed.

Lemma chained_snoc (l : list Transition) (t : Transition) :
  chained l ->
  (forall t0, last l = Some t0 -> t_frame_stack t0 = t_previous_frame_stack t) ->
  chained (l ++ [t]).
Proof.
  intros Hl Hlast i t1 t2 H1 H2.
  destruct (decide (S i < length l)%nat) as [Hlt | Hge].
  - rewrite lookup_app_l in H1, H2 by lia. apply (Hl i); assumption.
  - destruct (decide (S i = length l)) as [Heq | Hne].
    + rewrite lookup_app_l in H1 by lia.
      rewrite lookup_app_r in H2 by lia.
      replace (S i - length l)%nat with 0%nat in H2 by lia.
      injection H2 as <-. apply Hlast.
      rewrite last_lookup. rewrite <- Heq. exact H1.
    + apply lookup_lt_Some in H2. rewrite length_app in H2. simpl in H2. lia.
Qed.

Lemma chained_tail (l : list Transition) : chained l -> chained (tail l).
Proof.
  intros Hl i t1 t2 H1 H2. rewrite lookup_tail in H1, H2.
  apply (Hl (S i)); assumption.
Qed.

Lemma last_tail {A} (l : list A) (x : A) : last (tail l) = Some x -> last l = Some x.
Proof. destruct l as [|a [|b l]]; simpl; try discriminate. auto. Qed.

Lemma call_trajectory c s :
  keeps_frame_stack c = true -> trajectory s -> trajectory (the_call c s).2.
Proof.
  intros Hc [Hchain Hnew]. destruct c; try discriminate Hc; cbn [call].
  - destruct s. unfold enter_train_mode. method_cases; split; assumption.
  - destruct s. unfold enter_run_mode. method_cases; split; assumption.
  - destruct s. unfold next_step. method_cases; split; assumption.
  - rewrite append_to_replay_memory_cases.
    destruct (frame_stack s) as [fs|] eqn:Hfs;
      [|split; [assumption|cbn [snd]; rewrite Hfs; assumption]].
    destruct (np_append_axis3 _ _) as [a|];
      [|split; [assumption|cbn [snd]; rewrite Hfs; assumption]].
    destruct s as [? [cap l] ? ? ? ? ? ? ? ? ? ? ? ? ? ? ? ? ? ? ?].
    unfold trajectory. cbn in *. subst.
    set (t := MkTransition fs _ reward a false).
    assert (Hsnoc : chained (l ++ [t])).
    { apply chained_snoc; [exact Hchain|]. intros t0 Ht0.
      specialize (Hnew t0 Ht0). subst t. simpl. congruence. }
    unfold deque_append; cbn [maxlen items]. fold t.
    destruct cap as [n|]; cbn [maxlen items replay_memory frame_stack snd].
    + destruct (n <? length (l ++ [t]))%nat.
      * split; [apply chained_tail, Hsnoc|].
        intros t' Ht'. apply last_tail in Ht'. rewrite last_snoc in Ht'.
        injection Ht' as <-. reflexivity.
      * split; [exact Hsnoc|]. intros t' Ht'. rewrite last_snoc in Ht'.
        injection Ht' as <-. reflexivity.
    + split; [exact Hsnoc|]. intros t' Ht'. rewrite last_snoc in Ht'.
      injection Ht' as <-. reflexivity.
  - destruct s. unfold erode_epsilon. method_cases; split; assumption.
  - rewrite train_on_mini_batch_cases. destruct s.
    repeat case_match; split; assumption.
  - rewrite load_model_weights_cases. destruct s.
    repeat case_match; split; assumption.
Qed.

(** X4. As long as the stack is moved only by [append_to_replay_memory]
    (no [build_frame_stack] or [update_frame_stack] of the caller's own in
    between), the replay memory stays one trajectory: the resulting stack of
    each stored transition is the prior stack of the next, evictions
    included, and the resulting stack of the newest one is the agent's
    current stack. An empty memory is such a trajectory. *)
Theorem replay_memory_is_a_trajectory (calls : list (Call Weights)) s :
  trajectory s ->
  forallb keeps_frame_stack calls = true ->
  chained (items (replay_memory (after calls s))) /\
  newest_is_current (items (replay_memory (after calls s)))
    (frame_stack (after calls s)) /\
  (forall s0 : DQN KModel, items (replay_memory s0) = [] -> trajectory s0).
Proof.
  intros Hs Hcalls.
  assert (Htraj : trajectory (after calls s)).
  { revert s Hs. induction calls as [|c calls IH]; intros s Hs; [exact Hs|].
    simpl in Hcalls. apply andb_true_iff in Hcalls as [Hc Hrest].
    simpl. apply (IH Hrest). apply call_trajectory; assumption. }
  destruct Htraj as [H1 H2]. split; [exact H1|]. split; [exact H2|].
  intros s0 Hempty. unfold trajectory. rewrite Hempty. split.
  - intros i t t' Hi. discriminate.
  - intros t Ht. discriminate.
Qed.

Lemma times_S (k : nat) (m : M KModel unit) s :
  times (S k) m s =
    match m s with
    | (Ok _, s') => times k m s'
    | (Raise e, s') => (Raise e, s')
    end.
Proof. reflexivity. Qed.

Lemma next_step_train s :
  mode s = TRAIN ->
  next_step s = (Ok tt, set_current_observe_step (current_observe_step s + 1)
                          (set_current_step (current_step s + 1) s)).
Proof. unfold next_step. unfold_monad. intros ->. reflexivity. Qed.

Lemma times_next_step (k : nat) s :
  mode s = TRAIN ->
  times k next_step s
  = (Ok tt, set_current_observe_step (current_observe_step s + Z.of_nat k)
              (set_current_step (current_step s + Z.of_nat k) s)).
Proof.
  revert s. induction k as [|k IH]; intros s Hmode.
  - destruct s. simpl. rewrite !Z.add_0_r. reflexivity.
  - rewrite times_S, (next_step_train s Hmode), IH by (destruct s; exact Hmode).
    destruct s. unfold set_current_observe_step, set_current_step.
    cbn -[Z.add Z.of_nat]. f_equal. f_equal; lia.
Qed.

(** X5. In TRAIN mode, [k] calls of [next_step] add [k] to [current_step] and
    to [current_observe_step] and change nothing else. With an int
    [observe_steps = n], the agent is still in its observe-only phase after
    them exactly when [current_observe_step + k <= n]; up to there
    [train_on_mini_batch] returns at once with the agent as it is. *)
Theorem observe_phase_lasts_observe_steps_next_steps s (k : nat) (n : Z)
  (draws : Draws) :
  mode s = TRAIN ->
  observe_steps s = PyInt n ->
  let s' := set_current_observe_step (current_observe_step s + Z.of_nat k)
              (set_current_step (current_step s + Z.of_nat k) s) in
  times k next_step s = (Ok tt, s') /\
  (observing s' = true <-> current_observe_step s + Z.of_nat k <= n) /\
  (current_observe_step s + Z.of_nat k <= n ->
   train_on_mini_batch predict train_on_batch astype_uint8 draws s' = (Ok tt, s')).
Proof.
  intros Hmode Hobs s'.
  assert (Hiff : observing s' = true <-> current_observe_step s + Z.of_nat k <= n).
  { unfold observing, py_le. subst s'. destruct s; simpl in *. subst.
    destruct (Z.compare_spec (current_observe_step0 + Z.of_nat k) n);
      split; intros; try reflexivity; try discriminate; lia. }
  split; [apply times_next_step, Hmode|]. split; [exact Hiff|].
  intros Hle. rewrite train_on_mini_batch_cases.
  rewrite (proj2 Hiff Hle). reflexivity.
Qed.

Lemma call_in_run_mode c s :
  mode s = RUN -> steps_or_erodes c = true -> the_call c s = (Ok tt, s).
Proof.
  intros Hmode Hc. destruct c; try discriminate Hc; cbn [call].
  - unfold next_step. unfold_monad. rewrite Hmode. reflexivity.
  - unfold erode_epsilon. unfold_monad. rewrite Hmode, andb_false_r. reflexivity.
Qed.

(** X6. RUN mode freezes the step counters and the epsilon: [next_step] and
    [erode_epsilon] return with the agent untouched, however often they are
    called, so the [enter_train_mode] that ends the RUN phase puts back the
    epsilon of before it, with both counters where they were. *)
Theorem run_mode_freezes_steps_and_epsilon s (calls : list (Call Weights)) :
  forallb steps_or_erodes calls = true ->
  after calls (exec enter_run_mode s) = exec enter_run_mode s /\
  policy_epsilon (exec enter_train_mode (after calls (exec enter_run_mode s)))
    = policy_epsilon s /\
  current_step (exec enter_train_mode (after calls (exec enter_run_mode s)))
    = current_step s /\
  current_observe_step (exec enter_train_mode (after calls (exec enter_run_mode s)))
    = current_observe_step s.
Proof.
  intros Hcalls.
  assert (Hfrozen : forall s1 : DQN KModel, mode s1 = RUN -> after calls s1 = s1).
  { induction calls as [|c calls IH]; intros s1 Hmode; [reflexivity|].
    simpl in Hcalls. apply andb_true_iff in Hcalls as [Hc Hrest].
    simpl. rewrite (call_in_run_mode c s1 Hmode Hc). apply (IH Hrest _ Hmode). }
  rewrite Hfrozen by (destruct s; reflexivity).
  split; [reflexivity|].
  destruct s as [? ? ? ? ? ? ? ? ? ? ? ? ? [e i f m] ? ? ? ? ? ? ?].
  repeat split.
Qed.




Lemma build_batch_requirements (draws : Draws) s
  (batch : list Transition * ndarray4 * list (list float)) :
  (build_batch predict astype_uint8 draws s).1 = Ok batch ->
  6 <= batch_size s <= Z.of_nat (length (items (replay_memory s))) /\
  is_Some (frame_stack s).
Proof.
  destruct batch as [[mb inputs] targets].
  destruct (build_batch predict astype_uint8 draws s) as [r s'] eqn:Hbuild.
  cbn [fst]. intros ->.
  destruct (build_batch_Ok _ _ _ _ _ _ _ _ Hbuild)
    as (Hmb & fs & inputs0 & targets0 & fl & Hfs & _ & _ & Hfl & _).
  unfold random_sample in Hmb, Hfl.
  destruct (_ && _) eqn:H1 in Hmb; [|discriminate].
  destruct (_ && _) eqn:H2 in Hfl; [|discriminate].
  apply andb_true_iff in H1 as [H1a H1b], H2 as [_ H2].
  unfold py_range in H2. rewrite length_seq in H2.
  apply Z.leb_le in H1a, H1b, H2.
  split; [lia|]. rewrite Hfs. eexists. reflexivity.
Qed.


(** X8. For [train_on_mini_batch] to train it takes more than the end of the
    observe phase: a call that gets past the observe test and returns had a
    batch size of at least 6 (the six flashback indices are drawn from
    [range(batch_size)]) and at most the number of stored transitions, and a
    frame stack. *)
Theorem training_needs_six_to_memory_size_batch s (draws : Draws) s' :
  observing s = false ->
  train_on_mini_batch predict train_on_batch astype_uint8 draws s = (Ok tt, s') ->
  6 <= batch_size s <= Z.of_nat (length (items (replay_memory s))) /\
  is_Some (frame_stack s).
Proof.
  intros Hobs. rewrite train_on_mini_batch_cases, Hobs. cbv zeta.
  destruct (build_batch predict astype_uint8 draws s).1 as [batch|] eqn:Hbuild;
    [|discriminate].
  intros _. apply (build_batch_requirements _ _ _ Hbuild).
Qed.

(** X9. [train_on_mini_batch] writes the model, its loss and the images of
    the visual debugger, and nothing else: the debugger keeps the images it
    had and may get further ones. When the call raises, model and loss are
    as they were, but flashback images stored before the failing statement
    stay with the debugger. The call does not look at the mode: in RUN mode
    it does what it does in TRAIN mode. *)
Theorem train_on_mini_batch_writes_model_loss_and_images s (draws : Draws) :
  apart_from_model_and_debugger
    (train_on_mini_batch predict train_on_batch astype_uint8 draws s).2
    = apart_from_model_and_debugger s /\
  (exists images : list StoredImage,
     visual_debugger (train_on_mini_batch predict train_on_batch astype_uint8 draws s).2
     = visual_debugger s ++ images /\
     forall (e : exn) s',
       train_on_mini_batch predict train_on_batch astype_uint8 draws s = (Raise e, s') ->
       s' = with_images images s) /\
  (forall m : Mode,
     train_on_mini_batch predict train_on_batch astype_uint8 draws (set_mode m s)
     = ((train_on_mini_batch predict train_on_batch astype_uint8 draws s).1,
        set_mode m (train_on_mini_batch predict train_on_batch astype_uint8 draws s).2)).
Proof.
  split; [|split].
  - rewrite train_on_mini_batch_cases. destruct s. repeat case_match; reflexivity.
  - rewrite train_on_mini_batch_cases.
    destruct (observing s).
    { exists []. rewrite app_nil_r. split; [reflexivity|]. discriminate. }
    exists (stored_images predict astype_uint8 draws s). cbv zeta.
    destruct (build_batch predict astype_uint8 draws s).1 as [batch|].
    + destruct (train_on_batch _ _ _) as [trained|].
      * split; [destruct s; reflexivity|]. discriminate.
      * split; [destruct s; reflexivity|]. intros e0 s' [= _ <-]. reflexivity.
    + split; [destruct s; reflexivity|]. intros e0 s' [= _ <-]. reflexivity.
  - intros m. unfold train_on_mini_batch. unfold_monad.
    cbn [set_mode current_observe_step observe_steps model].
    destruct (py_le _ _); [reflexivity|].
    fold (set_mode m s). rewrite build_batch_set_mode.
    destruct (build_batch predict astype_uint8 draws s) as [[batch|e] s1];
      cbn [fst snd]; [|reflexivity].
    destruct (train_on_batch _ _ _) as [trained|]; [|reflexivity].
    destruct s1; reflexivity.
Qed.





(** X21. An [append_to_replay_memory] that returns has put, as the newest
    entry of a replay memory that can hold anything, the transition made of
    the stack before the call, the current action index, the given reward,
    the stack after the call and [False]; a replay memory of capacity 0
    stays empty. *)
Theorem append_records_stacks_action_and_reward s (g : Frame) (reward : float) s' :
  append_to_replay_memory g reward s = (Ok tt, s') ->
  exists previous current : ndarray4,
    frame_stack s = Some previous /\
    frame_stack s' = Some current /\
    (maxlen (replay_memory s) <> Some 0%nat ->
     last (items (replay_memory s'))
     = Some (MkTransition previous (current_action_index s) reward current false)) /\
    (maxlen (replay_memory s) = Some 0%nat -> items (replay_memory s) = [] ->
     items (replay_memory s') = []).
Proof.
  rewrite append_to_replay_memory_cases.
  destruct (frame_stack s) as [fs|] eqn:Hfs; [|discriminate].
  destruct (np_append_axis3 _ _) as [a|]; [|discriminate].
  intros [= <-]. exists fs, a. split; [reflexivity|].
  destruct s as [? [cap l] ? ? ? ? ? ? ? ? ? ? ? ? ? ? ? ? ? ? ?]. cbn in *.
  split; [reflexivity|].
  unfold deque_append. cbn [maxlen items].
  set (t := MkTransition fs _ reward a false).
  destruct cap as [n|]; cbn [items]; split.
  - intros Hn. destruct (Nat.ltb_spec n (length (l ++ [t]))) as [Hlt|Hge];
      [|apply last_snoc].
    rewrite length_app in Hlt. simpl in Hlt.
    destruct l as [|x l]; simpl in *.
    + destruct n; [congruence|lia].
    + apply last_snoc.
  - intros [= ->] ->. reflexivity.
  - intros _. apply last_snoc.
  - discriminate.
Qed.

End CallFrames.

(** ** The channels of the frame stack *)

Section FrameChannels.

Context {KModel : Type}.
Implicit Type s : DQN KModel.

Lemma length_removelast_pred (v : list float) :
  length (removelast v) = (length v - 1)%nat.
Proof.
  induction v as [|x [|y v] IH]; try reflexivity.
  change (removelast (x :: y :: v)) with (x :: removelast (y :: v)).
  simpl length in *. rewrite IH. lia.
Qed.

Lemma nth_removelast (j : nat) (v : list float) (x : float) :
  (S j < length v)%nat -> nth j (removelast v) x = nth j v x.
Proof.
  revert j. induction v as [|a [|b v] IH]; intros j Hj; simpl in Hj; try lia.
  change (removelast (a :: b :: v)) with (a :: removelast (b :: v)).
  destruct j as [|j]; [reflexivity|].
  simpl nth. apply IH. simpl. lia.
Qed.

Lemma push_length (P : list float) (D : list (list float)) :
  length P = length D -> length (push P D) = length D.
Proof.
  intros H. unfold push. rewrite length_zip_with, !length_map. lia.
Qed.

Lemma push_depth (d : nat) (P : list float) (D : list (list float)) :
  Forall (fun v => length v = S d) D ->
  Forall (fun v => length v = S d) (push P D).
Proof.
  unfold push. revert P. induction D as [|v D IH]; intros [|p P] HD; simpl;
    try constructor.
  - simpl. inversion HD; subst. rewrite length_removelast_pred. lia.
  - apply IH. inversion HD; assumption.
Qed.

Lemma push_newest_channel (P : list float) (D : list (list float)) :
  length P = length D ->
  map (fun v => nth 0 v 0%float) (push P D) = P.
Proof.
  unfold push. revert D. induction P as [|p P IH]; intros [|v D] H; simpl in *;
    try reflexivity; try discriminate.
  f_equal. apply IH. lia.
Qed.

Lemma push_older_channels (d j : nat) (P : list float) (D : list (list float)) :
  length P = length D ->
  Forall (fun v => length v = S d) D ->
  (S j < S d)%nat ->
  map (fun v => nth (S j) v 0%float) (push P D) = map (fun v => nth j v 0%float) D.
Proof.
  unfold push. intros Hlen HD Hj. revert D Hlen HD.
  induction P as [|p P IH]; intros [|v D] Hlen HD; simpl in *;
    try reflexivity; try discriminate.
  inversion HD; subst. f_equal.
  - apply nth_removelast. lia.
  - apply IH; [lia|assumption].
Qed.

Lemma zip_with_cons_map_replicate (n : nat) (P : list float) :
  zip_with cons P (map (fun p => replicate n p) P)
  = map (fun p => replicate (S n) p) P.
Proof. induction P as [|p P IH]; simpl; [reflexivity|]. rewrite IH. reflexivity. Qed.

Lemma columns_replicate (n : nat) (g : Frame) :
  columns (length (frame_pixels g)) (replicate n g)
  = map (fun p => replicate n p) (frame_pixels g).
Proof.
  induction n as [|n IH]; simpl.
  - generalize (frame_pixels g). induction l as [|p P IHP]; simpl; [reflexivity|].
    rewrite <- IHP. reflexivity.
  - rewrite IH. apply zip_with_cons_map_replicate.
Qed.

Lemma map_nth_replicate (n k : nat) (P : list float) :
  (k < n)%nat ->
  map (fun v => nth k v 0%float) (map (fun p => replicate n p) P) = P.
Proof.
  intros Hk. induction P as [|p P IH]; simpl; [reflexivity|].
  rewrite IH. f_equal. clear IH. revert k Hk.
  induction n as [|n IHn]; intros [|k] Hk; simpl; try lia; try reflexivity.
  apply IHn. lia.
Qed.

(** X20. [build_frame_stack] never raises, whatever stack there was: it
    replaces it by a well-formed stack of the frame's height and width and of
    depth 8, each of whose eight channels is the given frame. *)
Theorem build_frame_stack_fills_every_channel s (g : Frame) :
  wf_frame g ->
  exists fs : ndarray4,
    build_frame_stack g s = (Ok tt, set_frame_stack (Some fs) s) /\
    arr_shape fs = (1%nat, (frame_shape g).1, (frame_shape g).2, 8%nat) /\
    wf_stack 8 fs /\
    (forall k : nat, (k < 8)%nat -> channel k fs = Ok g).
Proof.
  intros Hwf. destruct g as [[h w] P]. unfold wf_frame in Hwf. simpl in Hwf.
  set (g := MkFrame (h, w) P).
  assert (Hbuild : np_stack_axis2 (replicate 8 g)
            = Ok (MkArr4 (1%nat, h, w, 8%nat) [columns (h * w) (replicate 8 g)])).
  { apply (np_stack_axis2_same_shape h w g (replicate 7 g) eq_refl).
    apply Forall_replicate. reflexivity. }
  pose proof (columns_replicate 8 g) as Hcols. cbn [frame_pixels g] in Hcols.
  rewrite Hwf in Hcols.
  exists (MkArr4 (1%nat, h, w, 8%nat) [columns (h * w) (replicate 8 g)]).
  split; [|split; [|split]].
  - unfold build_frame_stack. unfold_monad. rewrite Hbuild. reflexivity.
  - reflexivity.
  - exists h, w, (columns (h * w) (replicate 8 g)). split; [reflexivity|].
    rewrite Hcols. split; [rewrite length_map; exact Hwf|].
    apply Forall_forall. intros v Hv. apply list_elem_of_fmap in Hv as (p & -> & _).
    apply length_replicate.
  - intros k Hk. unfold channel. cbn [arr_shape arr_data concat].
    rewrite app_nil_r, Hcols.
    destruct (Nat.ltb_spec k 8); [|lia].
    rewrite (map_nth_replicate 8 k P Hk). reflexivity.
Qed.

(** X10. On a well-formed one-sample stack of depth [d + 1], an update with a
    well-formed frame of the stack's height and width returns; the new stack
    is well formed with the same depth; its channel 0 is the new frame; and
    each channel [j + 1] is the old channel [j]. The old last channel is
    gone. *)
Theorem update_frame_stack_shifts_channels s (fs : ndarray4) (g : Frame)
  (h w d : nat) :
  frame_stack s = Some fs ->
  arr_shape fs = (1%nat, h, w, S d) ->
  wf_stack (S d) fs ->
  frame_shape g = (h, w) ->
  wf_frame g ->
  exists fs' : ndarray4,
    update_frame_stack g s = (Ok tt, set_frame_stack (Some fs') s) /\
    arr_shape fs' = (1%nat, h, w, S d) /\
    wf_stack (S d) fs' /\
    channel 0 fs' = Ok g /\
    (forall j : nat, (S j < S d)%nat -> channel (S j) fs' = channel j fs) /\
    (forall j : nat, (S d <= j)%nat -> channel j fs' = Raise IndexError).
Proof.
  intros Hfs Hshape (h' & w' & D & -> & HDlen & HDdepth) Hg Hwf.
  simpl in Hshape. injection Hshape as -> ->.
  unfold wf_frame in Hwf. rewrite Hg in Hwf. simpl in Hwf.
  exists (MkArr4 (1%nat, h, w, (1 + (S d - 1))%nat) [push (frame_pixels g) D]).
  assert (Hd : (1 + (S d - 1))%nat = S d) by lia.
  split; [apply (update_frame_stack_push s h w (S d) g D Hfs Hg)|].
  rewrite Hd.
  split; [reflexivity|]. split; [|split; [|split]].
  - exists h, w, (push (frame_pixels g) D). split; [reflexivity|]. split.
    + rewrite push_length; lia.
    + apply push_depth, HDdepth.
  - unfold channel. cbn [arr_shape arr_data]. simpl concat. rewrite app_nil_r.
    rewrite push_newest_channel by lia.
    destruct g as [sh P]. simpl in *. subst sh. reflexivity.
  - intros j Hj. unfold channel. cbn [arr_shape arr_data]. simpl concat.
    rewrite !app_nil_r.
    destruct (Nat.ltb_spec (S j) (S d)); [|lia].
    destruct (Nat.ltb_spec j (S d)); [|lia].
    rewrite (push_older_channels d j) by (assumption || lia). reflexivity.
  - intros j Hj. unfold channel. cbn [arr_shape arr_data].
    destruct (Nat.ltb_spec j (S d)); [lia|reflexivity].
Qed.

End FrameChannels.

(** ** More on checkpoints and [__init__] *)

Section MoreCheckpoints.

Context {KModel Weights : Type}.
Variable sequential : option (list nat) -> nat -> KModel.
Variable compile : KModel -> Loss -> float -> KModel.
Variable get_weights : KModel -> Weights.
Variable set_weights : KModel -> Weights -> result KModel.
Variable unicode_space : N -> bool.
Variable unicode_decimal : N -> option N.
Variable float_repr : float -> string.
Variable float_parse : string -> option float.
Implicit Type s : DQN KModel.
Implicit Type fs : gmap string Weights.

Lemma unpack_last3_app3 {A} (l : list A) (a b c : A) :
  unpack_last3 (l ++ [a; b; c]) = Ok (l, a, b, c).
Proof.
  unfold unpack_last3. rewrite rev_app_distr. simpl.
  rewrite rev_involutive. reflexivity.
Qed.

Lemma split_plain_path (file_path_prefix : string) s :
  occurs "_" (py_str float_repr (policy_epsilon s)) = false ->
  split "_" (checkpoint_file_path float_repr file_path_prefix false s)
  = split "_" file_path_prefix
    ++ ["dqn"%string; py_str float_repr (policy_epsilon s); ".h5"%string].
Proof.
  intros Heps. unfold checkpoint_file_path.
  change (file_path_prefix +:+ "_dqn_" +:+ ?x)
    with (file_path_prefix +:+ String "_" ("dqn" +:+ String "_" x)).
  rewrite split_app.
  change (split "_" ("dqn" +:+ String "_" ?x)) with ("dqn"%string :: split "_" x).
  change (?x +:+ "_.h5") with (x +:+ String "_" ".h5").
  rewrite split_app, (split_no_separator _ _ Heps). reflexivity.
Qed.

Lemma load_saved_weights s1 s2 fs (file_path : string) (m' : KModel) :
  set_weights (model s2) (get_weights (model s1)) = Ok m' ->
  load_weights set_weights (model s2)
    (save_weights get_weights (model s1) file_path fs) file_path = Ok m'.
Proof.
  intros H. unfold load_weights, save_weights. rewrite lookup_insert_eq. exact H.
Qed.

(** X11. A file written by [save_model_weights] without [is_checkpoint]
    cannot be read back by [load_model_weights]: its name has [dqn] where
    the step count is looked for, so the load raises [ValueError], after the
    weights have been put into the model, and [current_step] and the epsilon
    stay as they were. *)
Theorem plain_save_cannot_be_loaded s1 s2 fs (file_path_prefix : string)
  (override_epsilon : bool) (m' : KModel) :
  set_weights (model s2) (get_weights (model s1)) = Ok m' ->
  occurs "_" (py_str float_repr (policy_epsilon s1)) = false ->
  load_model_weights compile set_weights unicode_space unicode_decimal float_parse
    (save_model_weights get_weights float_repr file_path_prefix false s1 fs)
    (checkpoint_file_path float_repr file_path_prefix false s1) override_epsilon s2
  = (Raise ValueError, set_model (compile m' Mse (model_learning_rate s2)) s2).
Proof.
  intros Hweights Heps.
  rewrite load_model_weights_cases. unfold save_model_weights.
  rewrite (load_saved_weights _ _ _ _ _ Hweights).
  rewrite (split_plain_path _ _ Heps), unpack_last3_app3.
  reflexivity.
Qed.

Lemma str_int_inj (n1 n2 : Z) : str_int n1 = str_int n2 -> n1 = n2.
Proof.
  intros H. pose proof (int_literal_str_int n1) as H1.
  rewrite H, int_literal_str_int in H1. congruence.
Qed.

(** X12. Checkpoint names tell steps apart: two checkpoint paths that are
    equal, whatever their prefixes, come from the same [current_step] and the
    same printed epsilon. So a checkpoint written at another step never
    overwrites an earlier one. *)
Theorem checkpoint_paths_tell_steps_apart s1 s2 fs (prefix1 prefix2 : string) :
  occurs "_" (py_str float_repr (policy_epsilon s1)) = false ->
  occurs "_" (py_str float_repr (policy_epsilon s2)) = false ->
  (checkpoint_file_path float_repr prefix1 true s1
   = checkpoint_file_path float_repr prefix2 true s2 ->
   current_step s1 = current_step s2 /\
   py_str float_repr (policy_epsilon s1) = py_str float_repr (policy_epsilon s2)) /\
  (current_step s1 <> current_step s2 ->
   save_model_weights get_weights float_repr prefix2 true s2
     (save_model_weights get_weights float_repr prefix1 true s1 fs)
   !! checkpoint_file_path float_repr prefix1 true s1
   = Some (get_weights (model s1))).
Proof.
  intros He1 He2.
  assert (Hinj : checkpoint_file_path float_repr prefix1 true s1
                 = checkpoint_file_path float_repr prefix2 true s2 ->
                 current_step s1 = current_step s2 /\
                 py_str float_repr (policy_epsilon s1)
                 = py_str float_repr (policy_epsilon s2)).
  { intros Hpath. apply (f_equal (fun p => unpack_last3 (split "_" p))) in Hpath.
    rewrite (split_checkpoint_path _ _ _ He1), (split_checkpoint_path _ _ _ He2) in Hpath.
    rewrite !unpack_last3_app3 in Hpath.
    injection Hpath as _ Hstep Heps. split; [apply str_int_inj, Hstep|exact Heps]. }
  split; [exact Hinj|].
  intros Hne. unfold save_model_weights, save_weights.
  rewrite lookup_insert_ne; [apply lookup_insert_eq|].
  intros Hpath. symmetry in Hpath. apply Hinj in Hpath as [Hstep _]. contradiction.
Qed.

(** X13. [load_model_weights] never touches the mode, the replay memory, the
    frame stack, [current_observe_step], the visual debugger or the
    configuration. When a load with [override_epsilon] returns, the file
    name had at least three fields, [current_step] is the int read from the
    third field from the end, and the policy's epsilon is the float read
    from the second field from the end. In RUN mode this replaces the zero
    epsilon of RUN mode, the mode staying RUN, and the epsilon saved on
    entering RUN mode is overwritten too: the [enter_train_mode] that
    follows keeps the file's epsilon. *)
Theorem load_model_weights_keeps_mode_and_memory s fs (file_path : string)
  (override_epsilon : bool) :
  let s' := exec (load_model_weights compile set_weights unicode_space
                    unicode_decimal float_parse fs file_path override_epsilon) s in
  mode s' = mode s /\
  replay_memory s' = replay_memory s /\
  frame_stack s' = frame_stack s /\
  current_observe_step s' = current_observe_step s /\
  visual_debugger s' = visual_debugger s /\
  configuration s' = configuration s /\
  (override_epsilon = true ->
   load_model_weights compile set_weights unicode_space unicode_decimal float_parse
     fs file_path override_epsilon s = (Ok tt, s') ->
   exists (args : list string) (steps epsilon extension : string) (n : Z)
          (e : float),
     unpack_last3 (split "_" file_path) = Ok (args, steps, epsilon, extension) /\
     py_int unicode_space unicode_decimal steps = Ok n /\
     float_parse epsilon = Some e /\
     current_step s' = n /\
     policy_epsilon s' = PyFloat e /\
     previous_epsilon s' = Some (PyFloat e) /\
     mode (exec enter_train_mode s') = TRAIN /\
     policy_epsilon (exec enter_train_mode s') = PyFloat e).
Proof.
  intros s'. subst s'. unfold exec. rewrite load_model_weights_cases.
  destruct (load_weights set_weights (model s) fs file_path) as [loaded|];
    [|repeat split; discriminate].
  cbv zeta.
  destruct (unpack_last3 (split "_" file_path))
    as [[[[args steps] epsilon] extension]|];
    [|destruct s; repeat split; discriminate].
  destruct (py_int unicode_space unicode_decimal steps) as [n|] eqn:Hsteps;
    [|destruct s; repeat split; discriminate].
  destruct override_epsilon; [|destruct s; repeat split; discriminate].
  destruct (float_parse epsilon) as [e|] eqn:Hepsilon;
    [|destruct s; repeat split; discriminate].
  destruct s as [? ? ? ? ? ? ? ? ? ? ? ? ? [e0 i0 f0 m0] ? ? ? ? ? ? ?].
  repeat split. intros _ _.
  exists args, steps, epsilon, extension, n, e. repeat split; assumption.
Qed.

(** X14. An [observe_steps] argument of [0] (or [0.0]) counts as none given:
    whenever [__init__] returns for such arguments, [observe_steps] is a
    tenth of the replay memory size, as a float. *)
Theorem zero_observe_steps_means_default fs (c : Config) s0 :
  init sequential compile set_weights unicode_space unicode_decimal float_parse fs c = Ok
    s0 ->
  py_truthy (default (PyInt 0) (cfg_observe_steps c)) = false ->
  exists (n : Z) (f : float),
    cfg_replay_memory_size c = Some n /\
    float_of_Z n = Ok f /\
    observe_steps s0 = PyFloat (one_tenth * f).
Proof.
  intros Hinit Hfalsy. unfold init in Hinit. cbn [mbind result_bind] in Hinit.
  destruct (deque_new _); next_bind Hinit.
  destruct (observe_steps_of _ _) as [os|] eqn:Hos; next_bind Hinit.
  assert (Hfallback : exists (n : Z) (f : float),
            cfg_replay_memory_size c = Some n /\ float_of_Z n = Ok f /\
            os = PyFloat (one_tenth * f)).
  { unfold observe_steps_of in Hos.
    destruct (cfg_observe_steps c) as [v|]; simpl in Hfalsy;
      [rewrite Hfalsy in Hos|];
      (destruct (cfg_replay_memory_size c) as [n|]; [|discriminate];
       destruct (float_of_Z n) as [f|] eqn:Hf; cbn [mbind result_bind] in Hos;
       [|discriminate]; injection Hos as <-; eauto). }
  destruct Hfallback as (n & f & Hn & Hf & ->). exists n, f.
  split; [exact Hn|]. split; [exact Hf|].
  destruct (cfg_model_file_path c).
  - rewrite load_model_weights_cases in Hinit.
    repeat case_match; simplify_eq/=; reflexivity.
  - injection Hinit as <-. reflexivity.
Qed.

(** X15. An agent built by [__init__] from a checkpoint takes its
    [current_step] from the file name (and, with [override_epsilon], its
    epsilon), but starts with [current_observe_step] at 0, an empty replay
    memory, no frame stack and a loss of 0: the observe-only phase starts
    over. *)
Theorem agent_built_from_checkpoint_restarts_observe_phase s1 fs
  (file_path_prefix : string) (c : Config) s0 :
  cfg_model_file_path c
    = Some (checkpoint_file_path float_repr file_path_prefix true s1) ->
  occurs "_" (py_str float_repr (policy_epsilon s1)) = false ->
  init sequential compile set_weights unicode_space unicode_decimal float_parse
    (save_model_weights get_weights float_repr file_path_prefix true s1 fs) c
    = Ok s0 ->
  current_step s0 = current_step s1 /\
  current_observe_step s0 = 0 /\
  items (replay_memory s0) = [] /\
  frame_stack s0 = None /\
  model_loss s0 = PyInt 0 /\
  (if cfg_override_epsilon c
   then exists e : float,
          float_parse (py_str float_repr (policy_epsilon s1)) = Some e /\
          policy_epsilon s0 = PyFloat e
   else policy_epsilon s0 = cfg_initial_epsilon c).
Proof.
  intros Hpath Heps Hinit.
  pose proof (init_fresh _ _ _ _ _ _ _ _ _ Hinit) as (Hitems & Hstack & Hobs & _ & Hloss
    & _).
  unfold init in Hinit. cbn [mbind result_bind] in Hinit.
  destruct (deque_new _); next_bind Hinit.
  destruct (observe_steps_of _ _); next_bind Hinit.
  rewrite Hpath in Hinit. rewrite load_model_weights_cases in Hinit.
  rewrite (split_checkpoint_path _ _ _ Heps) in Hinit.
  unfold init_parts in Hinit. rewrite <- app_assoc in Hinit. simpl app in Hinit.
  rewrite (unpack_last3_app (split "_" file_path_prefix) "dqn") in Hinit.
  rewrite py_int_str_int in Hinit.
  destruct (load_weights _ _ _ _); [|discriminate].
  cbv zeta in Hinit.
  destruct (cfg_override_epsilon c).
  - destruct (float_parse _) as [e|]; [|discriminate].
    injection Hinit as <-. repeat split; try assumption. exists e. split; reflexivity.
  - injection Hinit as <-. repeat split; assumption.
Qed.

(** X22. The loss the approximator is compiled with depends on how the agent
    was built: without a model file it is the log-cosh loss of
    [_initialize_model]; with a model file it is the mean squared error that
    [load_model_weights] compiles, around the weights of the file put into
    the log-cosh model. *)
Theorem agent_built_from_file_is_compiled_with_mse fs (c : Config) s0 :
  init sequential compile set_weights unicode_space unicode_decimal float_parse fs c = Ok
    s0 ->
  let fresh_model :=
    compile (sequential (cfg_input_shape c)
               (length (combinations (cfg_action_space c))))
      Logcosh (cfg_model_learning_rate c) in
  match cfg_model_file_path c with
  | None => model s0 = fresh_model
  | Some file_path =>
      exists (w : Weights) (loaded : KModel),
        fs !! file_path = Some w /\
        set_weights fresh_model w = Ok loaded /\
        model s0 = compile loaded Mse (cfg_model_learning_rate c)
  end.
Proof.
  unfold init, _initialize_model. cbn [mbind result_bind].
  destruct (deque_new (cfg_replay_memory_size c)) as [memory|]; [|discriminate].
  destruct (observe_steps_of _ _) as [os|]; [|discriminate].
  cbn [mbind result_bind].
  destruct (cfg_model_file_path c) as [file_path|]; [|intros [= <-]; reflexivity].
  rewrite load_model_weights_cases. unfold load_weights. cbn [model].
  destruct (fs !! file_path) as [w|]; [|discriminate].
  destruct (set_weights _ w) as [loaded|] eqn:Hset; [|discriminate].
  intros Hinit. exists w, loaded. split; [reflexivity|]. split; [exact Hset|].
  revert Hinit. repeat case_match; intros ?; simplify_eq/=; reflexivity.
Qed.

End MoreCheckpoints.

(** ** Actions *)

Section ActionMapping.

Variable values_for_combination : list (option string) -> list (option string).
Implicit Type input_mapping : gmap string (list string).
Implicit Type m acc : gmap (list (option string)) (list string).

Lemma input_values_Found input_mapping (values : list (option string)) :
  (forall v : string, Some v ∈ values -> is_Some (input_mapping !! v)) ->
  exists l, input_values input_mapping values = Found l.
Proof.
  induction values as [|[v|] values IH]; intros Hkeys; simpl.
  - eauto.
  - destruct (Hkeys v) as [keys ->]; [left|].
    destruct IH as [l ->]; [|eauto]. intros v' Hv'. apply Hkeys. right. exact Hv'.
  - apply IH. intros v' Hv'. apply Hkeys. right. exact Hv'.
Qed.

Lemma input_values_not_Found input_mapping (values : list (option string)) :
  (forall l, input_values input_mapping values <> Found l) ->
  input_values input_mapping values = KeyError /\
  exists v : string, Some v ∈ values /\ input_mapping !! v = None.
Proof.
  induction values as [|[v|] values IH]; simpl; intros Hnot.
  - exfalso. apply (Hnot []). reflexivity.
  - destruct (input_mapping !! v) as [keys|] eqn:Hv.
    + destruct IH as [Hrest (v' & Hin & Hnone)].
      { intros l Hl. apply (Hnot (keys :: l)). rewrite Hl. reflexivity. }
      rewrite Hrest. split; [reflexivity|]. exists v'. split; [right; exact Hin|exact
        Hnone].
    + split; [reflexivity|]. exists v. split; [left|exact Hv].
  - destruct (IH Hnot) as [Hrest (v' & Hin & Hnone)].
    split; [exact Hrest|]. exists v'. split; [right; exact Hin|exact Hnone].
Qed.

Lemma fill_action_input_mapping_Found input_mapping
  (combinations : list (list (option string))) :
  forall acc m,
    fill_action_input_mapping values_for_combination input_mapping combinations acc
    = Found m ->
    (forall c, c ∈ combinations ->
       exists l, input_values input_mapping (values_for_combination c) = Found l /\
                 m !! c = Some (concat l)) /\
    (forall c, c ∉ combinations -> m !! c = acc !! c).
Proof.
  induction combinations as [|c0 rest IH]; intros acc m Hfill; simpl in Hfill.
  - injection Hfill as <-. split; [|reflexivity]. intros c Hc. inversion Hc.
  - destruct (input_values input_mapping (values_for_combination c0)) as [l0| |]
      eqn:Hl0; try discriminate.
    destruct (IH _ _ Hfill) as [Hin Hout]. split.
    + intros c Hc. destruct (decide (c ∈ rest)) as [Hrest | Hrest]; [apply Hin, Hrest|].
      apply elem_of_cons in Hc as [-> | Hc]; [|contradiction].
      exists l0. split; [exact Hl0|]. rewrite (Hout _ Hrest). apply lookup_insert_eq.
    + intros c Hc. apply not_elem_of_cons in Hc as [Hne Hrest].
      rewrite (Hout _ Hrest). apply lookup_insert_ne. congruence.
Qed.

Lemma action_input_mapping_covers_every_combination_aux (a : ActionSpace)
  input_mapping m :
  _generate_action_space_combination_input_mapping values_for_combination a
    input_mapping = Found m ->
  forall c, c ∈ combinations a ->
    exists l, input_values input_mapping (values_for_combination c) = Found l /\
              m !! c = Some (concat l).
Proof.
  intros Hgen. apply fill_action_input_mapping_Found in Hgen as [Hin _]. exact Hin.
Qed.


Lemma fill_action_input_mapping_total input_mapping
  (combinations : list (list (option string))) :
  (forall c v, c ∈ combinations -> Some v ∈ values_for_combination c ->
     is_Some (input_mapping !! v)) ->
  forall acc, exists m,
    fill_action_input_mapping values_for_combination input_mapping combinations acc
    = Found m.
Proof.
  induction combinations as [|c0 rest IH]; intros Hkeys acc; simpl; [eauto|].
  destruct (input_values_Found input_mapping (values_for_combination c0)) as [l ->].
  { intros v Hv. apply (Hkeys c0); [left|exact Hv]. }
  apply IH. intros c v Hc. apply Hkeys. right. exact Hc.
Qed.

Lemma fill_action_input_mapping_KeyError input_mapping
  (combinations : list (list (option string))) :
  forall acc,
    (forall m,
       fill_action_input_mapping values_for_combination input_mapping combinations acc
       <> Found m) ->
    fill_action_input_mapping values_for_combination input_mapping combinations acc
    = KeyError /\
    exists c v, c ∈ combinations /\ Some v ∈ values_for_combination c /\
                input_mapping !! v = None.
Proof.
  induction combinations as [|c0 rest IH]; intros acc Hnot; simpl in *.
  - exfalso. apply (Hnot acc). reflexivity.
  - destruct (input_values input_mapping (values_for_combination c0)) as [l0| |]
      eqn:Hl0.
    + destruct (IH _ Hnot) as [Hrest (c & v & Hc & Hv & Hnone)].
      split; [exact Hrest|]. exists c, v. split; [right; exact Hc|]. split; assumption.
    + destruct (input_values_not_Found input_mapping (values_for_combination c0))
        as [_ (v & Hv & Hnone)]; [congruence|].
      split; [reflexivity|]. exists c0, v. split; [left|]. split; assumption.
    + destruct (input_values_not_Found input_mapping (values_for_combination c0))
        as [Habs _]; congruence.
Qed.

(** X17. Building the mapping succeeds exactly when every value other than
    [None] of every combination is a key of [input_mapping]; otherwise it
    fails with [KeyError], for a value of a combination that is no key, and
    in no other way. *)
Theorem action_input_mapping_needs_every_value_mapped (a : ActionSpace)
  input_mapping :
  ((forall c v, c ∈ combinations a -> Some v ∈ values_for_combination c ->
      is_Some (input_mapping !! v)) <->
   exists m,
     _generate_action_space_combination_input_mapping values_for_combination a
       input_mapping = Found m) /\
  ((forall m,
      _generate_action_space_combination_input_mapping values_for_combination a
        input_mapping <> Found m) ->
   _generate_action_space_combination_input_mapping values_for_combination a
     input_mapping = KeyError /\
   exists c v, c ∈ combinations a /\ Some v ∈ values_for_combination c /\
               input_mapping !! v = None).
Proof.
  unfold _generate_action_space_combination_input_mapping. split; [split|].
  - intros Hkeys. apply fill_action_input_mapping_total, Hkeys.
  - intros [m Hm] c v Hc Hv.
    destruct (proj1 (fill_action_input_mapping_Found _ _ _ _ Hm) c Hc) as (l & Hl & _).
    clear Hm. revert l Hl Hv. generalize (values_for_combination c).
    induction l as [|[v'|] values IH]; intros l' Hl Hv; simpl in Hl.
    + inversion Hv.
    + destruct (input_mapping !! v') as [keys|] eqn:Hv'; [|discriminate].
      apply elem_of_cons in Hv as [[= ->] | Hv]; [rewrite Hv'; eauto|].
      destruct (input_values input_mapping values) as [l0| |]; try discriminate.
      apply (IH l0); [reflexivity|exact Hv].
    + apply elem_of_cons in Hv as [[=] | Hv]. apply (IH l'); assumption.
  - apply fill_action_input_mapping_KeyError.
Qed.

End ActionMapping.

Section Actions.

Context {KModel : Type}.
Variable values_for_combination : list (option string) -> list (option string).
Implicit Type s : DQN KModel.

Lemma py_index_in_range {A} (l : list A) (i : Z) :
  0 <= i < Z.of_nat (length l) ->
  exists x, l !! Z.to_nat i = Some x /\ py_index l (Some i) = Ok x.
Proof.
  intros Hi. unfold py_index.
  destruct (Z.ltb_spec i 0); [lia|].
  destruct (Z.leb_spec 0 i); [|lia].
  destruct (Z.ltb_spec i (Z.of_nat (length l))); [|lia].
  destruct (l !! Z.to_nat i) as [x|] eqn:Hx.
  - exists x. split; reflexivity.
  - apply lookup_ge_None in Hx. lia.
Qed.

(** X18. With the mapping that [__init__] built, every action index in
    [0, len(combinations)) resolves: [generate_action] makes the combination
    at that index the current action, and [get_input_values] then returns
    the inputs of its values, never [KeyError]. On an agent whose
    [current_action_index] is still [None], [generate_action] raises
    [TypeError] and leaves the current action as it was; with no current
    action, [get_input_values] raises [KeyError]. *)
Theorem generated_action_resolves s (input_mapping : gmap string (list string))
  (a : ActionAttributes) (i : Z) :
  _generate_action_space_combination_input_mapping values_for_combination
    (action_space KModel s) input_mapping = Found (action_input_mapping a) ->
  current_action_index s = Some i ->
  0 <= i < Z.of_nat (length (combinations (action_space KModel s))) ->
  (exists c l,
     combinations (action_space KModel s) !! Z.to_nat i = Some c /\
     generate_action s a = (Ok tt, MkActionAttributes (action_input_mapping a) (Some c)) /\
     input_values input_mapping (values_for_combination c) = Found l /\
     get_input_values (generate_action s a).2 = Found (concat l)) /\
  (forall (s0 : DQN KModel) (a0 : ActionAttributes),
     current_action_index s0 = None ->
     generate_action s0 a0 = (Raise TypeError, a0)) /\
  (forall a0 : ActionAttributes,
     current_action a0 = None -> get_input_values a0 = KeyError).
Proof.
  intros Hgen Hidx Hi. split; [|split].
  - destruct (py_index_in_range _ _ Hi) as (c & Hc & Hpy).
    destruct (action_input_mapping_covers_every_combination_aux _ _ _ _ Hgen c
                (list_elem_of_lookup_2 _ _ _ Hc)) as (l & Hl & Hm).
    exists c, l. unfold generate_action. rewrite Hidx, Hpy.
    repeat split; try assumption.
    unfold get_input_values. simpl. rewrite Hm. reflexivity.
  - intros s0 a0 H0. unfold generate_action. rewrite H0. reflexivity.
  - intros a0 H0. unfold get_input_values. rewrite H0. reflexivity.
Qed.

End Actions.

(** * Further examples *)

Module MoreExamples.

Import Stub Play.

(** The decay of the example does lower the epsilon of the fresh agent. *)
Example decay_lowers_epsilon :
  policy_epsilon (after decay fresh_agent) = PyFloat 0x1.d1eb851eb851fp-1.
Proof. vm_compute. reflexivity. Qed.

(** A training call that raises after its first flashback image has gone to
    the visual debugger: the image stays, model and loss are as they were. *)
Example failed_training_leaves_a_flashback_image :
  train_on_mini_batch six_draws ill_fitted_agent
  = (Raise ValueError,
     with_images [MkStoredImage [245; 244] [2%nat] "flashback_1"] ill_fitted_agent) /\
  visual_debugger ill_fitted_agent = [].
Proof. split; vm_compute; reflexivity. Qed.

(** X2, witness: the stepped agent, past its observe phase, through the
    session. *)
Lemma observe_phase_never_returns_witness :
  observing stepped_agent = false /\
  observing (after session stepped_agent) = false.
Proof.
  assert (Hpast : observing stepped_agent = false) by (vm_compute; reflexivity).
  split; [exact Hpast|].
  exact (proj1 (observe_phase_never_returns Stub.compile Stub.predict
                  Stub.train_on_batch Stub.astype_uint8 Stub.set_weights Stub.erode
                    Stub.unicode_space Stub.unicode_decimal Stub.float_parse
                  session stepped_agent Hpast)).
Defined.

(** X3, witness: the fresh agent through the session. *)
Lemma stored_transitions_are_never_terminal_witness :
  init ∅ scenario_config = Ok fresh_agent /\
  Forall recorded (items (replay_memory (after session fresh_agent))).
Proof.
  assert (Hinit : init ∅ scenario_config = Ok fresh_agent) by reflexivity.
  split; [exact Hinit|].
  exact (proj1 (stored_transitions_are_never_terminal Stub.sequential Stub.compile
                  Stub.predict Stub.train_on_batch Stub.astype_uint8 Stub.set_weights
                    Stub.erode
                  Stub.unicode_space Stub.unicode_decimal Stub.float_parse ∅
                    scenario_config fresh_agent session Hinit)).
Defined.

(** X4, witness: the seeded agent through appends and steps. *)
Lemma replay_memory_is_a_trajectory_witness :
  trajectory seeded_agent /\
  forallb keeps_frame_stack appends_and_steps = true /\
  chained (items (replay_memory (after appends_and_steps seeded_agent))).
Proof.
  assert (Hstart : trajectory seeded_agent).
  { split; [intros i t t' Ht; discriminate Ht|intros t Ht; discriminate Ht]. }
  assert (Hcalls : forallb keeps_frame_stack appends_and_steps = true)
    by reflexivity.
  split; [exact Hstart|]. split; [exact Hcalls|].
  exact (proj1 (replay_memory_is_a_trajectory Stub.compile Stub.predict
                  Stub.train_on_batch Stub.astype_uint8 Stub.set_weights Stub.erode
                    Stub.unicode_space Stub.unicode_decimal Stub.float_parse
                  appends_and_steps seeded_agent Hstart Hcalls)).
Defined.

(** X5, witness: five steps of the fresh agent, whose [observe_steps] is 5. *)
Lemma observe_phase_lasts_observe_steps_next_steps_witness :
  mode fresh_agent = TRAIN /\
  observe_steps fresh_agent = PyInt 5 /\
  times 5 next_step fresh_agent
  = (Ok tt,
     set_current_observe_step (current_observe_step fresh_agent + Z.of_nat 5)
       (set_current_step (current_step fresh_agent + Z.of_nat 5) fresh_agent)).
Proof.
  assert (Hmode : mode fresh_agent = TRAIN) by reflexivity.
  assert (Hsteps : observe_steps fresh_agent = PyInt 5) by reflexivity.
  split; [exact Hmode|]. split; [exact Hsteps|].
  exact (proj1 (observe_phase_lasts_observe_steps_next_steps Stub.predict
                  Stub.train_on_batch Stub.astype_uint8 fresh_agent 5 5 two_draws Hmode
                    Hsteps)).
Defined.

(** X6, witness: steps and decays during a stay of the checkpointed agent in
    RUN mode. *)
Lemma run_mode_freezes_steps_and_epsilon_witness :
  forallb steps_or_erodes steps_and_decays = true /\
  after steps_and_decays (exec enter_run_mode checkpointed_agent)
  = exec enter_run_mode checkpointed_agent.
Proof.
  assert (Hcalls : forallb steps_or_erodes steps_and_decays = true) by reflexivity.
  split; [exact Hcalls|].
  exact (proj1 (run_mode_freezes_steps_and_epsilon Stub.compile Stub.predict
                  Stub.train_on_batch Stub.astype_uint8 Stub.set_weights Stub.erode
                    Stub.unicode_space Stub.unicode_decimal Stub.float_parse
                  checkpointed_agent steps_and_decays Hcalls)).
Defined.


(** X8, witness: the training call of the stepped agent, with batches of 6
    and six stored transitions. *)
Lemma training_needs_six_to_memory_size_batch_witness :
  observing stepped_agent = false /\
  train_on_mini_batch six_draws stepped_agent = (Ok tt, trained_agent) /\
  6 <= batch_size stepped_agent
    <= Z.of_nat (length (items (replay_memory stepped_agent))).
Proof.
  assert (Hpast : observing stepped_agent = false) by (vm_compute; reflexivity).
  assert (Htrain : train_on_mini_batch six_draws stepped_agent
                   = (Ok tt, trained_agent)) by (vm_compute; reflexivity).
  split; [exact Hpast|]. split; [exact Htrain|].
  exact (proj1 (training_needs_six_to_memory_size_batch Stub.predict
                  Stub.train_on_batch Stub.astype_uint8 stepped_agent six_draws
                    trained_agent
                  Hpast Htrain)).
Defined.


(** X21, witness: the first append of the seeded agent. *)
Lemma append_records_stacks_action_and_reward_witness :
  append_to_replay_memory (frame 3 4) 1 seeded_agent = (Ok tt, one_append_agent) /\
  exists previous current : ndarray4,
    frame_stack seeded_agent = Some previous /\
    frame_stack one_append_agent = Some current /\
    (maxlen (replay_memory seeded_agent) <> Some 0%nat ->
     last (items (replay_memory one_append_agent))
     = Some (MkTransition previous (current_action_index seeded_agent) 1 current
               false)) /\
    (maxlen (replay_memory seeded_agent) = Some 0%nat ->
     items (replay_memory seeded_agent) = [] ->
     items (replay_memory one_append_agent) = []).
Proof.
  assert (Happ : append_to_replay_memory (frame 3 4) 1 seeded_agent
                 = (Ok tt, one_append_agent)) by (vm_compute; reflexivity).
  split; [exact Happ|].
  exact (append_records_stacks_action_and_reward seeded_agent (frame 3 4) 1
           one_append_agent Happ).
Defined.

(** X20, witness: the seed frame on the fresh agent. *)
Lemma build_frame_stack_fills_every_channel_witness :
  wf_frame seed_frame /\
  exists fs : ndarray4,
    build_frame_stack seed_frame fresh_agent
    = (Ok tt, set_frame_stack (Some fs) fresh_agent) /\
    arr_shape fs = (1%nat, (frame_shape seed_frame).1, (frame_shape seed_frame).2,
                    8%nat) /\
    wf_stack 8 fs /\
    (forall k : nat, (k < 8)%nat -> channel k fs = Ok seed_frame).
Proof.
  assert (Hwf : wf_frame seed_frame) by reflexivity.
  split; [exact Hwf|].
  exact (build_frame_stack_fills_every_channel fresh_agent seed_frame Hwf).
Defined.

(** X10, witness: a 1 x 2 frame pushed on the seeded stack. *)
Lemma update_frame_stack_shifts_channels_witness :
  frame_stack seeded_agent = Some seeded_stack /\
  arr_shape seeded_stack = (1%nat, 1%nat, 2%nat, 8%nat) /\
  wf_stack 8 seeded_stack /\
  frame_shape (frame 3 4) = (1%nat, 2%nat) /\
  wf_frame (frame 3 4) /\
  exists fs' : ndarray4,
    update_frame_stack (frame 3 4) seeded_agent
    = (Ok tt, set_frame_stack (Some fs') seeded_agent) /\
    arr_shape fs' = (1%nat, 1%nat, 2%nat, 8%nat) /\
    wf_stack 8 fs' /\
    channel 0 fs' = Ok (frame 3 4) /\
    (forall j : nat, (S j < 8)%nat -> channel (S j) fs' = channel j seeded_stack) /\
    (forall j : nat, (8 <= j)%nat -> channel j fs' = Raise IndexError).
Proof.
  assert (Hfs : frame_stack seeded_agent = Some seeded_stack) by reflexivity.
  assert (Hshape : arr_shape seeded_stack = (1%nat, 1%nat, 2%nat, 8%nat))
    by reflexivity.
  assert (Hstack : wf_stack 8 seeded_stack).
  { eexists _, _, _. split; [reflexivity|]. split; [reflexivity|].
    repeat constructor. }
  assert (Hg : frame_shape (frame 3 4) = (1%nat, 2%nat)) by reflexivity.
  assert (Hwf : wf_frame (frame 3 4)) by reflexivity.
  split; [exact Hfs|]. split; [exact Hshape|]. split; [exact Hstack|].
  split; [exact Hg|]. split; [exact Hwf|].
  exact (update_frame_stack_shifts_channels seeded_agent seeded_stack (frame 3 4)
           1 2 7 Hfs Hshape Hstack Hg Hwf).
Defined.

(** X11, witness: the agent at step 12 saved without [is_checkpoint], loaded
    into the fresh agent. *)
Lemma plain_save_cannot_be_loaded_witness :
  Stub.set_weights (model fresh_agent) (Stub.get_weights (model checkpointed_agent))
  = Ok (MkK 4 0 Logcosh) /\
  occurs "_" (py_str Stub.float_repr (policy_epsilon checkpointed_agent)) = false /\
  load_model_weights
    (save_model_weights file_path_prefix_default false checkpointed_agent ∅)
    (checkpoint_file_path file_path_prefix_default false checkpointed_agent)
    true fresh_agent
  = (Raise ValueError,
     set_model (Stub.compile (MkK 4 0 Logcosh) Mse (model_learning_rate fresh_agent))
       fresh_agent).
Proof.
  assert (Hset : Stub.set_weights (model fresh_agent)
                   (Stub.get_weights (model checkpointed_agent))
                 = Ok (MkK 4 0 Logcosh)) by reflexivity.
  assert (Heps : occurs "_" (py_str Stub.float_repr
                               (policy_epsilon checkpointed_agent)) = false)
    by (vm_compute; reflexivity).
  split; [exact Hset|]. split; [exact Heps|].
  exact (plain_save_cannot_be_loaded Stub.compile Stub.get_weights Stub.set_weights
           Stub.unicode_space Stub.unicode_decimal
           Stub.float_repr Stub.float_parse checkpointed_agent fresh_agent ∅
           file_path_prefix_default true (MkK 4 0 Logcosh) Hset Heps).
Defined.

(** X12, witness: checkpoints of the agent at step 12 and at step 13. *)
Lemma checkpoint_paths_tell_steps_apart_witness :
  occurs "_" (py_str Stub.float_repr (policy_epsilon checkpointed_agent)) = false /\
  occurs "_" (py_str Stub.float_repr
                (policy_epsilon (set_current_step 13 checkpointed_agent))) = false /\
  save_model_weights file_path_prefix_default true
    (set_current_step 13 checkpointed_agent)
    (save_model_weights file_path_prefix_default true checkpointed_agent ∅)
  !! checkpoint_file_path file_path_prefix_default true checkpointed_agent
  = Some (Stub.get_weights (model checkpointed_agent)).
Proof.
  assert (Heps : occurs "_" (py_str Stub.float_repr
                               (policy_epsilon checkpointed_agent)) = false)
    by (vm_compute; reflexivity).
  assert (Heps' : occurs "_" (py_str Stub.float_repr
                    (policy_epsilon (set_current_step 13 checkpointed_agent)))
                  = false) by (vm_compute; reflexivity).
  assert (Hsteps : current_step checkpointed_agent
                   <> current_step (set_current_step 13 checkpointed_agent))
    by discriminate.
  split; [exact Heps|]. split; [exact Heps'|].
  exact (proj2 (checkpoint_paths_tell_steps_apart Stub.get_weights Stub.float_repr
                  checkpointed_agent (set_current_step 13 checkpointed_agent) ∅
                  file_path_prefix_default file_path_prefix_default Heps Heps')
           Hsteps).
Defined.

(** X14, witness: [observe_steps=0] with a replay memory of 10. *)
Lemma zero_observe_steps_means_default_witness :
  init ∅ zero_observe_config = Ok zero_observe_agent /\
  py_truthy (default (PyInt 0) (cfg_observe_steps zero_observe_config)) = false /\
  exists (n : Z) (f : float),
    cfg_replay_memory_size zero_observe_config = Some n /\
    float_of_Z n = Ok f /\
    observe_steps zero_observe_agent = PyFloat (one_tenth * f).
Proof.
  assert (Hinit : init ∅ zero_observe_config = Ok zero_observe_agent)
    by (vm_compute; reflexivity).
  assert (Hzero : py_truthy (default (PyInt 0)
                               (cfg_observe_steps zero_observe_config)) = false)
    by reflexivity.
  split; [exact Hinit|]. split; [exact Hzero|].
  exact (zero_observe_steps_means_default Stub.sequential Stub.compile
           Stub.set_weights Stub.unicode_space Stub.unicode_decimal Stub.float_parse ∅
             zero_observe_config
           zero_observe_agent Hinit Hzero).
Defined.

(** X15, witness: an agent built from the checkpoint of the agent at
    step 12. *)
Lemma agent_built_from_checkpoint_restarts_observe_phase_witness :
  cfg_model_file_path checkpoint_config
  = Some (checkpoint_file_path file_path_prefix_default true checkpointed_agent) /\
  occurs "_" (py_str Stub.float_repr (policy_epsilon checkpointed_agent)) = false /\
  init (save_model_weights file_path_prefix_default true checkpointed_agent ∅)
    checkpoint_config = Ok restored_agent /\
  current_step restored_agent = current_step checkpointed_agent.
Proof.
  assert (Hpath : cfg_model_file_path checkpoint_config
                  = Some (checkpoint_file_path file_path_prefix_default true
                            checkpointed_agent)) by (vm_compute; reflexivity).
  assert (Heps : occurs "_" (py_str Stub.float_repr
                               (policy_epsilon checkpointed_agent)) = false)
    by (vm_compute; reflexivity).
  assert (Hinit : init (save_model_weights file_path_prefix_default true
                          checkpointed_agent ∅) checkpoint_config
                  = Ok restored_agent) by (vm_compute; reflexivity).
  split; [exact Hpath|]. split; [exact Heps|]. split; [exact Hinit|].
  exact (proj1 (agent_built_from_checkpoint_restarts_observe_phase Stub.sequential
                  Stub.compile Stub.get_weights Stub.set_weights Stub.unicode_space
                    Stub.unicode_decimal
           Stub.float_repr
                  Stub.float_parse checkpointed_agent ∅ file_path_prefix_default
                  checkpoint_config restored_agent Hpath Heps Hinit)).
Defined.

(** X22, witness: the agent built from the checkpoint of the agent at
    step 12. *)
Lemma agent_built_from_file_is_compiled_with_mse_witness :
  init checkpoint_disk checkpoint_config = Ok restored_agent /\
  let fresh_model :=
    Stub.compile (Stub.sequential (cfg_input_shape checkpoint_config)
                    (length (combinations (cfg_action_space checkpoint_config))))
      Logcosh (cfg_model_learning_rate checkpoint_config) in
  match cfg_model_file_path checkpoint_config with
  | None => model restored_agent = fresh_model
  | Some file_path =>
      exists (w : float) (loaded : KModel),
        checkpoint_disk !! file_path = Some w /\
        Stub.set_weights fresh_model w = Ok loaded /\
        model restored_agent
        = Stub.compile loaded Mse (cfg_model_learning_rate checkpoint_config)
  end.
Proof.
  assert (Hinit : init checkpoint_disk checkpoint_config = Ok restored_agent)
    by (vm_compute; reflexivity).
  split; [exact Hinit|].
  exact (agent_built_from_file_is_compiled_with_mse Stub.sequential Stub.compile
           Stub.set_weights Stub.unicode_space Stub.unicode_decimal Stub.float_parse
             checkpoint_disk checkpoint_config
           restored_agent Hinit).
Defined.


(** The keys of the combination W+A, in order. *)
Example keyboard_mapping_of_W_A :
  keyboard_mapping !! [Some "W"; Some "A"]%string = Some ["w"; "a"; "shift"]%string.
Proof. vm_compute. reflexivity. Qed.

(** X18, witness: action index 3 of the four actions. *)
Lemma generated_action_resolves_witness :
  _generate_action_space_combination_input_mapping values_for_combination
    (action_space KModel (agent 2 (Some 3))) keyboard
  = Found (action_input_mapping keyboard_actions) /\
  current_action_index (agent 2 (Some 3)) = Some 3 /\
  0 <= 3 < Z.of_nat (length (combinations (action_space KModel (agent 2 (Some 3))))) /\
  exists c l,
    combinations (action_space KModel (agent 2 (Some 3))) !! Z.to_nat 3 = Some c /\
    generate_action (agent 2 (Some 3)) keyboard_actions
    = (Ok tt, MkActionAttributes (action_input_mapping keyboard_actions) (Some c)) /\
    input_values keyboard (values_for_combination c) = Found l /\
    get_input_values (generate_action (agent 2 (Some 3)) keyboard_actions).2
    = Found (concat l).
Proof.
  assert (Hgen : _generate_action_space_combination_input_mapping
                   values_for_combination (action_space KModel (agent 2 (Some 3)))
                   keyboard
                 = Found (action_input_mapping keyboard_actions))
    by (vm_compute; reflexivity).
  assert (Hidx : current_action_index (agent 2 (Some 3)) = Some 3) by reflexivity.
  assert (Hrange : 0 <= 3 < Z.of_nat (length (combinations
                                 (action_space KModel (agent 2 (Some 3))))))
    by (simpl; lia).
  split; [exact Hgen|]. split; [exact Hidx|]. split; [exact Hrange|].
  exact (proj1 (generated_action_resolves values_for_combination (agent 2 (Some 3))
                  keyboard keyboard_actions 3 Hgen Hidx Hrange)).
Defined.

End MoreExamples.
